(** * FieldStation42 infobar overlay and series index: model and properties

    A shallow embedding of
      - [fs42/overlays/infobar_sv.py]  (event model, render cache, fade timer,
        file watcher, presentation loop),
      - [fs42/overlays/bridge.py]      (producer side: file + datagram),
      - [fs42/overlays/monkey_infobar_hook.py] (host adapter),
      - [fs42/series.py]               (episode index).

    Conventions of the embedding.
      - Python [int] is [Z]; Python [float] is an exact rational ([Q]), with
        the two infinities and NaN kept apart where a conversion looks at
        them.  The functions compute with the exact values; [binary64]
        gives the interpreter's rounding, and a property that depends on
        it says up to where the two agree.
      - Python [str] is [string]; a [dict] with string keys is an association
        list read by first match.
      - A statement that can raise runs in the monad [M]: a state transformer
        whose outcome is a value or an exception.  What was written to the
        state before a [raise] stays written, as in Python.
      - Clock readings ([time.time()], [datetime.now(timezone.utc)]) are
        arguments of the functions that take them. *)

From Stdlib Require Import ZArith QArith Qround Lia Lqa Bool List String Ascii.
From Stdlib Require Import Sorting.Mergesort Sorting.Sorted Sorting.Permutation Orders.
From Stdlib Require OrderedTypeEx Qpower Qabs.
Import ListNotations.

Local Open Scope string_scope.
Local Open Scope list_scope.
Local Open Scope Z_scope.

(** ** Exceptions and the state/exception monad *)

Inductive exn : Type :=
| ValueError
| TypeError
| OverflowError
| AttributeError
| IndexError
| OSError
| FileNotFoundError
| JSONDecodeError.

(** [except OSError]: the class and its subclass [FileNotFoundError]. *)
Definition is_OSError (e : exn) : bool :=
  match e with
  | OSError | FileNotFoundError => true
  | _ => false
  end.

(** [except FileNotFoundError]. *)
Definition is_FileNotFoundError (e : exn) : bool :=
  match e with
  | FileNotFoundError => true
  | _ => false
  end.

(** [except Exception]: every exception of the model. *)
Definition is_Exception (_ : exn) : bool := true.

Inductive outcome (A : Type) : Type :=
| Ret (a : A)
| Raise (e : exn).
Arguments Ret {A} a.
Arguments Raise {A} e.

Definition returns {A : Type} (o : outcome A) : bool :=
  match o with
  | Ret _ => true
  | Raise _ => false
  end.

Definition M (S A : Type) : Type := S -> outcome A * S.

Definition ret {S A : Type} (a : A) : M S A := fun s => (Ret a, s).

Definition raise {S A : Type} (e : exn) : M S A := fun s => (Raise e, s).

Definition bind {S A B : Type} (m : M S A) (k : A -> M S B) : M S B :=
  fun s =>
    match m s with
    | (Ret a, s') => k a s'
    | (Raise e, s') => (Raise e, s')
    end.

Definition get {S : Type} : M S S := fun s => (Ret s, s).

Definition put {S : Type} (s : S) : M S unit := fun _ => (Ret tt, s).

Definition modify {S : Type} (f : S -> S) : M S unit := fun s => (Ret tt, f s).

(** A pure computation that may raise, run inside [M]. *)
Definition lift {S A : Type} (o : outcome A) : M S A := fun s => (o, s).

Declare Scope py_scope.
Delimit Scope py_scope with py.
Notation "x <- m ;; k" := (bind m (fun x => k))
  (at level 100, m at next level, right associativity) : py_scope.
Notation "m ;;; k" := (bind m (fun _ => k))
  (at level 100, right associativity) : py_scope.

(** The same for code that raises but touches no state. *)
Definition obind {A B : Type} (o : outcome A) (k : A -> outcome B) : outcome B :=
  match o with
  | Ret a => k a
  | Raise e => Raise e
  end.

Notation "x <~ o ;; k" := (obind o (fun x => k))
  (at level 100, o at next level, right associativity) : py_scope.

(** ** Python values *)

Inductive pyfloat : Type :=
| Finite (q : Q)
| Infinity (negative : bool)
| NaN.

(** Values a payload can hold: what [json.loads] builds, and [PObject] for any
    other object a host application may pass (it is truthy, is no instance of
    [dict], [str], [int] or [float], and has no [get]). *)
#[warnings="-register-all"]
Inductive pyval : Type :=
| PNone
| PBool (b : bool)
| PInt (z : Z)
| PFloat (f : pyfloat)
| PStr (s : string)
| PList (l : list pyval)
| PDict (d : list (string * pyval))
| PObject (tag : string).

Definition pydict : Type := list (string * pyval).

(** [bool(x)]. *)
Definition truthy (v : pyval) : bool :=
  match v with
  | PNone => false
  | PBool b => b
  | PInt z => negb (z =? 0)
  | PFloat (Finite q) => negb (Qeq_bool q 0)
  | PFloat _ => true
  | PStr s => negb (s =? "")%string
  | PList l => match l with [] => false | _ => true end
  | PDict d => match d with [] => false | _ => true end
  | PObject _ => true
  end.

Fixpoint lookup (k : string) (d : pydict) : option pyval :=
  match d with
  | [] => None
  | (k', v) :: d' => if (k =? k')%string then Some v else lookup k d'
  end.

(** [d.get(k, default)] on a dict. *)
Definition dict_get (d : pydict) (k : string) (default : pyval) : pyval :=
  match lookup k d with
  | Some v => v
  | None => default
  end.

(** [x.get(k, default)] on any value: only a dict has the method. *)
Definition py_get (x : pyval) (k : string) (default : pyval) : outcome pyval :=
  match x with
  | PDict d => Ret (dict_get d k default)
  | _ => Raise AttributeError
  end.

Definition isinstance_dict (v : pyval) : bool :=
  match v with PDict _ => true | _ => false end.

(** ** Numbers and their text *)

(** [int(x)] of a float: truncation toward zero. *)
Definition Qtrunc (q : Q) : Z := Z.quot (Qnum q) (Zpos (Qden q)).

Definition digit_char (d : Z) : ascii := ascii_of_nat (48 + Z.to_nat d).

Fixpoint digits_fuel (fuel : nat) (n : Z) (acc : string) : string :=
  match fuel with
  | O => acc
  | S fuel' =>
      let acc' := String (digit_char (n mod 10)) acc in
      if n <? 10 then acc' else digits_fuel fuel' (n / 10) acc'
  end.

(** Decimal digits of a non-negative integer. *)
Definition digits (n : Z) : string := digits_fuel (S (Z.to_nat (Z.log2 n))) n "".

(** [str(n)] of an int. *)
Definition str_int (z : Z) : string :=
  if z <? 0 then ("-" ++ digits (- z))%string else digits z.

(** [f"{n:02d}"]: sign-aware zero padding to width two. *)
Definition fmt_02d (z : Z) : string :=
  if (0 <=? z) && (z <? 10) then ("0" ++ str_int z)%string else str_int z.

(** ** Dates and times *)

(** A [datetime] as a parser or a caller hands it over: wall-clock
    microseconds since 1970-01-01T00:00:00 in its own zone, and the zone's
    offset from UTC in microseconds ([None]: naive). *)
Record datetime : Type := mk_datetime {
  wall_us : Z;
  utcoffset_us : option Z
}.

(** An aware datetime in [timezone.utc], by its microseconds since the epoch.
    Every datetime of an [InfobarEvent] is one ([from_json], lines 94-96 and
    102-103). *)
Record utc_datetime : Type := mk_utc { epoch_us : Z }.

(** [datetime.min] and [datetime.max] in microseconds since the epoch:
    0001-01-01T00:00:00 and 9999-12-31T23:59:59.999999. *)
Definition DATETIME_MIN_US : Z := -62135596800 * 1000000.
Definition DATETIME_MAX_US : Z := 253402300799 * 1000000 + 999999.

(** [dt.replace(tzinfo=timezone.utc)]: same wall clock, now read as UTC. *)
Definition replace_tzinfo_utc (dt : datetime) : utc_datetime :=
  mk_utc (wall_us dt).

(** [dt.astimezone(timezone.utc)] of an aware datetime with offset [off]. *)
Definition astimezone_utc (dt : datetime) (off : Z) : outcome utc_datetime :=
  let u := wall_us dt - off in
  if (DATETIME_MIN_US <=? u) && (u <=? DATETIME_MAX_US)
  then Ret (mk_utc u)
  else Raise OverflowError.

(** [dt.timestamp()] of an aware datetime. *)
Definition timestamp (dt : utc_datetime) : Q := epoch_us dt # 1000000.

(** [(a - b).total_seconds()]. *)
Definition total_seconds_between (a b : utc_datetime) : Q :=
  (epoch_us a - epoch_us b) # 1000000.

(** [dt.replace(microsecond=0)]. *)
Definition replace_microsecond_0 (dt : datetime) : datetime :=
  mk_datetime (wall_us dt - wall_us dt mod 1000000) (utcoffset_us dt).

(** [datetime.utcfromtimestamp(x)] for a number of seconds [x]: a naive
    datetime, rounded to the microsecond (half to even); out of the
    supported years it raises. *)
Definition round_half_even (q : Q) : Z :=
  let f := Qfloor q in
  let r := (q - inject_Z f)%Q in
  match Qcompare r (1 # 2) with
  | Lt => f
  | Gt => f + 1
  | Eq => if Z.even f then f else f + 1
  end.

Definition utcfromtimestamp (x : Q) : outcome datetime :=
  let u := round_half_even (x * inject_Z 1000000)%Q in
  if (DATETIME_MIN_US <=? u) && (u <=? DATETIME_MAX_US)
  then Ret (mk_datetime u None)
  else Raise OverflowError.

(** What one call reads from the clocks: [time.time()] and
    [datetime.now(timezone.utc)]. *)
Record clock : Type := mk_clock {
  time_time : Q;
  now_utc : utc_datetime
}.

(** ** Built-ins of the Python runtime that read or write text

    The repository calls them and does not define them; their grammars differ
    between CPython versions ([fromisoformat] accepts more since 3.11).  The
    model takes them as an interface: [None] stands for [ValueError]. *)
Class Builtins : Type := {
  (** [int(s)] of a [str]. *)
  int_of_str : string -> option Z;
  (** [float(s)] of a [str]. *)
  float_of_str : string -> option pyfloat;
  (** [str(x)] of a float, a list, a dict or any other object. *)
  repr : pyval -> string;
  (** [datetime.fromisoformat(s)] of a [str]. *)
  fromisoformat : string -> option datetime;
  (** [dt.isoformat()]. *)
  isoformat : datetime -> string
}.

(** Largest magnitude [float(n)] converts: at [2^1024 - 2^970] rounding
    reaches the infinity and CPython raises [OverflowError]. *)
Definition FLOAT_INT_LIMIT : Z := 2 ^ 1024 - 2 ^ 970.

Section Conversions.
Context {B : Builtins}.

(** [int(x)]. *)
Definition py_int (v : pyval) : outcome Z :=
  match v with
  | PInt z => Ret z
  | PBool b => Ret (if b then 1 else 0)
  | PFloat (Finite q) => Ret (Qtrunc q)
  | PFloat (Infinity _) => Raise OverflowError
  | PFloat NaN => Raise ValueError
  | PStr s =>
      match int_of_str s with
      | Some z => Ret z
      | None => Raise ValueError
      end
  | PNone | PList _ | PDict _ | PObject _ => Raise TypeError
  end.

(** [float(x)]. *)
Definition py_float (v : pyval) : outcome pyfloat :=
  match v with
  | PFloat f => Ret f
  | PInt z =>
      if Z.abs z <? FLOAT_INT_LIMIT then Ret (Finite (inject_Z z))
      else Raise OverflowError
  | PBool b => Ret (Finite (if b then 1 else 0)%Q)
  | PStr s =>
      match float_of_str s with
      | Some f => Ret f
      | None => Raise ValueError
      end
  | PNone | PList _ | PDict _ | PObject _ => Raise TypeError
  end.

(** [str(x)]. *)
Definition py_str (v : pyval) : string :=
  match v with
  | PStr s => s
  | PNone => "None"
  | PBool true => "True"
  | PBool false => "False"
  | PInt z => str_int z
  | PFloat _ | PList _ | PDict _ | PObject _ => repr v
  end.

(** [datetime.fromisoformat(x)]: a [str] only. *)
Definition datetime_fromisoformat (v : pyval) : outcome datetime :=
  match v with
  | PStr s =>
      match fromisoformat s with
      | Some dt => Ret dt
      | None => Raise ValueError
      end
  | _ => Raise TypeError
  end.
End Conversions.

(** ** infobar_sv.py: configuration *)

Definition VIS_SECONDS : Q := 5.
Definition FADE_IN : Q := 18 # 100.
Definition FADE_OUT : Q := 28 # 100.

(** ** infobar_sv.py: the event *)

Record InfobarEvent : Type := mk_event {
  channel_number : Z;
  channel_name : string;
  title : string;
  start : utc_datetime;
  end_ : utc_datetime;
  ts : pyfloat;
  next_title : option string;
  next_start : option utc_datetime
}.

Section FromJson.
Context {B : Builtins}.

(** The local helper of [from_json]: ISO text to UTC, a falsy argument to
    [None]. *)
Definition parse_iso (s : pyval) : outcome (option utc_datetime) :=
  if negb (truthy s) then Ret None
  else
    (dt <~ datetime_fromisoformat s ;;
     match utcoffset_us dt with
     | None => Ret (Some (replace_tzinfo_utc dt))
     | Some off => (u <~ astimezone_utc dt off ;; Ret (Some u))
     end)%py.

(** [x or datetime.now(timezone.utc)] for an optional datetime (a datetime
    is always truthy). *)
Definition or_now (c : clock) (x : option utc_datetime) : utc_datetime :=
  match x with
  | Some u => u
  | None => now_utc c
  end.

(** [InfobarEvent.from_json(d)]; the keyword arguments are evaluated in the
    order they are written, so the first failing conversion is the one
    raised. *)
Definition from_json (c : clock) (d : pyval) : outcome InfobarEvent :=
  (v_num <~ py_get d "channel_number" (PInt 0) ;;
   e_num <~ py_int v_num ;;
   v_name <~ py_get d "channel_name" (PStr "") ;;
   v_title <~ py_get d "title" (PStr "") ;;
   v_start <~ py_get d "start" PNone ;;
   e_start <~ parse_iso v_start ;;
   v_end <~ py_get d "end" PNone ;;
   e_end <~ parse_iso v_end ;;
   v_ts <~ py_get d "ts" (PFloat (Finite (time_time c))) ;;
   e_ts <~ py_float v_ts ;;
   c_ntitle <~ py_get d "next_title" PNone ;;
   e_ntitle <~ (if truthy c_ntitle
                then (v <~ py_get d "next_title" PNone ;; Ret (Some (py_str v)))
                else Ret None) ;;
   c_nstart <~ py_get d "next_start" PNone ;;
   e_nstart <~ (if truthy c_nstart
                then (v <~ py_get d "next_start" PNone ;; parse_iso v)
                else Ret None) ;;
   Ret (mk_event e_num (py_str v_name) (py_str v_title)
                 (or_now c e_start) (or_now c e_end) e_ts e_ntitle e_nstart))%py.
End FromJson.

(** ** A reference instance of the built-ins

    The ASCII core of each grammar, to run the models on concrete payloads:
    decimal [int] and [float] literals, and ISO-8601 text of the form
    [YYYY-MM-DD[THH:MM[:SS[.ffffff]]][+HH:MM]], which every CPython from 3.7 on
    reads the same way.  The general theorems below hold for every instance
    of [Builtins]; only the closed examples use this one. *)
Module RefBuiltins.

Definition is_space (c : ascii) : bool :=
  match nat_of_ascii c with
  | 9%nat | 10%nat | 11%nat | 12%nat | 13%nat | 32%nat => true
  | _ => false
  end.

Fixpoint lstrip (s : string) : string :=
  match s with
  | String c s' => if is_space c then lstrip s' else s
  | EmptyString => s
  end.

Fixpoint rev_onto (s acc : string) : string :=
  match s with
  | String c s' => rev_onto s' (String c acc)
  | EmptyString => acc
  end.

Definition strip (s : string) : string :=
  rev_onto (lstrip (rev_onto (lstrip s) "")) "".

Definition digit_of (c : ascii) : option Z :=
  let n := Z.of_nat (nat_of_ascii c) in
  if (48 <=? n) && (n <=? 57) then Some (n - 48) else None.

(** Digits with single underscores between them; [seen] says whether the
    previous character was a digit. *)
Fixpoint digit_run (s : string) (acc : Z) (seen : bool) : option Z :=
  match s with
  | EmptyString => if seen then Some acc else None
  | String c s' =>
      if (c =? "_")%char
      then (if seen then digit_run s' acc false else None)
      else match digit_of c with
           | Some d => digit_run s' (10 * acc + d) true
           | None => None
           end
  end.

Definition signed (s : string) : bool * string :=
  match s with
  | String "-" s' => (true, s')
  | String "+" s' => (false, s')
  | _ => (false, s)
  end.

Definition ref_int_of_str (s : string) : option Z :=
  let (neg, body) := signed (strip s) in
  match digit_run body 0 false with
  | Some n => Some (if neg then - n else n)
  | None => None
  end.

(** Exactly [n] digits at the front of [s]: their value and the rest. *)
Fixpoint take_digits (n : nat) (s : string) (acc : Z) : option (Z * string) :=
  match n with
  | O => Some (acc, s)
  | S n' =>
      match s with
      | String c s' =>
          match digit_of c with
          | Some d => take_digits n' s' (10 * acc + d)
          | None => None
          end
      | EmptyString => None
      end
  end.

(** Digits up to the first non-digit: value, count and rest. *)
Fixpoint span_digits (s : string) (acc : Z) (n : nat) : Z * nat * string :=
  match s with
  | String c s' =>
      match digit_of c with
      | Some d => span_digits s' (10 * acc + d) (S n)
      | None => (acc, n, s)
      end
  | EmptyString => (acc, n, s)
  end.

Definition pow10 (n : nat) : Z := 10 ^ Z.of_nat n.

(** [digits[.digits]] as a rational; at least one digit overall. *)
Definition ref_float_of_str (s : string) : option pyfloat :=
  let (neg, body) := signed (strip s) in
  let '(ip, ni, rest) := span_digits body 0 0 in
  let finish (q : Q) := Some (Finite (if neg then - q else q)%Q) in
  match rest with
  | EmptyString => if (0 <? ni)%nat then finish (inject_Z ip) else None
  | String "." rest' =>
      let '(fp, nf, rest'') := span_digits rest' 0 0 in
      match rest'' with
      | EmptyString =>
          if (0 <? ni + nf)%nat
          then finish (inject_Z ip + (fp # Z.to_pos (pow10 nf)))%Q
          else None
      | _ => None
      end
  | _ => None
  end.

Definition is_leap (y : Z) : bool :=
  ((y mod 4 =? 0) && negb (y mod 100 =? 0)) || (y mod 400 =? 0).

Definition days_in_month (y m : Z) : Z :=
  match m with
  | 2 => if is_leap y then 29 else 28
  | 4 | 6 | 9 | 11 => 30
  | _ => 31
  end.

Definition days_before_year (y : Z) : Z :=
  let p := y - 1 in p * 365 + p / 4 - p / 100 + p / 400.

Fixpoint days_before_month_aux (y : Z) (k : nat) : Z :=
  match k with
  | O => 0
  | S k' => days_before_month_aux y k' + days_in_month y (Z.of_nat k)
  end.

Definition days_before_month (y m : Z) : Z :=
  days_before_month_aux y (Z.to_nat (m - 1)).

(** The proleptic Gregorian ordinal of 1970-01-01. *)
Definition EPOCH_ORDINAL : Z := 719163.

Definition ymd_to_days (y m d : Z) : Z :=
  days_before_year y + days_before_month y m + d - EPOCH_ORDINAL.

Definition US_PER_DAY : Z := 86400 * 1000000.

Definition expect (c : ascii) (s : string) : option string :=
  match s with
  | String c' s' => if (c =? c')%char then Some s' else None
  | EmptyString => None
  end.

Definition obind_opt {A C : Type} (o : option A) (k : A -> option C) : option C :=
  match o with
  | Some a => k a
  | None => None
  end.

Notation "x <?- o ;; k" := (obind_opt o (fun x => k))
  (at level 100, o at next level, right associativity).

(** [+HH:MM] or [-HH:MM] to the end of the text, in microseconds. *)
Definition parse_offset (s : string) : option Z :=
  match s with
  | String sg s1 =>
      if (sg =? "+")%char || (sg =? "-")%char then
        (p1 <?- take_digits 2 s1 0 ;;
         s2 <?- expect ":" (snd p1) ;;
         p2 <?- take_digits 2 s2 0 ;;
         match snd p2 with
         | EmptyString =>
             if (fst p1 <? 24) && (fst p2 <? 60) then
               let us := (fst p1 * 3600 + fst p2 * 60) * 1000000 in
               Some (if (sg =? "-")%char then - us else us)
             else None
         | _ => None
         end)
      else None
  | EmptyString => None
  end.

(** The part after [HH:MM]: optional seconds, fraction and offset. *)
Definition parse_tail (s : string) : option (Z * option Z) :=
  let with_offset (us : Z) (rest : string) : option (Z * option Z) :=
    match rest with
    | EmptyString => Some (us, None)
    | _ => (off <?- parse_offset rest ;; Some (us, Some off))
    end in
  match expect ":" s with
  | Some s1 =>
      (p <?- take_digits 2 s1 0 ;;
       if fst p <? 60 then
         match expect "." (snd p) with
         | Some s2 =>
             let '(f, n, rest) := span_digits s2 0 0 in
             if (n =? 6)%nat then with_offset (fst p * 1000000 + f) rest
             else if (n =? 3)%nat then with_offset (fst p * 1000000 + f * 1000) rest
             else None
         | None => with_offset (fst p * 1000000) (snd p)
         end
       else None)
  | None => with_offset 0 s
  end.

Definition ref_fromisoformat (s : string) : option datetime :=
  (py <?- take_digits 4 s 0 ;;
   s1 <?- expect "-" (snd py) ;;
   pm <?- take_digits 2 s1 0 ;;
   s2 <?- expect "-" (snd pm) ;;
   pd <?- take_digits 2 s2 0 ;;
   let '(y, m, d) := (fst py, fst pm, fst pd) in
   if (1 <=? y) && (1 <=? m) && (m <=? 12) && (1 <=? d) && (d <=? days_in_month y m)
   then
     let day_us := ymd_to_days y m d * US_PER_DAY in
     match snd pd with
     | EmptyString => Some (mk_datetime day_us None)
     | String _ s3 =>
         (ph <?- take_digits 2 s3 0 ;;
          s4 <?- expect ":" (snd ph) ;;
          pmin <?- take_digits 2 s4 0 ;;
          t <?- parse_tail (snd pmin) ;;
          if (fst ph <? 24) && (fst pmin <? 60)
          then Some (mk_datetime
                       (day_us + (fst ph * 3600 + fst pmin * 60) * 1000000 + fst t)
                       (snd t))
          else None)
     end
   else None).

(** Days since the epoch to year, month, day. *)
Definition days_to_ymd (days : Z) : Z * Z * Z :=
  let z := days + 719468 in
  let era := z / 146097 in
  let doe := z - era * 146097 in
  let yoe := (doe - doe / 1460 + doe / 36524 - doe / 146096) / 365 in
  let doy := doe - (365 * yoe + yoe / 4 - yoe / 100) in
  let mp := (5 * doy + 2) / 153 in
  let d := doy - (153 * mp + 2) / 5 + 1 in
  let m := if mp <? 10 then mp + 3 else mp - 9 in
  let y := yoe + era * 400 + (if m <=? 2 then 1 else 0) in
  (y, m, d).

Fixpoint zeros (n : nat) : string :=
  match n with
  | O => ""
  | S n' => String "0" (zeros n')
  end.

Definition zero_pad (width : nat) (s : string) : string :=
  (zeros (width - String.length s) ++ s)%string.

Definition ref_isoformat (dt : datetime) : string :=
  let days := wall_us dt / US_PER_DAY in
  let rem := wall_us dt mod US_PER_DAY in
  let '(y, m, d) := days_to_ymd days in
  let secs := rem / 1000000 in
  let us := rem mod 1000000 in
  let date := (zero_pad 4 (digits y) ++ "-" ++ fmt_02d m ++ "-" ++ fmt_02d d)%string in
  let time := (fmt_02d (secs / 3600) ++ ":" ++ fmt_02d (secs / 60 mod 60) ++ ":"
               ++ fmt_02d (secs mod 60))%string in
  let frac := if us =? 0 then "" else ("." ++ zero_pad 6 (digits us))%string in
  let zone :=
    match utcoffset_us dt with
    | None => ""
    | Some off =>
        let a := Z.abs off / 1000000 in
        ((if (off <? 0)%Z then "-" else "+") ++ fmt_02d (a / 3600) ++ ":"
         ++ fmt_02d (a / 60 mod 60))%string
    end in
  (date ++ "T" ++ time ++ frac ++ zone)%string.

(** [repr] of the remaining values is not used by the examples. *)
Definition ref_repr (v : pyval) : string :=
  match v with
  | PObject tag => tag
  | _ => "..."
  end.

Definition builtins : Builtins := {|
  int_of_str := ref_int_of_str;
  float_of_str := ref_float_of_str;
  repr := ref_repr;
  fromisoformat := ref_fromisoformat;
  isoformat := ref_isoformat
|}.

End RefBuiltins.

(** ** infobar_sv.py: the renderer *)

(** [a < b] on floats. *)
Definition Qltb (a b : Q) : bool := negb (Qle_bool b a).

(** [max(a, b)]: the first argument unless the second is larger. *)
Definition py_max (a b : Q) : Q := if Qltb a b then b else a.

(** The composited image, by the texts that depend on the event (geometry,
    colours and the fixed menu row are not modelled). *)
Record image : Type := mk_image {
  img_number : string;
  img_channel : string;
  img_title : string;
  img_remaining : string;
  img_next : option string
}.

(** The calls that reach the graphics context. *)
Inductive gl_call : Type :=
| GlUpload (img : image)
| GlClear
| GlDraw (alpha : Q)
| GlSwap.

(** The tuple [ensure_texture] compares. *)
Definition cache_key : Type := (Z * string * string * Z * option string * Z)%type.

Definition opt_string_eqb (a b : option string) : bool :=
  match a, b with
  | Some x, Some y => (x =? y)%string
  | None, None => true
  | _, _ => false
  end.

Definition key_eqb (a b : cache_key) : bool :=
  let '(n1, c1, t1, e1, nt1, ns1) := a in
  let '(n2, c2, t2, e2, nt2, ns2) := b in
  (n1 =? n2) && (c1 =? c2)%string && (t1 =? t2)%string && (e1 =? e2)
  && opt_string_eqb nt1 nt2 && (ns1 =? ns2).

(** [key != self.current_img_key], the stored key being [None] at first. *)
Definition key_differs (k : cache_key) (stored : option cache_key) : bool :=
  match stored with
  | Some k' => negb (key_eqb k k')
  | None => true
  end.

Record InfoBarRenderer : Type := mk_renderer {
  tex : option image;
  current_img_key : option cache_key
}.

(** [InfoBarRenderer.fmt_remaining(now_utc, end_utc)]. *)
Definition fmt_remaining (now_ end_utc : utc_datetime) : string :=
  let secs := Qtrunc (total_seconds_between end_utc now_) in
  let secs := if secs <? 0 then 0 else secs in
  let h := secs / 3600 in
  let m := (secs mod 3600) / 60 in
  ("Remaining time " ++ fmt_02d h ++ ":" ++ fmt_02d m ++ " Hours")%string.

(** [dt.astimezone(timezone.utc).strftime("%H:%M")] of a UTC datetime. *)
Definition strftime_HM (dt : utc_datetime) : string :=
  let sod := (epoch_us dt / 1000000) mod 86400 in
  (fmt_02d (sod / 3600) ++ ":" ++ fmt_02d (sod / 60 mod 60))%string.

(** Truth value of an optional string ([None] and the empty string are
    falsy). *)
Definition opt_truthy (s : option string) : bool :=
  match s with
  | Some x => negb (x =? "")%string
  | None => false
  end.

(** [InfoBarRenderer._draw_infobar_image(ev)], the clock read for the
    remaining time. *)
Definition _draw_infobar_image (c : clock) (ev : InfobarEvent) : image :=
  let rem := fmt_remaining (now_utc c) (end_ ev) in
  let next :=
    if opt_truthy (next_title ev) then
      let text := match next_title ev with Some x => x | None => "" end in
      match next_start ev with
      | Some ns => Some (text ++ "  " ++ strftime_HM ns)%string
      | None => Some text
      end
    else None in
  mk_image (str_int (channel_number ev)) (channel_name ev) (title ev) rem next.

(** [int(ev.end.timestamp() if ev.end else 0)]: a datetime is always truthy. *)
Definition end_seconds (ev : InfobarEvent) : Z :=
  Qtrunc (timestamp (end_ ev)).

(** [int(ev.next_start.timestamp() if ev.next_start else 0)]. *)
Definition next_start_seconds (ev : InfobarEvent) : Z :=
  match next_start ev with
  | Some ns => Qtrunc (timestamp ns)
  | None => 0
  end.

(** The key of an event, as [ensure_texture] builds it (line 229). *)
Definition key_of (ev : InfobarEvent) : cache_key :=
  (channel_number ev, channel_name ev, title ev, end_seconds ev,
   next_title ev, next_start_seconds ev).

(** [InfoBarRenderer.ensure_texture(ev)]: the renderer afterwards and the
    graphics calls made. *)
Definition ensure_texture (c : clock) (ev : InfobarEvent) (r : InfoBarRenderer)
  : InfoBarRenderer * list gl_call :=
  let key := key_of ev in
  if key_differs key (current_img_key r) then
    let img := _draw_infobar_image c ev in
    (mk_renderer (Some img) (Some key), [GlUpload img])
  else (r, []).

(** ** infobar_sv.py: the overlay application *)

(** The fields of [OverlayApp] the loop reads and writes, and [gl], the calls
    issued so far to the graphics context (oldest first). *)
Record OverlayApp : Type := mk_app {
  renderer : InfoBarRenderer;
  visible_until : Q;
  fade_state : string;
  fade_t0 : Q;
  event : option InfobarEvent;
  _file_mtime : Q;
  gl : list gl_call
}.

(** The state [__init__] leaves. *)
Definition init_app : OverlayApp :=
  mk_app (mk_renderer None None) 0 "idle" 0 None 0 [].

Definition emit (calls : list gl_call) : M OverlayApp unit :=
  modify (fun a => mk_app (renderer a) (visible_until a) (fade_state a) (fade_t0 a)
                          (event a) (_file_mtime a) (gl a ++ calls)).

Definition set_fade_state (s : string) : M OverlayApp unit :=
  modify (fun a => mk_app (renderer a) (visible_until a) s (fade_t0 a)
                          (event a) (_file_mtime a) (gl a)).

(** [OverlayApp._on_event(ev)]. *)
Definition _on_event (c : clock) (ev : InfobarEvent) : M OverlayApp unit :=
  (modify (fun a => mk_app (renderer a) (visible_until a) (fade_state a) (fade_t0 a)
                           (Some ev) (_file_mtime a) (gl a)) ;;;
   a <- get ;;
   let (r, calls) := ensure_texture c ev (renderer a) in
   modify (fun a => mk_app r (visible_until a) (fade_state a) (fade_t0 a)
                           (event a) (_file_mtime a) (gl a ++ calls)) ;;;
   set_fade_state "in" ;;;
   modify (fun a => mk_app (renderer a) (visible_until a) (fade_state a) (time_time c)
                           (event a) (_file_mtime a) (gl a)) ;;;
   modify (fun a => mk_app (renderer a)
                           (fade_t0 a + FADE_IN + VIS_SECONDS + FADE_OUT)%Q
                           (fade_state a) (fade_t0 a)
                           (event a) (_file_mtime a) (gl a)))%py.

(** The watched file as one poll finds it: its modification time and what
    [json.load] makes of its text ([None]: not JSON). *)
Record event_file : Type := mk_file {
  st_mtime : Q;
  json : option pyval
}.

(** [os.stat(EVENT_FILE)], the file being there or not. *)
Definition os_stat (f : option event_file) : outcome event_file :=
  match f with
  | Some st => Ret st
  | None => Raise FileNotFoundError
  end.

(** [json.load(f)]. *)
Definition json_load (f : event_file) : outcome pyval :=
  match json f with
  | Some v => Ret v
  | None => Raise JSONDecodeError
  end.

(** [try: body] followed by [except] clauses: the first clause whose class
    test accepts the exception handles it. *)
Fixpoint handle {S A : Type} (clauses : list ((exn -> bool) * M S A)) (e : exn)
  : M S A :=
  match clauses with
  | [] => raise e
  | (catches, handler) :: rest => if catches e then handler else handle rest e
  end.

Definition try_excepts {S A : Type} (body : M S A)
           (clauses : list ((exn -> bool) * M S A)) : M S A :=
  fun s =>
    match body s with
    | (Ret a, s') => (Ret a, s')
    | (Raise e, s') => handle clauses e s'
    end.

(** Lines 343-352 of [run]: the branch on the time [t] since the event was
    accepted, giving the new [fade_state] and the local [alpha]. *)
Definition fade_phase (t : Q) : string * Q :=
  if Qltb t FADE_IN then ("in", (t / FADE_IN)%Q)
  else if Qltb t (FADE_IN + VIS_SECONDS)%Q then ("hold", 1%Q)
  else
    let t2 := (t - (FADE_IN + VIS_SECONDS))%Q in
    ("out", py_max 0 (1 - t2 / FADE_OUT)%Q).

(** Lines 336-357 of [run]: what one iteration does after the poll, at
    frame time [now = time.time()].  The value returned is the local
    [alpha], so that it can be observed. *)
Definition draw_frame (now : Q) : M OverlayApp Q :=
  (emit [GlClear] ;;;
   a <- get ;;
   alpha <-
     (match event a with
      | Some _ =>
          if Qltb now (visible_until a) then
            let t := (now - fade_t0 a)%Q in
            let (st, alpha) := fade_phase t in
            (set_fade_state st ;;;
             emit [GlDraw alpha] ;;;
             ret alpha)
          else ret 0%Q
      | None => ret 0%Q
      end) ;;
   emit [GlSwap] ;;;
   ret alpha)%py.

(** The opacity of section 4.4 of the specification, in its words: a ramp
    [t / FADE_IN], then 1, then [1 - (t - FADE_IN - HOLD) / FADE_OUT] floored
    at 0, then 0 from the expiry on. *)
Definition HOLD : Q := VIS_SECONDS.

Definition opacity_spec (t : Q) : Q :=
  if Qltb t FADE_IN then (t / FADE_IN)%Q
  else if Qltb t (FADE_IN + HOLD)%Q then 1%Q
  else if Qltb t (FADE_IN + HOLD + FADE_OUT)%Q then
    let x := (1 - (t - FADE_IN - HOLD) / FADE_OUT)%Q in
    if Qltb x 0 then 0%Q else x
  else 0%Q.

(** The state names of section 4.4, as the strings [fade_state] takes. *)
Definition state_spec (t : Q) : string :=
  if Qltb t FADE_IN then "in"
  else if Qltb t (FADE_IN + HOLD)%Q then "hold"
  else if Qltb t (FADE_IN + HOLD + FADE_OUT)%Q then "out"
  else "idle".

Section Overlay.
Context {B : Builtins}.

(** The file is absent, or not newer than the last one seen. *)
Definition not_newer (f : option event_file) (a : OverlayApp) : Prop :=
  match f with
  | Some st => (st_mtime st <= _file_mtime a)%Q
  | None => True
  end.

(** [OverlayApp._poll_file()]. *)
Definition _poll_file (c : clock) (f : option event_file) : M OverlayApp unit :=
  try_excepts
    (st <- lift (os_stat f) ;;
     a <- get ;;
     if Qltb (_file_mtime a) (st_mtime st) then
       (modify (fun a => mk_app (renderer a) (visible_until a) (fade_state a)
                                (fade_t0 a) (event a) (st_mtime st) (gl a)) ;;;
        payload <- lift (json_load st) ;;
        ev <- lift (from_json c payload) ;;
        _on_event c ev)
     else ret tt)%py
    [(is_FileNotFoundError, ret tt); (is_Exception, ret tt)].

(** The body of the handler loop of [_udp_listener] for one datagram:
    [data] is what [json.loads(data.decode("utf-8"))] gives. *)
Definition _udp_datagram (c : clock) (data : option pyval) : M OverlayApp unit :=
  try_excepts
    (payload <- lift (match data with
                      | Some v => Ret v
                      | None => Raise JSONDecodeError
                      end) ;;
     ev <- lift (from_json c payload) ;;
     _on_event c ev)%py
    [(is_Exception, ret tt)].

(** One iteration of the loop of [run]. *)
Definition run_iteration (c : clock) (f : option event_file) (now : Q)
  : M OverlayApp Q :=
  (_poll_file c f ;;; draw_frame now)%py.

(** Iterations in a row, one per element: the clock readings of the poll,
    the file as the poll finds it, and the frame time.  The value is the list
    of the opacities computed. *)
Fixpoint run (frames : list (clock * option event_file * Q)) : M OverlayApp (list Q) :=
  match frames with
  | [] => ret []
  | (c, f, now) :: rest =>
      (alpha <- run_iteration c f now ;;
       alphas <- run rest ;;
       ret (alpha :: alphas))%py
  end.
End Overlay.

(** ** bridge.py: the producer side *)

(** A path below the installation root, by its components. *)
Definition path : Type := list string.

(** [os.path.dirname]. *)
Definition dirname (p : path) : path := removelast p.

(** [EVENT_FILE]: [<root>/runtime/infobar_event.json]. *)
Definition EVENT_FILE : path := ["runtime"; "infobar_event.json"].

Definition path_eqb (p q : path) : bool :=
  if list_eq_dec string_dec p q then true else false.

(** What the producer acts on: the directories and files below the root (the
    root itself always exists), whether the datagram socket works, and the
    datagrams sent so far.  A file and a datagram hold the JSON document that
    [json.dump] and [json.dumps] serialise, identified with its text.
    Permissions and name clashes between files and directories are not
    modelled. *)
Record world : Type := mk_world {
  dirs : list path;
  files : list (path * pyval);
  udp_up : bool;
  sent : list pyval
}.

Definition dir_exists (w : world) (p : path) : bool :=
  match p with
  | [] => true
  | _ => existsb (path_eqb p) (dirs w)
  end.

Fixpoint read_file (p : path) (fs : list (path * pyval)) : option pyval :=
  match fs with
  | [] => None
  | (q, v) :: rest => if path_eqb p q then Some v else read_file p rest
  end.

(** The directory and the ones above it, the root apart. *)
Fixpoint ancestors (p : path) (n : nat) : list path :=
  match n with
  | O => []
  | S n' => match p with
            | [] => []
            | _ => p :: ancestors (dirname p) n'
            end
  end.

(** [os.makedirs(p, exist_ok=True)]. *)
Definition makedirs (p : path) : M world unit :=
  modify (fun w =>
            mk_world (filter (fun q => negb (dir_exists w q)) (ancestors p (List.length p))
                      ++ dirs w)
                     (files w) (udp_up w) (sent w)).

(** [with open(p, "w") as f: json.dump(doc, f)]: the directory has to be
    there. *)
Definition write_json (p : path) (doc : pyval) : M world unit :=
  (w <- get ;;
   if dir_exists w (dirname p)
   then put (mk_world (dirs w) ((p, doc) :: files w) (udp_up w) (sent w))
   else raise FileNotFoundError)%py.

(** [s = socket.socket(...); s.sendto(data, UDP_ADDR); s.close()]. *)
Definition sendto (doc : pyval) : M world unit :=
  (w <- get ;;
   if udp_up w
   then put (mk_world (dirs w) (files w) (udp_up w) (sent w ++ [doc]))
   else raise OSError)%py.

Section Bridge.
Context {B : Builtins}.

(** [datetime.utcnow()]: naive. *)
Definition utcnow (c : clock) : datetime :=
  mk_datetime (epoch_us (now_utc c)) None.

(** [_iso(dt)]. *)
Definition _iso (c : clock) (dt : option datetime) : string :=
  let dt := match dt with
            | Some d => d
            | None => utcnow c
            end in
  isoformat (replace_microsecond_0 dt).

(** Lines 33-44: the payload [send_infobar_event] builds. *)
Definition build_payload (c : clock) (channel_number : Z)
           (channel_name title : string) (start end_ : option datetime)
           (next_title : pyval) (next_start : option datetime) : pydict :=
  [("ts", PFloat (Finite (time_time c)));
   ("channel_number", PInt channel_number);
   ("channel_name", PStr channel_name);
   ("title", PStr title);
   ("start", PStr (_iso c start));
   ("end", PStr (_iso c end_))]
  ++ (if truthy next_title then [("next_title", PStr (py_str next_title))] else [])
  ++ (match next_start with
      | Some _ => [("next_start", PStr (_iso c next_start))]
      | None => []
      end).

(** [send_infobar_event(...)].  [next_title] is whatever the caller passes
    (the adapter passes what the host gave). *)
Definition send_infobar_event (c : clock) (channel_number : Z)
           (channel_name title : string) (start end_ : option datetime)
           (next_title : pyval) (next_start : option datetime) : M world unit :=
  let payload :=
    PDict (build_payload c channel_number channel_name title start end_
                         next_title next_start) in
  (makedirs (dirname EVENT_FILE) ;;;
   write_json EVENT_FILE payload ;;;
   try_excepts (sendto payload) [(is_OSError, ret tt)])%py.
End Bridge.

(** ** monkey_infobar_hook.py: the adapter around the host's status call *)

(** [a or b] where [b] is only evaluated when [a] is falsy. *)
Definition or_else (a : outcome pyval) (b : outcome pyval) : outcome pyval :=
  match a with
  | Ret v => if truthy v then Ret v else b
  | Raise e => Raise e
  end.

(** The seven values [_extract] returns. *)
Record extracted : Type := mk_extracted {
  x_ch_num : Z;
  x_ch_name : string;
  x_now_title : string;
  x_now_start : option datetime;
  x_now_end : option datetime;
  x_next_title : pyval;
  x_next_start : option datetime
}.

Section Hook.
Context {B : Builtins}.

(** The local [to_dt] of [_extract]. *)
Definition to_dt (x : pyval) : outcome (option datetime) :=
  if negb (truthy x) then Ret None
  else
    match x with
    | PInt z => (d <~ utcfromtimestamp (inject_Z z) ;; Ret (Some d))%py
    | PBool b => (d <~ utcfromtimestamp (if b then 1 else 0)%Q ;; Ret (Some d))%py
    | PFloat (Finite q) => (d <~ utcfromtimestamp q ;; Ret (Some d))%py
    | PFloat (Infinity _) => Raise OverflowError
    | PFloat NaN => Raise ValueError
    | PStr s => Ret (fromisoformat s)
    | _ => Ret None
    end.

(** [_extract(payload)] for a dict [payload]. *)
Definition _extract (payload : pydict) : outcome extracted :=
  let p := PDict payload in
  let sub (k : string) : outcome pyval :=
    or_else (py_get p k PNone) (Ret (PDict [])) in
  (ch_num <~ or_else (py_get p "channel_number" PNone)
               (or_else (py_get p "channelNum" PNone)
                  (or_else (ch <~ sub "channel" ;; py_get ch "number" PNone)
                     (Ret (PInt 0)))) ;;
   ch_name <~ or_else (py_get p "channel_name" PNone)
                (or_else (ch <~ sub "channel" ;; py_get ch "name" PNone)
                   (Ret (PStr ""))) ;;
   now <~ or_else (py_get p "now" PNone)
            (or_else (py_get p "current" PNone)
               (or_else (py_get p "programme" PNone) (Ret (PDict [])))) ;;
   nxt <~ or_else (py_get p "next" PNone)
            (or_else (py_get p "up_next" PNone) (Ret (PDict []))) ;;
   now_title <~ or_else (py_get now "title" PNone)
                  (or_else (py_get now "name" PNone) (Ret (PStr ""))) ;;
   s <~ or_else (py_get now "start" PNone) (py_get now "start_time" PNone) ;;
   now_start <~ to_dt s ;;
   e <~ or_else (py_get now "end" PNone) (py_get now "end_time" PNone) ;;
   now_end <~ to_dt e ;;
   next_title <~ or_else (py_get nxt "title" PNone) (py_get nxt "name" PNone) ;;
   ns <~ or_else (py_get nxt "start" PNone) (py_get nxt "start_time" PNone) ;;
   next_start <~ to_dt ns ;;
   n <~ py_int ch_num ;;
   Ret (mk_extracted n (py_str ch_name) (py_str now_title) now_start now_end
                     next_title next_start))%py.

(** The first dict among the positional arguments, else the first among the
    keyword arguments' values. *)
Definition find_payload (args : list pyval) (kwargs : list (string * pyval))
  : option pyval :=
  match find isinstance_dict args with
  | Some a => Some a
  | None => find isinstance_dict (map snd kwargs)
  end.

(** The host's own [update_status_socket]: any function of its arguments,
    with effects of its own, that returns or raises. *)
Variable _orig : list pyval -> list (string * pyval) -> M world pyval.

(** Lines 74-79: what the wrapper does with a payload it found. *)
Definition notify (c : clock) (payload : pydict) : M world unit :=
  try_excepts
    (x <- lift (_extract payload) ;;
     if negb (x_ch_name x =? "")%string && negb (x_now_title x =? "")%string
     then send_infobar_event c (x_ch_num x) (x_ch_name x) (x_now_title x)
                             (x_now_start x) (x_now_end x)
                             (x_next_title x) (x_next_start x)
     else ret tt)%py
    [(is_Exception, ret tt)].

(** The state [notify] leaves: the one the notification leaves when the
    extraction succeeds with a channel name and a title, the one it found
    otherwise. *)
Definition after_notify (c : clock) (payload : pydict) (w : world) : world :=
  match _extract payload with
  | Ret x =>
      if negb (x_ch_name x =? "")%string && negb (x_now_title x =? "")%string
      then snd (send_infobar_event c (x_ch_num x) (x_ch_name x) (x_now_title x)
                                   (x_now_start x) (x_now_end x)
                                   (x_next_title x) (x_next_start x) w)
      else w
  | Raise _ => w
  end.

(** The wrapper installed over [update_status_socket]. *)
Definition update_status_socket (c : clock) (args : list pyval)
           (kwargs : list (string * pyval)) : M world pyval :=
  (rv <- _orig args kwargs ;;
   match find_payload args kwargs with
   | Some (PDict payload) =>
       if truthy (PDict payload) then notify c payload else ret tt
   | _ => ret tt
   end ;;;
   ret rv)%py.
End Hook.

(** ** series.py *)

Module StringOrder <: TotalLeBool.
Definition t : Type := string.
Definition leb (a b : string) : bool := String.leb a b.
Definition leb_total : forall a b, leb a b = true \/ leb b a = true :=
  String.leb_total.
End StringOrder.

Module StringSort := Sort StringOrder.

(** [_sorted_paths(paths)]: [sorted] on strings, by code point.  The result
    of a sort by a total order whose ties are equal strings does not depend on
    the algorithm. *)
Definition _sorted_paths (paths : list string) : list string :=
  StringSort.sort paths.

(** The order [sorted] uses on strings. *)
Definition string_le (a b : string) : Prop := String.leb a b = true.

Record SeriesIndex : Type := mk_series {
  series_name : string;
  episodes : list string;
  _index : Z
}.

(** [SeriesIndex.make_key]. *)
Definition make_key (series_name sequence_name : string) : string :=
  (series_name ++ "-" ++ sequence_name)%string.

(** [SeriesIndex.populate(file_list)]. *)
Definition populate (file_list : list string) : M SeriesIndex unit :=
  (modify (fun s => mk_series (series_name s) (_sorted_paths file_list) (_index s)) ;;;
   modify (fun s => mk_series (series_name s) (episodes s) 0))%py.

(** [SeriesIndex.get_series_length()]. *)
Definition get_series_length (s : SeriesIndex) : Z :=
  Z.of_nat (List.length (episodes s)).

(** [l[i]]: a negative index counts from the end; out of range it raises. *)
Definition py_getitem {A : Type} (l : list A) (i : Z) : outcome A :=
  let n := Z.of_nat (List.length l) in
  let j := if i <? 0 then i + n else i in
  if (0 <=? j) && (j <? n) then
    match nth_error l (Z.to_nat j) with
    | Some x => Ret x
    | None => Raise IndexError
    end
  else Raise IndexError.

(** [SeriesIndex.get_next()]. *)
Definition get_next : M SeriesIndex (option string) :=
  (s <- get ;;
   match episodes s with
   | [] => ret None
   | _ =>
       episode <- lift (py_getitem (episodes s) (_index s)) ;;
       modify (fun s => mk_series (series_name s) (episodes s)
                                  ((_index s + 1) mod get_series_length s)) ;;;
       ret (Some episode)
   end)%py.

(** [n] calls of [get_next] in a row: what each returned. *)
Fixpoint get_next_times (n : nat) : M SeriesIndex (list (option string)) :=
  match n with
  | O => ret []
  | S n' => (x <- get_next ;; xs <- get_next_times n' ;; ret (x :: xs))%py
  end.

(** ** infobar_sv.py: the keys of a payload and the instant of a datetime *)

(** The keys [from_json] reads. *)
Definition PAYLOAD_KEYS : list string :=
  ["channel_number"; "channel_name"; "title"; "start"; "end"; "ts";
   "next_title"; "next_start"].

(** The instant a datetime stands for when a naive one is read as UTC:
    microseconds since the epoch. *)
Definition instant_us (dt : datetime) : Z :=
  wall_us dt - match utcoffset_us dt with Some off => off | None => 0 end.

(** ** infobar_sv.py: the layout of the renderer and the quad it draws *)

Definition SAFE_MARGIN : Q := 5 # 100.

(** What [InfoBarRenderer.__init__] computes from the screen size: the safe
    area, the scale against the PAL width 720, the band heights and the font
    sizes. *)
Record metrics : Type := mk_metrics {
  screen_W : Z;
  screen_H : Z;
  safe_x : Z;
  safe_y : Z;
  safe_W : Z;
  safe_H : Z;
  scale : Q;
  header_h : Z;
  body_h : Z;
  total_h : Z;
  font_title : Z;
  font_header : Z;
  font_sub : Z;
  font_menu : Z;
  font_next_label : Z;
  font_next : Z
}.

(** [InfoBarRenderer.__init__(W, H)], lines 127-146. *)
Definition renderer_metrics (W H : Z) : metrics :=
  let sx := Qtrunc (inject_Z W * SAFE_MARGIN) in
  let sy := Qtrunc (inject_Z H * SAFE_MARGIN) in
  let sW := W - sx * 2 in
  let sH := H - sy * 2 in
  let sc := (inject_Z sW / 720)%Q in
  let hh := Qtrunc (42 * sc) in
  let bh := Qtrunc (148 * sc) in
  mk_metrics W H sx sy sW sH sc hh bh (hh + bh)
             (Z.max 22 (Qtrunc (34 * sc)))
             (Z.max 14 (Qtrunc (22 * sc)))
             (Z.max 12 (Qtrunc (18 * sc)))
             (Z.max 11 (Qtrunc (16 * sc)))
             (Z.max 11 (Qtrunc (16 * sc)))
             (Z.max 14 (Qtrunc (20 * sc))).

(** The rectangle [InfoBarRenderer.draw] sends as one quad, lines 236-249:
    left, top, width and height in window coordinates ([glOrtho(0, W, H, 0)]:
    the origin is the top left corner, [y] grows downwards). *)
Record quad : Type := mk_quad {
  quad_x : Z;
  quad_y : Z;
  quad_w : Z;
  quad_h : Z
}.

Definition draw_quad (m : metrics) : quad :=
  mk_quad (safe_x m) (screen_H m - safe_y m - total_h m) (safe_W m) (total_h m).

(** The four vertices of the quad, in the order [draw] emits them. *)
Definition quad_vertices (q : quad) : list (Z * Z) :=
  [(quad_x q, quad_y q);
   (quad_x q + quad_w q, quad_y q);
   (quad_x q + quad_w q, quad_y q + quad_h q);
   (quad_x q, quad_y q + quad_h q)].

(** ** infobar_sv.py: what the loop keeps true *)

Definition is_upload (g : gl_call) : bool :=
  match g with GlUpload _ => true | _ => false end.

Definition is_draw (g : gl_call) : bool :=
  match g with GlDraw _ => true | _ => false end.

(** In a trace of graphics calls, every draw comes after some upload;
    [seen] says whether an upload came before the trace. *)
Fixpoint draws_follow_upload (seen : bool) (l : list gl_call) : bool :=
  match l with
  | [] => true
  | GlUpload _ :: rest => draws_follow_upload true rest
  | GlDraw _ :: rest => seen && draws_follow_upload seen rest
  | _ :: rest => draws_follow_upload seen rest
  end.

(** With an event in the slot the renderer holds the texture and the key of
    that event and the expiry is the anchor plus the three durations; without
    one nothing was uploaded. *)
Definition app_inv (a : OverlayApp) : Prop :=
  match event a with
  | Some ev =>
      current_img_key (renderer a) = Some (key_of ev)
      /\ tex (renderer a) <> None
      /\ existsb is_upload (gl a) = true
      /\ visible_until a = (fade_t0 a + FADE_IN + VIS_SECONDS + FADE_OUT)%Q
  | None =>
      renderer a = mk_renderer None None
      /\ existsb is_upload (gl a) = false
  end.

(** The state the loop keeps: [app_inv], and no draw before an upload. *)
Definition loop_inv (a : OverlayApp) : Prop :=
  app_inv a /\ draws_follow_upload false (gl a) = true.

(** ** bridge.py: what gets serialised *)

(** The datetime [_iso] serialises: the argument, or [utcnow()] when it is
    [None], without its microseconds. *)
Definition iso_arg (c : clock) (x : option datetime) : datetime :=
  replace_microsecond_0 (match x with
                         | Some d => d
                         | None => utcnow c
                         end).

(** An optional datetime that, when given, carries no zone. *)
Definition naive (x : option datetime) : Prop :=
  match x with
  | Some d => utcoffset_us d = None
  | None => True
  end.

(** An [Optional[str]] as the value passed. *)
Definition opt_str (s : option string) : pyval :=
  match s with
  | Some x => PStr x
  | None => PNone
  end.

(** ** monkey_infobar_hook.py: the keys of the host's payload *)

(** The top-level keys [_extract] reads. *)
Definition HOOK_KEYS : list string :=
  ["channel_number"; "channelNum"; "channel"; "channel_name";
   "now"; "current"; "programme"; "next"; "up_next"].

(** The value under a key when it is there and truthy. *)
Definition truthy_lookup (k : string) (d : pydict) : option pyval :=
  match lookup k d with
  | Some v => if truthy v then Some v else None
  | None => None
  end.

(** ** send_infobar.py: the test trigger *)

(** [timedelta(minutes=m)] in microseconds: the days have to fit. *)
Definition timedelta_minutes (m : Z) : outcome Z :=
  let us := m * 60 * 1000000 in
  let days := us / (86400 * 1000000) in
  if (-999999999 <=? days) && (days <=? 999999999) then Ret us
  else Raise OverflowError.

(** [dt + delta] for a delta in microseconds: the sum has to be a date. *)
Definition datetime_add (dt : datetime) (delta_us : Z) : outcome datetime :=
  let u := wall_us dt + delta_us in
  if (DATETIME_MIN_US <=? u) && (u <=? DATETIME_MAX_US)
  then Ret (mk_datetime u (utcoffset_us dt))
  else Raise OverflowError.

(** The default of [--mins]. *)
Definition DEFAULT_MINS : Z := 60.

Section Cli.
Context {B : Builtins}.

(** [cli()] once [parse_args] has read [--num], [--name], [--title] and,
    when given, [--mins]. *)
Definition cli (c : clock) (num : Z) (name title : string) (mins : option Z)
  : M world unit :=
  let m := match mins with Some m => m | None => DEFAULT_MINS end in
  let now := utcnow c in
  (delta <- lift (timedelta_minutes m) ;;
   end_ <- lift (datetime_add now delta) ;;
   send_infobar_event c num name title (Some now) (Some end_) PNone None)%py.
End Cli.

(** ** series.py: names with and without a hyphen *)

(** Whether the character occurs in the string. *)
Fixpoint contains_char (c : ascii) (s : string) : bool :=
  match s with
  | EmptyString => false
  | String c' s' => (c =? c')%char || contains_char c s'
  end.

(** ** Rounding to binary64

    A float is an exact rational in the functions above.  Where a property
    depends on what the interpreter's rounding does to a quotient of two
    integers ([timedelta.total_seconds()] and [datetime.timestamp()] are
    such quotients, microseconds over 1000000), it is stated with
    [binary64]: the nearest binary64 value, ties to the even significand,
    subnormals included.  Overflow is left out: between [datetime.min] and
    [datetime.max] the quotients are below 2^39 in magnitude. *)

(** The exponent [e] with [2^e <= a < 2^(e+1)], for [a > 0]. *)
Definition ilog2 (a : Q) : Z :=
  let e0 := Z.log2 (Qnum a) - Z.log2 (Zpos (Qden a)) in
  if Qltb a (2 ^ e0)%Q then e0 - 1 else e0.

Definition binary64 (q : Q) : Q :=
  if Qeq_bool q 0 then 0%Q
  else
    let a := Qabs.Qabs q in
    let e := Z.max (ilog2 a) (-1022) in
    let ulp := (2 ^ (e - 52))%Q in
    let r := (inject_Z (round_half_even (a / ulp)) * ulp)%Q in
    if Qltb q 0 then (- r)%Q else r.

(** 2^34 seconds in microseconds (as a timestamp: 2514-05-30T01:53:04Z).
    Below it the rounded quotient truncates to the same whole second as the
    exact one; from it on, a quotient within half a microsecond's rounding
    of the next whole second reaches it. *)
Definition SECONDS_EXACT_US : Z := 2 ^ 34 * 1000000.

(** [fmt_remaining] with [total_seconds()] rounded as the interpreter rounds
    it. *)
Definition fmt_remaining_binary64 (now_ end_utc : utc_datetime) : string :=
  let secs := Qtrunc (binary64 (total_seconds_between end_utc now_)) in
  let secs := if secs <? 0 then 0 else secs in
  let h := secs / 3600 in
  let m := (secs mod 3600) / 60 in
  ("Remaining time " ++ fmt_02d h ++ ":" ++ fmt_02d m ++ " Hours")%string.

(** The key of line 229 with [timestamp()] rounded as the interpreter rounds
    it. *)
Definition key_of_binary64 (ev : InfobarEvent) : cache_key :=
  (channel_number ev, channel_name ev, title ev,
   Qtrunc (binary64 (timestamp (end_ ev))),
   next_title ev,
   match next_start ev with
   | Some ns => Qtrunc (binary64 (timestamp ns))
   | None => 0
   end).

(** * Properties *)

(** ** Comparisons and truncation *)

Lemma Qltb_true_iff (a b : Q) : Qltb a b = true <-> (a < b)%Q.
Proof.
  unfold Qltb. rewrite negb_true_iff. split; intro H.
  - apply Qnot_le_lt. intro Hle. apply Qle_bool_iff in Hle. congruence.
  - destruct (Qle_bool b a) eqn:E; [|reflexivity].
    apply Qle_bool_iff in E. exfalso. exact (Qlt_not_le _ _ H E).
Qed.

Lemma Qltb_false_iff (a b : Q) : Qltb a b = false <-> (b <= a)%Q.
Proof.
  unfold Qltb. rewrite negb_false_iff. apply Qle_bool_iff.
Qed.

(** Truncation toward zero, clamped at zero, is the floor clamped at zero. *)
Lemma clamped_trunc_is_floor (d : Z) :
  (if Z.quot d 1000000 <? 0 then 0 else Z.quot d 1000000) = Z.max 0 (d / 1000000).
Proof.
  destruct (Z.le_gt_cases 0 d) as [Hd | Hd].
  - rewrite Z.quot_div_nonneg by lia.
    pose proof (Z.div_pos d 1000000 Hd ltac:(lia)) as Hq.
    destruct (Z.ltb_spec (d / 1000000) 0); lia.
  - assert (Hq : Z.quot d 1000000 <= 0).
    { replace d with (- (- d)) by lia. rewrite Z.quot_opp_l by lia.
      pose proof (Z.quot_pos (- d) 1000000 ltac:(lia) ltac:(lia)). lia. }
    assert (Hf : d / 1000000 < 0) by (apply Z.div_lt_upper_bound; lia).
    destruct (Z.ltb_spec (Z.quot d 1000000) 0); lia.
Qed.

(** ** C6: the remaining-time text *)

(** The shape of what [fmt_remaining] returns: hours and minutes of the whole
    seconds left, never below zero, between a fixed prefix and suffix. *)
Lemma fmt_remaining_unfold (now_ end_utc : utc_datetime) :
  let secs := Z.max 0 ((epoch_us end_utc - epoch_us now_) / 1000000) in
  fmt_remaining now_ end_utc
  = ("Remaining time " ++ fmt_02d (secs / 3600) ++ ":"
     ++ fmt_02d ((secs mod 3600) / 60) ++ " Hours")%string.
Proof.
  unfold fmt_remaining, total_seconds_between, Qtrunc. simpl Qnum. simpl Qden.
  rewrite clamped_trunc_is_floor. reflexivity.
Qed.

(** C6, as the code has it: the text is ["Remaining time HH:MM Hours"], where
    HH and MM are the hours and minutes of the whole seconds between [now] and
    [end], floored and never negative, each padded to two digits.  With [end]
    two hours five minutes ahead (and less than a minute more) it reads
    ["Remaining time 02:05 Hours"]; with [end] at or before [now] it reads
    ["Remaining time 00:00 Hours"]. *)
Theorem fmt_remaining_hours_minutes (now_ end_utc : utc_datetime) :
  let d := epoch_us end_utc - epoch_us now_ in
  let secs := Z.max 0 (d / 1000000) in
  fmt_remaining now_ end_utc
  = ("Remaining time " ++ fmt_02d (secs / 3600) ++ ":"
     ++ fmt_02d ((secs mod 3600) / 60) ++ " Hours")%string
  /\ 0 <= secs / 3600
  /\ 0 <= (secs mod 3600) / 60 < 60
  /\ (7500 * 1000000 <= d < 7560 * 1000000 ->
      fmt_remaining now_ end_utc = "Remaining time 02:05 Hours")
  /\ (d <= 0 -> fmt_remaining now_ end_utc = "Remaining time 00:00 Hours").
Proof.
  intros d secs.
  pose proof (fmt_remaining_unfold now_ end_utc) as Hu. cbv zeta in Hu.
  fold d in Hu. fold secs in Hu.
  assert (Hs : 0 <= secs) by (unfold secs; lia).
  split; [exact Hu|]. split; [apply Z.div_pos; lia|].
  split.
  { pose proof (Z.mod_pos_bound secs 3600 ltac:(lia)).
    split; [apply Z.div_pos; lia | apply Z.div_lt_upper_bound; lia]. }
  split; intro Hd.
  - assert (Hb : 7500 <= d / 1000000 < 7560).
    { split; [apply Z.div_le_lower_bound; lia | apply Z.div_lt_upper_bound; lia]. }
    assert (Hsec : secs = d / 1000000) by (unfold secs; lia).
    assert (Hh : secs / 3600 = 2).
    { symmetry. apply (Z.div_unique secs 3600 2 (secs - 7200)); lia. }
    assert (Hm : (secs mod 3600) / 60 = 5).
    { rewrite Z.mod_eq by lia. rewrite Hh.
      symmetry. apply (Z.div_unique _ 60 5 (secs - 7500)); lia. }
    rewrite Hu, Hh, Hm. reflexivity.
  - assert (Hsec : secs = 0).
    { unfold secs. assert (d / 1000000 <= 0) by (apply Z.div_le_upper_bound; lia).
      lia. }
    rewrite Hu, Hsec. reflexivity.
Qed.

(** The two readings of the claim, run on the code: end 2 h 5 min ahead and
    end an hour in the past. *)
Lemma fmt_remaining_hours_minutes_witness :
  fmt_remaining (mk_utc 1755374400000000) (mk_utc 1755381900000000)
  = "Remaining time 02:05 Hours"
  /\ fmt_remaining (mk_utc 1755374400000000) (mk_utc 1755370800000000)
     = "Remaining time 00:00 Hours".
Proof.
  split.
  - apply (fmt_remaining_hours_minutes (mk_utc 1755374400000000)
                                       (mk_utc 1755381900000000)).
    simpl. lia.
  - apply (fmt_remaining_hours_minutes (mk_utc 1755374400000000)
                                       (mk_utc 1755370800000000)).
    simpl. lia.
Defined.

(** C6 as stated fails: with [end] 2 h 5 min after [now] the text is not
    ["02:05"], and with [end] before [now] it is not ["00:00"]. *)
Lemma fmt_remaining_is_not_bare_hhmm :
  fmt_remaining (mk_utc 0) (mk_utc (7500 * 1000000)) = "Remaining time 02:05 Hours"
  /\ fmt_remaining (mk_utc 0) (mk_utc (7500 * 1000000)) <> "02:05"
  /\ fmt_remaining (mk_utc (3600 * 1000000)) (mk_utc 0) <> "00:00".
Proof.
  split; [reflexivity|]. split; discriminate.
Qed.

(** ** The render cache *)

Lemma opt_string_eqb_refl (a : option string) : opt_string_eqb a a = true.
Proof. destruct a; simpl; [apply String.eqb_refl | reflexivity]. Qed.

Lemma key_eqb_refl (k : cache_key) : key_eqb k k = true.
Proof.
  destruct k as [[[[[n c] t] e] nt] ns]. unfold key_eqb.
  rewrite !Z.eqb_refl, !String.eqb_refl, opt_string_eqb_refl. reflexivity.
Qed.

Lemma opt_string_eqb_eq (a b : option string) :
  opt_string_eqb a b = true -> a = b.
Proof.
  destruct a, b; simpl; try discriminate; try reflexivity.
  intro H. apply String.eqb_eq in H. congruence.
Qed.

Lemma key_eqb_eq (k k' : cache_key) : key_eqb k k' = true <-> k = k'.
Proof.
  split; [|intros ->; apply key_eqb_refl].
  destruct k as [[[[[n c] t] e] nt] ns], k' as [[[[[n' c'] t'] e'] nt'] ns'].
  unfold key_eqb. rewrite !andb_true_iff.
  intros [[[[[Hn Hc] Ht] He] Hnt] Hns].
  apply Z.eqb_eq in Hn, He, Hns. apply String.eqb_eq in Hc, Ht.
  apply opt_string_eqb_eq in Hnt. congruence.
Qed.

(** After [ensure_texture] the stored key is the event's. *)
Lemma ensure_texture_stores_key (c : clock) (ev : InfobarEvent) (r : InfoBarRenderer) :
  current_img_key (fst (ensure_texture c ev r)) = Some (key_of ev).
Proof.
  unfold ensure_texture.
  destruct (key_differs (key_of ev) (current_img_key r)) eqn:E; simpl.
  - reflexivity.
  - unfold key_differs in E. destruct (current_img_key r) as [k|]; [|discriminate].
    apply negb_false_iff, key_eqb_eq in E. congruence.
Qed.

(** With the event's key already stored, [ensure_texture] does nothing. *)
Lemma ensure_texture_hit (c : clock) (ev : InfobarEvent) (r : InfoBarRenderer) :
  current_img_key r = Some (key_of ev) -> ensure_texture c ev r = (r, []).
Proof.
  intro H. unfold ensure_texture, key_differs. rewrite H, key_eqb_refl. reflexivity.
Qed.

(** With another key stored, or none, it draws and uploads once. *)
Lemma ensure_texture_miss (c : clock) (ev : InfobarEvent) (r : InfoBarRenderer) :
  current_img_key r <> Some (key_of ev) ->
  ensure_texture c ev r
  = (mk_renderer (Some (_draw_infobar_image c ev)) (Some (key_of ev)),
     [GlUpload (_draw_infobar_image c ev)]).
Proof.
  intro H. unfold ensure_texture, key_differs.
  destruct (current_img_key r) as [k|]; [|reflexivity].
  destruct (key_eqb (key_of ev) k) eqn:E; [|reflexivity].
  apply key_eqb_eq in E. congruence.
Qed.

(** ** C5: what the cache key depends on *)

(** C5: the key is the tuple (channel number, channel name, title, whole
    seconds of [end], next title, whole seconds of [next_start] or 0), the
    seconds truncated toward zero; [start] (and [ts]) are not part of it.  Two
    events that agree on the channel, the titles and, after that rounding, on
    [end] and [next_start] (so in particular two that differ only in [start])
    have the same key, and [ensure_texture] for the second, after the first,
    draws and uploads nothing. *)
Theorem key_ignores_start_and_subseconds
        (c1 c2 : clock) (ev1 ev2 : InfobarEvent) (r : InfoBarRenderer) :
  channel_number ev1 = channel_number ev2 ->
  channel_name ev1 = channel_name ev2 ->
  title ev1 = title ev2 ->
  next_title ev1 = next_title ev2 ->
  Z.abs (end_seconds ev1 - end_seconds ev2) < 1 ->
  Z.abs (next_start_seconds ev1 - next_start_seconds ev2) < 1 ->
  key_of ev1 = key_of ev2
  /\ key_of ev1
     = (channel_number ev1, channel_name ev1, title ev1,
        Z.quot (epoch_us (end_ ev1)) 1000000,
        next_title ev1,
        match next_start ev1 with
        | Some ns => Z.quot (epoch_us ns) 1000000
        | None => 0
        end)
  /\ ensure_texture c2 ev2 (fst (ensure_texture c1 ev1 r))
     = (fst (ensure_texture c1 ev1 r), []).
Proof.
  intros Hn Hc Ht Hnt He Hns.
  assert (Hk : key_of ev1 = key_of ev2).
  { unfold key_of. rewrite Hn, Hc, Ht, Hnt.
    replace (end_seconds ev2) with (end_seconds ev1) by lia.
    replace (next_start_seconds ev2) with (next_start_seconds ev1) by lia.
    reflexivity. }
  split; [exact Hk|]. split.
  - unfold key_of, end_seconds, next_start_seconds.
    destruct (next_start ev1); reflexivity.
  - apply ensure_texture_hit. rewrite ensure_texture_stores_key. congruence.
Qed.

(** Two events that differ in [start] only (and in [ts]), on a fresh
    renderer. *)
Lemma key_ignores_start_and_subseconds_witness :
  let ev1 := mk_event 3 "TV3" "Movie" (mk_utc 1755374400000000)
                      (mk_utc 1755381480000000) (Finite 1) (Some "News")
                      (Some (mk_utc 1755381480000000)) in
  let ev2 := mk_event 3 "TV3" "Movie" (mk_utc 1755370000000000)
                      (mk_utc 1755381480000000) (Finite 2) (Some "News")
                      (Some (mk_utc 1755381480000000)) in
  let c := mk_clock 1755374400 (mk_utc 1755374400000000) in
  let r := mk_renderer None None in
  key_of ev1 = key_of ev2
  /\ ensure_texture c ev2 (fst (ensure_texture c ev1 r))
     = (fst (ensure_texture c ev1 r), []).
Proof.
  intros ev1 ev2 c r.
  pose proof (key_ignores_start_and_subseconds c c ev1 ev2 r) as H.
  destruct H as [H1 [_ H3]]; try reflexivity.
  split; [exact H1 | exact H3].
Defined.

(** The rounding is what counts, not the distance: two ends a microsecond
    apart on either side of a whole second give two keys. *)
Lemma end_across_a_second_changes_key :
  let ev1 := mk_event 3 "TV3" "Movie" (mk_utc 0) (mk_utc 1755381479999999)
                      (Finite 1) None None in
  let ev2 := mk_event 3 "TV3" "Movie" (mk_utc 0) (mk_utc 1755381480000000)
                      (Finite 1) None None in
  end_seconds ev1 = 1755381479 /\ end_seconds ev2 = 1755381480
  /\ key_of ev1 <> key_of ev2.
Proof.
  intros ev1 ev2. split; [reflexivity|]. split; [reflexivity|]. discriminate.
Qed.

(** ** The fade timer *)

(** What [_on_event] leaves: the event in the slot, the renderer current,
    the timer restarted at the clock's reading. *)
Lemma _on_event_run (c : clock) (ev : InfobarEvent) (a : OverlayApp) :
  _on_event c ev a
  = (Ret tt,
     mk_app (fst (ensure_texture c ev (renderer a)))
            (time_time c + FADE_IN + VIS_SECONDS + FADE_OUT)%Q
            "in" (time_time c) (Some ev) (_file_mtime a)
            (gl a ++ snd (ensure_texture c ev (renderer a)))).
Proof.
  unfold _on_event, bind, modify, get, set_fade_state. simpl.
  destruct (ensure_texture c ev (renderer a)) as [r calls]. reflexivity.
Qed.

(** A frame while the bar is visible: one clear, one draw with the computed
    opacity, one swap; the phase is recorded in [fade_state]. *)
Lemma draw_frame_visible (now : Q) (a : OverlayApp) (ev : InfobarEvent) :
  event a = Some ev ->
  (now < visible_until a)%Q ->
  draw_frame now a
  = (Ret (snd (fade_phase (now - fade_t0 a))),
     mk_app (renderer a) (visible_until a) (fst (fade_phase (now - fade_t0 a)))
            (fade_t0 a) (event a) (_file_mtime a)
            (((gl a ++ [GlClear]) ++ [GlDraw (snd (fade_phase (now - fade_t0 a)))])
             ++ [GlSwap])).
Proof.
  intros Hev Hlt. apply Qltb_true_iff in Hlt.
  unfold draw_frame, bind, emit, modify, get, set_fade_state, ret. simpl.
  rewrite Hev, Hlt.
  destruct (fade_phase (now - fade_t0 a)) as [st alpha]. reflexivity.
Qed.

(** A frame with no event, or at or after [visible_until]: a clear and a
    swap, no draw, nothing else touched. *)
Lemma draw_frame_hidden (now : Q) (a : OverlayApp) :
  event a = None \/ (visible_until a <= now)%Q ->
  draw_frame now a
  = (Ret 0%Q,
     mk_app (renderer a) (visible_until a) (fade_state a) (fade_t0 a) (event a)
            (_file_mtime a) ((gl a ++ [GlClear]) ++ [GlSwap])).
Proof.
  intros H.
  unfold draw_frame, bind, emit, modify, get, set_fade_state, ret. simpl.
  destruct (event a) as [ev|] eqn:Hev.
  - destruct H as [H|H]; [discriminate|].
    apply Qltb_false_iff in H. rewrite H. reflexivity.
  - reflexivity.
Qed.

Ltac unfold_timing :=
  unfold HOLD in *; unfold FADE_IN, VIS_SECONDS, FADE_OUT, Qdiv in *;
  change (/ (18 # 100))%Q with (100 # 18)%Q in *;
  change (/ (28 # 100))%Q with (100 # 28)%Q in *.

Ltac split_Qltb :=
  repeat match goal with
         | |- context [Qltb ?a ?b] =>
             let E := fresh "E" in
             destruct (Qltb a b) eqn:E;
             [apply Qltb_true_iff in E | apply Qltb_false_iff in E]
         end.

(** The code's branch computes the opacity of the specification. *)
Lemma fade_phase_opacity (t : Q) :
  (t < FADE_IN + VIS_SECONDS + FADE_OUT)%Q ->
  (snd (fade_phase t) == opacity_spec t)%Q /\ fst (fade_phase t) = state_spec t.
Proof.
  intro Ht. unfold fade_phase, opacity_spec, state_spec, py_max, HOLD.
  split_Qltb; simpl; unfold_timing;
    first [ exfalso; lra | split; [lra | reflexivity] ].
Qed.

Lemma fade_phase_bounds (t : Q) :
  (0 <= t)%Q -> (0 <= snd (fade_phase t) <= 1)%Q.
Proof.
  intro Ht. unfold fade_phase, py_max.
  split_Qltb; simpl; unfold_timing; split; lra.
Qed.

Lemma fade_phase_rises (t1 t2 : Q) :
  (0 <= t1)%Q -> (t1 <= t2)%Q -> (t2 <= FADE_IN)%Q ->
  (snd (fade_phase t1) <= snd (fade_phase t2))%Q.
Proof.
  intros H0 H12 H2. unfold fade_phase, py_max.
  split_Qltb; simpl; unfold_timing; lra.
Qed.

Lemma fade_phase_falls (t1 t2 : Q) :
  (FADE_IN + VIS_SECONDS <= t1)%Q -> (t1 <= t2)%Q ->
  (snd (fade_phase t2) <= snd (fade_phase t1))%Q.
Proof.
  intros H1 H12. unfold fade_phase, py_max.
  split_Qltb; simpl; unfold_timing; lra.
Qed.

(** ** C2: the opacity as a function of the time since acceptance *)

(** C2: an event accepted at [time_time c], two frames sampled in a row at
    [t1 <= t2] seconds after it, both before the expiry.  Each frame computes
    the opacity of the specification (ramp, 1, falling ramp floored at 0),
    records the phase, and draws once with that opacity; the opacity is within
    [0, 1], does not decrease up to [FADE_IN] and does not increase from
    [FADE_IN + HOLD] on. *)
Theorem opacity_piecewise_linear
        (c : clock) (ev : InfobarEvent) (a0 : OverlayApp) (now1 now2 : Q) :
  let a := snd (_on_event c ev a0) in
  let t1 := (now1 - time_time c)%Q in
  let t2 := (now2 - time_time c)%Q in
  (0 <= t1)%Q -> (t1 <= t2)%Q -> (t2 < FADE_IN + HOLD + FADE_OUT)%Q ->
  exists alpha1 a1 alpha2 a2,
    draw_frame now1 a = (Ret alpha1, a1)
    /\ draw_frame now2 a1 = (Ret alpha2, a2)
    /\ (alpha1 == opacity_spec t1)%Q /\ (alpha2 == opacity_spec t2)%Q
    /\ fade_state a1 = state_spec t1 /\ fade_state a2 = state_spec t2
    /\ (0 <= alpha1 <= 1)%Q /\ (0 <= alpha2 <= 1)%Q
    /\ ((t2 <= FADE_IN)%Q -> (alpha1 <= alpha2)%Q)
    /\ ((FADE_IN + HOLD <= t1)%Q -> (alpha2 <= alpha1)%Q)
    /\ gl a1 = gl a ++ [GlClear; GlDraw alpha1; GlSwap]
    /\ gl a2 = gl a1 ++ [GlClear; GlDraw alpha2; GlSwap].
Proof.
  intros a t1 t2 H0 H12 H2. unfold HOLD in *.
  assert (Ha : a = mk_app (fst (ensure_texture c ev (renderer a0)))
                          (time_time c + FADE_IN + VIS_SECONDS + FADE_OUT)%Q
                          "in" (time_time c) (Some ev) (_file_mtime a0)
                          (gl a0 ++ snd (ensure_texture c ev (renderer a0)))).
  { unfold a. rewrite _on_event_run. reflexivity. }
  assert (Hv1 : (now1 < visible_until a)%Q).
  { rewrite Ha. simpl. unfold t1, t2 in *. lra. }
  assert (Hv2 : (now2 < visible_until a)%Q).
  { rewrite Ha. simpl. unfold t1, t2 in *. lra. }
  assert (Hev : event a = Some ev) by (rewrite Ha; reflexivity).
  assert (Ht0 : fade_t0 a = time_time c) by (rewrite Ha; reflexivity).
  pose proof (draw_frame_visible now1 a ev Hev Hv1) as D1.
  replace (now1 - fade_t0 a)%Q with t1 in D1 by (unfold t1; rewrite Ht0; reflexivity).
  set (a1 := snd (draw_frame now1 a)).
  assert (Ha1 : a1 = mk_app (renderer a) (visible_until a) (fst (fade_phase t1))
                            (fade_t0 a) (event a) (_file_mtime a)
                            (((gl a ++ [GlClear]) ++ [GlDraw (snd (fade_phase t1))])
                             ++ [GlSwap])).
  { unfold a1. rewrite D1. reflexivity. }
  assert (Hev1 : event a1 = Some ev) by (rewrite Ha1; exact Hev).
  assert (Hv21 : (now2 < visible_until a1)%Q) by (rewrite Ha1; exact Hv2).
  pose proof (draw_frame_visible now2 a1 ev Hev1 Hv21) as D2.
  assert (Ht1 : fade_t0 a1 = time_time c) by (rewrite Ha1; exact Ht0).
  replace (now2 - fade_t0 a1)%Q with t2 in D2 by (unfold t2; rewrite Ht1; reflexivity).
  assert (Hlt1 : (t1 < FADE_IN + VIS_SECONDS + FADE_OUT)%Q) by lra.
  destruct (fade_phase_opacity t1 Hlt1) as [O1 S1].
  destruct (fade_phase_opacity t2 H2) as [O2 S2].
  exists (snd (fade_phase t1)), a1, (snd (fade_phase t2)), (snd (draw_frame now2 a1)).
  repeat split.
  - rewrite D1. f_equal. rewrite Ha1. reflexivity.
  - rewrite D2. reflexivity.
  - exact O1.
  - exact O2.
  - rewrite Ha1. exact S1.
  - rewrite D2. exact S2.
  - apply fade_phase_bounds; exact H0.
  - apply fade_phase_bounds; exact H0.
  - apply fade_phase_bounds; lra.
  - apply fade_phase_bounds; lra.
  - intro H. apply fade_phase_rises; assumption.
  - intro H. apply fade_phase_falls; assumption.
  - rewrite Ha1. simpl. rewrite <- !app_assoc. reflexivity.
  - rewrite D2. simpl. rewrite <- !app_assoc. reflexivity.
Qed.

(** Samples of one accepted event on the rising ramp: an event accepted at
    clock time 100 and frames at 100.09 and 100.18, the opacities being 1/2
    and 1. *)
Lemma opacity_piecewise_linear_witness :
  let c := mk_clock 100 (mk_utc 100000000) in
  let ev := mk_event 3 "TV3" "Movie" (mk_utc 0) (mk_utc 7080000000) (Finite 100)
                     None None in
  let a := snd (_on_event c ev init_app) in
  exists alpha1 a1 alpha2 a2,
    draw_frame (10009 # 100) a = (Ret alpha1, a1)
    /\ draw_frame (10018 # 100) a1 = (Ret alpha2, a2)
    /\ (alpha1 == 1 # 2)%Q /\ (alpha2 == 1)%Q
    /\ (alpha1 <= alpha2)%Q.
Proof.
  intros c ev a.
  assert (H0 : (0 <= (10009 # 100) - time_time c)%Q) by (simpl; lra).
  assert (H12 : ((10009 # 100) - time_time c <= (10018 # 100) - time_time c)%Q)
    by (simpl; lra).
  assert (H2 : ((10018 # 100) - time_time c < FADE_IN + HOLD + FADE_OUT)%Q)
    by (unfold FADE_IN, HOLD, VIS_SECONDS, FADE_OUT; simpl; lra).
  destruct (opacity_piecewise_linear c ev init_app (10009 # 100) (10018 # 100)
                                     H0 H12 H2)
    as (alpha1 & a1 & alpha2 & a2 & D1 & D2 & O1 & O2 & _ & _ & _ & _ & Hup & _).
  exists alpha1, a1, alpha2, a2.
  split; [exact D1|]. split; [exact D2|].
  split; [rewrite O1; reflexivity|].
  split; [rewrite O2; reflexivity|].
  apply Hup. unfold FADE_IN. simpl. lra.
Defined.

(** The seven sample offsets of the specification, in one run of frames on an
    event accepted at clock time 0: 0, 0.09, 0.18, 2.68, 5.18, 5.32 and the
    expiry 5.46 give 0, 1/2, 1, 1, 1, 1/2 and 0. *)
Lemma opacity_samples :
  let c := mk_clock 0 (mk_utc 0) in
  let ev := mk_event 3 "TV3" "Movie" (mk_utc 0) (mk_utc 7080000000) (Finite 0)
                     None None in
  let a := snd (_on_event c ev init_app) in
  let frames := map (fun now => (c, None, now))
                    [0; 9 # 100; 18 # 100; 268 # 100; 518 # 100; 532 # 100;
                     546 # 100]%Q in
  exists alphas a',
    run (B := RefBuiltins.builtins) frames a = (Ret alphas, a')
    /\ Forall2 Qeq alphas [0; 1 # 2; 1; 1; 1; 1 # 2; 0]%Q.
Proof.
  intros c ev a frames. eexists. eexists. split.
  - vm_compute. reflexivity.
  - repeat constructor; reflexivity.
Qed.

(** ** The file watcher *)

Section Watcher.
Context {B : Builtins}.

(** No file: nothing happens. *)
Lemma _poll_file_missing (c : clock) (a : OverlayApp) :
  _poll_file c None a = (Ret tt, a).
Proof. reflexivity. Qed.

(** A file that is not newer than the last one seen is neither read nor
    parsed. *)
Lemma _poll_file_not_newer (c : clock) (st : event_file) (a : OverlayApp) :
  (st_mtime st <= _file_mtime a)%Q ->
  _poll_file c (Some st) a = (Ret tt, a).
Proof.
  intro H. apply Qltb_false_iff in H.
  unfold _poll_file, try_excepts, bind, lift, get. simpl. rewrite H. reflexivity.
Qed.

Lemma _poll_file_unchanged (c : clock) (f : option event_file) (a : OverlayApp) :
  not_newer f a -> _poll_file c f a = (Ret tt, a).
Proof.
  destruct f as [st|]; simpl; intro H.
  - apply _poll_file_not_newer; exact H.
  - apply _poll_file_missing.
Qed.

(** A newer file is read: its time is remembered first, then the payload is
    parsed and, if that succeeds, accepted; what is raised on the way is
    swallowed. *)
Lemma _poll_file_newer (c : clock) (st : event_file) (a : OverlayApp) :
  (_file_mtime a < st_mtime st)%Q ->
  _poll_file c (Some st) a
  = let a' := mk_app (renderer a) (visible_until a) (fade_state a) (fade_t0 a)
                     (event a) (st_mtime st) (gl a) in
    match json st with
    | Some v =>
        match from_json c v with
        | Ret ev => _on_event c ev a'
        | Raise _ => (Ret tt, a')
        end
    | None => (Ret tt, a')
    end.
Proof.
  intro H. apply Qltb_true_iff in H.
  unfold _poll_file, try_excepts, bind, lift, get, modify, json_load. simpl.
  rewrite H. simpl.
  destruct (json st) as [v|]; simpl; [|reflexivity].
  destruct (from_json c v) as [ev|e]; simpl.
  - rewrite _on_event_run. reflexivity.
  - destruct e; reflexivity.
Qed.

(** Frames at or after the expiry with nothing new in the file: opacity 0 in
    each, a clear and a swap and no draw, and no field changes, [fade_state]
    included. *)
Lemma run_expired (frames : list (clock * option event_file * Q)) (a : OverlayApp) :
  Forall (fun x => not_newer (snd (fst x)) a
                   /\ (event a = None \/ (visible_until a <= snd x)%Q)) frames ->
  run frames a
  = (Ret (map (fun _ => 0%Q) frames),
     mk_app (renderer a) (visible_until a) (fade_state a) (fade_t0 a) (event a)
            (_file_mtime a)
            (gl a ++ flat_map (fun _ => [GlClear; GlSwap]) frames)).
Proof.
  revert a. induction frames as [|[[c f] now] rest IH]; intros a Hall.
  - simpl. unfold ret. rewrite app_nil_r. destruct a; reflexivity.
  - inversion Hall as [|x l [Hf Hn] Hrest]; subst. simpl in Hf, Hn.
    cbn [run]. unfold bind at 1. unfold run_iteration, bind at 1.
    rewrite (_poll_file_unchanged c f a Hf).
    rewrite (draw_frame_hidden now a Hn).
    set (a' := mk_app (renderer a) (visible_until a) (fade_state a) (fade_t0 a)
                      (event a) (_file_mtime a) ((gl a ++ [GlClear]) ++ [GlSwap])).
    assert (Hall' : Forall (fun x => not_newer (snd (fst x)) a'
                     /\ (event a' = None \/ (visible_until a' <= snd x)%Q)) rest).
    { eapply Forall_impl; [|exact Hrest]. intros [[c1 f1] n1] [H1 H2].
      split; [destruct f1; exact H1 | exact H2]. }
    unfold bind. rewrite (IH a' Hall'). unfold ret. simpl.
    rewrite <- !app_assoc. reflexivity.
Qed.

End Watcher.

(** ** C3: after the expiry *)

(** C3, as the code has it.  With an event in the slot, frames at or after
    [visible_until] that find nothing new in the file compute opacity 0, issue
    a clear and a swap and no draw, for as many frames as follow; but
    [fade_state] is not set back to ["idle"]: it keeps the phase the last
    visible frame (or the acceptance) wrote. *)
Theorem expired_frames_keep_fade_state
        {B : Builtins} (frames : list (clock * option event_file * Q))
        (a : OverlayApp) (ev : InfobarEvent) :
  event a = Some ev ->
  Forall (fun x => not_newer (snd (fst x)) a /\ (visible_until a <= snd x)%Q) frames ->
  exists a',
    run frames a = (Ret (map (fun _ => 0%Q) frames), a')
    /\ gl a' = gl a ++ flat_map (fun _ => [GlClear; GlSwap]) frames
    /\ fade_state a' = fade_state a
    /\ event a' = Some ev
    /\ visible_until a' = visible_until a.
Proof.
  intros Hev Hall.
  eexists. split.
  - apply run_expired. eapply Forall_impl; [|exact Hall].
    intros x [H1 H2]. split; [exact H1 | right; exact H2].
  - simpl. repeat split. exact Hev.
Qed.

(** The failing input: an event accepted at clock time 0, frames at 0.09, 3
    and 5.3 seconds (phases in, hold, out), then frames at 5.46, 6 and 100
    seconds.  The last three compute opacity 0 and draw nothing, and
    [fade_state] is still ["out"]. *)
Lemma expired_frames_keep_fade_state_witness :
  let c := mk_clock 0 (mk_utc 0) in
  let ev := mk_event 3 "TV3" "Movie" (mk_utc 0) (mk_utc 7080000000) (Finite 0)
                     None None in
  let a := snd (run (B := RefBuiltins.builtins)
                    [(c, None, 9 # 100); (c, None, 3); (c, None, 53 # 10)]%Q
                    (snd (_on_event c ev init_app))) in
  let late := [(c, None, 546 # 100); (c, None, 6); (c, None, 100)]%Q in
  fade_state a = "out"
  /\ exists a',
      run (B := RefBuiltins.builtins) late a = (Ret [0; 0; 0]%Q, a')
      /\ gl a' = gl a ++ [GlClear; GlSwap; GlClear; GlSwap; GlClear; GlSwap]
      /\ fade_state a' = "out"
      /\ fade_state a' <> "idle".
Proof.
  intros c ev a late.
  split; [reflexivity|].
  assert (Hev : event a = Some ev) by reflexivity.
  assert (Hall : Forall (fun x => not_newer (snd (fst x)) a
                                  /\ (visible_until a <= snd x)%Q) late).
  { repeat constructor; vm_compute; discriminate. }
  destruct (expired_frames_keep_fade_state (B := RefBuiltins.builtins)
                                           late a ev Hev Hall)
    as (a' & Hrun & Hgl & Hst & _ & _).
  exists a'. split; [exact Hrun|]. split; [exact Hgl|].
  assert (Hout : fade_state a' = "out") by (rewrite Hst; reflexivity).
  split; [exact Hout|]. rewrite Hout. discriminate.
Defined.

(** ** Parsing a payload *)

Section Parsing.
Context {B : Builtins}.

(** [from_json] on a dict, conversion by conversion. *)
Lemma from_json_dict (c : clock) (d : pydict) :
  from_json c (PDict d)
  = (n <~ py_int (dict_get d "channel_number" (PInt 0)) ;;
     s <~ parse_iso (dict_get d "start" PNone) ;;
     e <~ parse_iso (dict_get d "end" PNone) ;;
     f <~ py_float (dict_get d "ts" (PFloat (Finite (time_time c)))) ;;
     ns <~ (if truthy (dict_get d "next_start" PNone)
            then parse_iso (dict_get d "next_start" PNone)
            else Ret None) ;;
     Ret (mk_event n
                   (py_str (dict_get d "channel_name" (PStr "")))
                   (py_str (dict_get d "title" (PStr "")))
                   (or_now c s) (or_now c e) f
                   (if truthy (dict_get d "next_title" PNone)
                    then Some (py_str (dict_get d "next_title" PNone))
                    else None)
                   ns))%py.
Proof.
  unfold from_json, py_get. simpl.
  destruct (py_int _); simpl; [|reflexivity].
  destruct (parse_iso (dict_get d "start" PNone)); simpl; [|reflexivity].
  destruct (parse_iso (dict_get d "end" PNone)); simpl; [|reflexivity].
  destruct (py_float _); simpl; [|reflexivity].
  destruct (truthy (dict_get d "next_title" PNone)); simpl;
    destruct (truthy (dict_get d "next_start" PNone)); simpl; reflexivity.
Qed.

(** Anything but a dict has no [get]. *)
Lemma from_json_not_dict (c : clock) (v : pyval) :
  isinstance_dict v = false -> from_json c v = Raise AttributeError.
Proof. destruct v; simpl; intro H; try discriminate; reflexivity. Qed.

(** The clock decides no conversion: [float] of the default [ts] succeeds,
    and so does [float] of a value that is there whatever the default. *)
Lemma py_float_default (d : pydict) (q : Q) :
  returns (py_float (dict_get d "ts" (PFloat (Finite q))))
  = match lookup "ts" d with
    | Some v => returns (py_float v)
    | None => true
    end.
Proof. unfold dict_get. destruct (lookup "ts" d); reflexivity. Qed.

(** A truthy value either parses to a datetime or raises. *)
Lemma parse_iso_truthy (v : pyval) (r : option utc_datetime) :
  truthy v = true -> parse_iso v = Ret r -> exists u, r = Some u.
Proof.
  intros Ht. unfold parse_iso. rewrite Ht. simpl.
  destruct (datetime_fromisoformat v) as [dt|]; simpl; [|discriminate].
  destruct (utcoffset_us dt) as [off|].
  - destruct (astimezone_utc dt off); simpl; [|discriminate].
    intro H; inversion H; eauto.
  - intro H; inversion H; eauto.
Qed.

(** A falsy value parses to [None]. *)
Lemma parse_iso_falsy (v : pyval) :
  truthy v = false -> parse_iso v = Ret None.
Proof. intro H. unfold parse_iso. rewrite H. reflexivity. Qed.

(** Two parses of one payload at different clock readings: both succeed or
    both raise, and on success the events agree on everything the clock does
    not fill in. *)
Lemma from_json_two_clocks (c1 c2 : clock) (d : pydict) (ev1 : InfobarEvent) :
  from_json c1 (PDict d) = Ret ev1 ->
  exists ev2,
    from_json c2 (PDict d) = Ret ev2
    /\ channel_number ev2 = channel_number ev1
    /\ channel_name ev2 = channel_name ev1
    /\ title ev2 = title ev1
    /\ next_title ev2 = next_title ev1
    /\ next_start ev2 = next_start ev1
    /\ (truthy (dict_get d "end" PNone) = true -> end_ ev2 = end_ ev1)
    /\ (truthy (dict_get d "start" PNone) = true -> start ev2 = start ev1).
Proof.
  rewrite !from_json_dict.
  destruct (py_int _) as [n|]; simpl; [|discriminate].
  destruct (parse_iso (dict_get d "start" PNone)) as [s|] eqn:Es; simpl; [|discriminate].
  destruct (parse_iso (dict_get d "end" PNone)) as [e|] eqn:Ee; simpl; [|discriminate].
  pose proof (py_float_default d (time_time c1)) as F1.
  pose proof (py_float_default d (time_time c2)) as F2.
  destruct (py_float (dict_get d "ts" (PFloat (Finite (time_time c1))))) as [f1|];
    simpl; [|discriminate].
  destruct (py_float (dict_get d "ts" (PFloat (Finite (time_time c2))))) as [f2|];
    [|simpl in F1, F2; rewrite <- F1 in F2; discriminate].
  simpl.
  destruct (if truthy (dict_get d "next_start" PNone)
            then parse_iso (dict_get d "next_start" PNone) else Ret None) as [ns|];
    simpl; [|discriminate].
  intro H. inversion H; subst; clear H.
  eexists. split; [reflexivity|]. simpl.
  repeat split; try reflexivity.
  - intro Ht. destruct (parse_iso_truthy _ _ Ht Ee) as [u ->]. reflexivity.
  - intro Ht. destruct (parse_iso_truthy _ _ Ht Es) as [u ->]. reflexivity.
Qed.

End Parsing.

(** ** C1: when [from_json] returns *)

(** C1, as the code has it.  On a dict, [from_json] returns an event exactly
    when [int] accepts the channel number, [float] accepts [ts], and each of
    [start], [end] and [next_start] is falsy or text that [fromisoformat]
    reads (and that is within range once moved to UTC); a key that is missing
    counts as accepted.  The event then has 0, the empty string, the clock's
    [now] and [time.time()], and [None] where the key is missing (for the
    times and the next title: where the value is falsy).  The empty object
    gives all the defaults. *)
Theorem from_json_returns_iff_fields_convert
        {B : Builtins} (c : clock) (d : pydict) :
  returns (from_json c (PDict d))
  = returns (py_int (dict_get d "channel_number" (PInt 0)))
    && returns (parse_iso (dict_get d "start" PNone))
    && returns (parse_iso (dict_get d "end" PNone))
    && returns (py_float (dict_get d "ts" (PFloat (Finite (time_time c)))))
    && returns (parse_iso (dict_get d "next_start" PNone))
  /\ (forall ev, from_json c (PDict d) = Ret ev ->
       (lookup "channel_number" d = None -> channel_number ev = 0)
       /\ (lookup "channel_name" d = None -> channel_name ev = "")
       /\ (lookup "title" d = None -> title ev = "")
       /\ (truthy (dict_get d "start" PNone) = false -> start ev = now_utc c)
       /\ (truthy (dict_get d "end" PNone) = false -> end_ ev = now_utc c)
       /\ (lookup "ts" d = None -> ts ev = Finite (time_time c))
       /\ (truthy (dict_get d "next_title" PNone) = false -> next_title ev = None)
       /\ (truthy (dict_get d "next_start" PNone) = false -> next_start ev = None))
  /\ from_json c (PDict [])
     = Ret (mk_event 0 "" "" (now_utc c) (now_utc c) (Finite (time_time c))
                     None None).
Proof.
  split; [|split].
  - rewrite from_json_dict.
    destruct (py_int _); simpl; [|reflexivity].
    destruct (parse_iso (dict_get d "start" PNone)); simpl; [|reflexivity].
    destruct (parse_iso (dict_get d "end" PNone)); simpl; [|reflexivity].
    destruct (py_float _); simpl; [|reflexivity].
    destruct (truthy (dict_get d "next_start" PNone)) eqn:Et.
    + destruct (parse_iso (dict_get d "next_start" PNone)); reflexivity.
    + rewrite (parse_iso_falsy _ Et). reflexivity.
  - intros ev. rewrite from_json_dict.
    destruct (py_int (dict_get d "channel_number" (PInt 0))) as [n|] eqn:En;
      simpl; [|discriminate].
    destruct (parse_iso (dict_get d "start" PNone)) as [s|] eqn:Es;
      simpl; [|discriminate].
    destruct (parse_iso (dict_get d "end" PNone)) as [e|] eqn:Ee;
      simpl; [|discriminate].
    destruct (py_float (dict_get d "ts" (PFloat (Finite (time_time c)))))
      as [f|] eqn:Ef; simpl; [|discriminate].
    destruct (if truthy (dict_get d "next_start" PNone)
              then parse_iso (dict_get d "next_start" PNone) else Ret None)
      as [ns|] eqn:Ens; simpl; [|discriminate].
    intro H. inversion H; subst; clear H. simpl.
    unfold dict_get in *.
    repeat split.
    + intro L. rewrite L in En. simpl in En. congruence.
    + intro L. rewrite L. reflexivity.
    + intro L. rewrite L. reflexivity.
    + intro Ht. rewrite (parse_iso_falsy _ Ht) in Es. inversion Es. reflexivity.
    + intro Ht. rewrite (parse_iso_falsy _ Ht) in Ee. inversion Ee. reflexivity.
    + intro L. rewrite L in Ef. simpl in Ef. congruence.
    + intro Ht. rewrite Ht. reflexivity.
    + intro Ht. rewrite Ht in Ens. congruence.
  - reflexivity.
Qed.

(** The payload of the module's header comment parses; so does one with
    falsy times. *)
Lemma from_json_returns_iff_fields_convert_witness :
  let c := mk_clock 1755374400 (mk_utc 1755374400000000) in
  returns (from_json (B := RefBuiltins.builtins) c
             (PDict [("ts", PInt 1734111111); ("channel_number", PInt 3);
                     ("channel_name", PStr "TV3 Stockholm");
                     ("title", PStr "Mamma Mia!");
                     ("start", PStr "2025-08-16T20:00:00");
                     ("end", PStr "2025-08-16T22:18:00");
                     ("next_title", PStr "Nyheterna");
                     ("next_start", PStr "2025-08-16T22:18:00")])) = true
  /\ returns (from_json (B := RefBuiltins.builtins) c
                (PDict [("channel_number", PStr " 12 "); ("start", PStr "");
                        ("end", PNone); ("next_start", PInt 0)])) = true.
Proof.
  intro c. split.
  - rewrite (proj1 (from_json_returns_iff_fields_convert
                      (B := RefBuiltins.builtins) c _)).
    reflexivity.
  - rewrite (proj1 (from_json_returns_iff_fields_convert
                      (B := RefBuiltins.builtins) c _)).
    reflexivity.
Defined.

(** C1 as stated fails: [from_json] raises on a channel number or a [ts] of
    the wrong type and on malformed or non-text times. *)
Lemma from_json_raises_on_garbage :
  let c := mk_clock 1755374400 (mk_utc 1755374400000000) in
  let parse := from_json (B := RefBuiltins.builtins) c in
  parse (PDict [("channel_number", PStr "abc")]) = Raise ValueError
  /\ parse (PDict [("channel_number", PNone)]) = Raise TypeError
  /\ parse (PDict [("channel_number", PList [PInt 3])]) = Raise TypeError
  /\ parse (PDict [("ts", PStr "soon")]) = Raise ValueError
  /\ parse (PDict [("ts", PNone)]) = Raise TypeError
  /\ parse (PDict [("start", PStr "not-a-date")]) = Raise ValueError
  /\ parse (PDict [("end", PStr "2025-13-45T99:00:00")]) = Raise ValueError
  /\ parse (PDict [("end", PInt 5)]) = Raise TypeError
  /\ parse (PDict [("next_start", PStr "tomorrow")]) = Raise ValueError.
Proof.
  intros c parse. repeat split.
Qed.

(** ** C4: the same payload twice *)

Section Redelivery.
Context {B : Builtins}.

(** A datagram whose payload parses is accepted. *)
Lemma _udp_datagram_accepts (c : clock) (v : pyval) (ev : InfobarEvent)
      (a : OverlayApp) :
  from_json c v = Ret ev ->
  _udp_datagram c (Some v) a = _on_event c ev a.
Proof.
  intro H. unfold _udp_datagram, try_excepts, bind, lift. rewrite H.
  rewrite _on_event_run. reflexivity.
Qed.

(** A datagram that is no JSON, or whose payload does not parse, is dropped:
    nothing is raised and nothing changes. *)
Lemma _udp_datagram_drops (c : clock) (data : option pyval) (a : OverlayApp) :
  match data with
  | Some v => returns (from_json c v) = false
  | None => True
  end ->
  _udp_datagram c data a = (Ret tt, a).
Proof.
  unfold _udp_datagram, try_excepts, bind, lift.
  destruct data as [v|]; [|reflexivity].
  destruct (from_json c v) as [ev|e]; simpl; [discriminate|].
  intros _. destruct e; reflexivity.
Qed.

(** An event whose key is the one just stored restarts the timer and leaves
    the renderer and the graphics context alone. *)
Lemma _on_event_same_key (c1 c2 : clock) (ev1 ev2 : InfobarEvent) (a0 : OverlayApp) :
  key_of ev2 = key_of ev1 ->
  let a1 := snd (_on_event c1 ev1 a0) in
  let a2 := snd (_on_event c2 ev2 a1) in
  renderer a2 = renderer a1 /\ gl a2 = gl a1.
Proof.
  intros Hk a1 a2. unfold a2, a1. rewrite !_on_event_run. simpl.
  rewrite (ensure_texture_hit c2 ev2).
  - simpl. rewrite app_nil_r. split; reflexivity.
  - rewrite ensure_texture_stores_key. congruence.
Qed.

(** A falsy [end] is filled with the clock reading of the parse. *)
Lemma from_json_falsy_end (c : clock) (d : pydict) (ev : InfobarEvent) :
  truthy (dict_get d "end" PNone) = false ->
  from_json c (PDict d) = Ret ev ->
  end_ ev = now_utc c.
Proof.
  intros Ht. rewrite from_json_dict.
  rewrite (parse_iso_falsy _ Ht).
  destruct (py_int _); simpl; [|discriminate].
  destruct (parse_iso (dict_get d "start" PNone)); simpl; [|discriminate].
  destruct (py_float _); simpl; [|discriminate].
  destruct (if truthy (dict_get d "next_start" PNone)
            then parse_iso (dict_get d "next_start" PNone) else Ret None);
    simpl; [|discriminate].
  intro H. inversion H; subst. reflexivity.
Qed.

(** An event whose key is not the one stored is drawn and uploaded, and its
    key stored. *)
Lemma _on_event_other_key (c1 c2 : clock) (ev1 ev2 : InfobarEvent) (a0 : OverlayApp) :
  key_of ev2 <> key_of ev1 ->
  let a1 := snd (_on_event c1 ev1 a0) in
  let a2 := snd (_on_event c2 ev2 a1) in
  current_img_key (renderer a2) <> current_img_key (renderer a1)
  /\ renderer a2 = mk_renderer (Some (_draw_infobar_image c2 ev2)) (Some (key_of ev2))
  /\ gl a2 = gl a1 ++ [GlUpload (_draw_infobar_image c2 ev2)].
Proof.
  intros Hk a1 a2.
  assert (H1 : current_img_key (renderer a1) = Some (key_of ev1)).
  { unfold a1. rewrite _on_event_run. cbn [snd renderer].
    apply ensure_texture_stores_key. }
  assert (Hm : ensure_texture c2 ev2 (renderer a1)
               = (mk_renderer (Some (_draw_infobar_image c2 ev2)) (Some (key_of ev2)),
                  [GlUpload (_draw_infobar_image c2 ev2)])).
  { apply ensure_texture_miss. rewrite H1. congruence. }
  unfold a2. rewrite (_on_event_run c2 ev2 a1), Hm. cbn [snd fst renderer gl current_img_key].
  rewrite H1. split; [congruence|]. split; reflexivity.
Qed.

End Redelivery.

(** C4, as the code has it.  The same payload delivered twice (here as two
    datagrams, read at clock readings [c1] and [c2]) and accepted: the second
    delivery sets the anchor to its own [time.time()], the state to ["in"] and
    the expiry accordingly, whatever the key; and when the payload carries an
    [end] (a truthy value, so a time that parsed), the key, the renderer and
    the graphics calls after the second delivery are those after the first:
    nothing is drawn again or uploaded.  When the payload carries no [end]
    (the key is missing or its value falsy), each parse takes its own clock
    reading as [end]: with the two readings in the same whole second (as
    [int(timestamp())] counts it, which is what the key holds) the second
    delivery again leaves the renderer and the graphics calls alone; with
    the readings in different whole seconds the key changes, and the second
    delivery draws the image anew and uploads it, once. *)
Theorem redelivery_restarts_timer_keeps_key
        {B : Builtins} (c1 c2 : clock) (d : pydict) (a0 : OverlayApp)
        (ev1 : InfobarEvent) :
  from_json c1 (PDict d) = Ret ev1 ->
  let a1 := snd (_udp_datagram c1 (Some (PDict d)) a0) in
  let a2 := snd (_udp_datagram c2 (Some (PDict d)) a1) in
  fst (_udp_datagram c2 (Some (PDict d)) a1) = Ret tt
  /\ fade_t0 a2 = time_time c2
  /\ fade_state a2 = "in"
  /\ visible_until a2 = (time_time c2 + FADE_IN + VIS_SECONDS + FADE_OUT)%Q
  /\ (truthy (dict_get d "end" PNone) = true ->
      current_img_key (renderer a2) = current_img_key (renderer a1)
      /\ renderer a2 = renderer a1
      /\ gl a2 = gl a1)
  /\ (truthy (dict_get d "end" PNone) = false ->
      exists ev2,
        from_json c2 (PDict d) = Ret ev2
        /\ end_ ev1 = now_utc c1
        /\ end_ ev2 = now_utc c2
        /\ (Qtrunc (timestamp (now_utc c2)) = Qtrunc (timestamp (now_utc c1)) ->
            current_img_key (renderer a2) = current_img_key (renderer a1)
            /\ renderer a2 = renderer a1
            /\ gl a2 = gl a1)
        /\ (Qtrunc (timestamp (now_utc c2)) <> Qtrunc (timestamp (now_utc c1)) ->
            current_img_key (renderer a2) <> current_img_key (renderer a1)
            /\ renderer a2
               = mk_renderer (Some (_draw_infobar_image c2 ev2)) (Some (key_of ev2))
            /\ gl a2 = gl a1 ++ [GlUpload (_draw_infobar_image c2 ev2)])).
Proof.
  intros H1 a1 a2.
  destruct (from_json_two_clocks c1 c2 d ev1 H1)
    as (ev2 & H2 & Hn & Hc & Ht & Hnt & Hns & Hend & _).
  unfold a2, a1.
  rewrite (_udp_datagram_accepts c1 _ ev1 a0 H1).
  rewrite (_udp_datagram_accepts c2 _ ev2 _ H2).
  split; [rewrite _on_event_run; reflexivity|].
  split; [rewrite _on_event_run; reflexivity|].
  split; [rewrite _on_event_run; reflexivity|].
  split; [rewrite (_on_event_run c2); reflexivity|].
  split.
  - intro He.
    assert (Hk : key_of ev2 = key_of ev1).
    { unfold key_of, end_seconds, next_start_seconds.
      rewrite Hn, Hc, Ht, Hnt, Hns, (Hend He). reflexivity. }
    destruct (_on_event_same_key c1 c2 ev1 ev2 a0 Hk) as [Hr Hg].
    split; [rewrite Hr; reflexivity|]. split; [exact Hr | exact Hg].
  - intro He.
    pose proof (from_json_falsy_end c1 d ev1 He H1) as E1.
    pose proof (from_json_falsy_end c2 d ev2 He H2) as E2.
    exists ev2. split; [exact H2|]. split; [exact E1|]. split; [exact E2|].
    split; intro Hs.
    + assert (Hk : key_of ev2 = key_of ev1).
      { unfold key_of, end_seconds, next_start_seconds.
        rewrite Hn, Hc, Ht, Hnt, Hns, E1, E2, Hs. reflexivity. }
      destruct (_on_event_same_key c1 c2 ev1 ev2 a0 Hk) as [Hr Hg].
      split; [rewrite Hr; reflexivity|]. split; [exact Hr | exact Hg].
    + assert (Hk : key_of ev2 <> key_of ev1).
      { unfold key_of, end_seconds. rewrite E1, E2. intro Heq.
        inversion Heq. contradiction. }
      exact (_on_event_other_key c1 c2 ev1 ev2 a0 Hk).
Qed.

(** The payload of the module's header comment, delivered at two clock
    readings a second apart, on a fresh application. *)
Lemma redelivery_restarts_timer_keeps_key_witness :
  let c1 := mk_clock 1755374400 (mk_utc 1755374400000000) in
  let c2 := mk_clock 1755374401 (mk_utc 1755374401000000) in
  let d := PDict [("ts", PInt 1734111111); ("channel_number", PInt 3);
                  ("channel_name", PStr "TV3 Stockholm");
                  ("title", PStr "Mamma Mia!");
                  ("start", PStr "2025-08-16T20:00:00");
                  ("end", PStr "2025-08-16T22:18:00");
                  ("next_title", PStr "Nyheterna");
                  ("next_start", PStr "2025-08-16T22:18:00")] in
  let a1 := snd (_udp_datagram (B := RefBuiltins.builtins) c1 (Some d) init_app) in
  let a2 := snd (_udp_datagram (B := RefBuiltins.builtins) c2 (Some d) a1) in
  fade_t0 a2 = 1755374401%Q
  /\ fade_state a2 = "in"
  /\ renderer a2 = renderer a1
  /\ gl a2 = gl a1.
Proof.
  intros c1 c2 d a1 a2.
  assert (H1 : exists ev1, from_json (B := RefBuiltins.builtins) c1 d = Ret ev1)
    by (eexists; reflexivity).
  destruct H1 as [ev1 H1].
  destruct (redelivery_restarts_timer_keeps_key
              (B := RefBuiltins.builtins) c1 c2 _ init_app ev1 H1)
    as (_ & Ht0 & Hst & _ & Hkey & _).
  destruct (Hkey eq_refl) as (_ & Hr & Hg).
  split; [exact Ht0|]. split; [exact Hst|]. split; [exact Hr | exact Hg].
Defined.

(** C4 as stated fails for a payload without [end]: parsed a microsecond
    apart, across a change of second, it gives two keys, and the second
    delivery draws and uploads again. *)
Lemma redelivery_without_end_regenerates :
  let c1 := mk_clock (1755374400999999 # 1000000) (mk_utc 1755374400999999) in
  let c2 := mk_clock (1755374401000000 # 1000000) (mk_utc 1755374401000000) in
  let d := PDict [("channel_number", PInt 3); ("channel_name", PStr "TV3");
                  ("title", PStr "Movie")] in
  let a1 := snd (_udp_datagram (B := RefBuiltins.builtins) c1 (Some d) init_app) in
  let a2 := snd (_udp_datagram (B := RefBuiltins.builtins) c2 (Some d) a1) in
  current_img_key (renderer a1) = Some (3, "TV3", "Movie", 1755374400, None, 0)
  /\ current_img_key (renderer a2) = Some (3, "TV3", "Movie", 1755374401, None, 0)
  /\ current_img_key (renderer a2) <> current_img_key (renderer a1)
  /\ gl a1 = [GlUpload (mk_image "3" "TV3" "Movie" "Remaining time 00:00 Hours" None)]
  /\ gl a2 = gl a1
             ++ [GlUpload (mk_image "3" "TV3" "Movie" "Remaining time 00:00 Hours" None)].
Proof.
  intros c1 c2 d a1 a2.
  split; [reflexivity|]. split; [reflexivity|].
  split; [discriminate|]. split; reflexivity.
Qed.

(** ** C7: one poll of the file *)

(** C7.  A poll never raises.  It reads and parses the file only when its
    modification time is strictly above the last one seen: with no file, or a
    file that is not newer, the application is left as it was.  A newer file
    that is no JSON, or whose payload [from_json] refuses, only has its time
    remembered: the event slot (and the timer, the renderer, the graphics
    context) stay as they were.  A newer file that parses is accepted.  After
    a malformed file the next newer, well-formed file is accepted as usual. *)
Theorem poll_file_gates_and_swallows
        {B : Builtins} (c : clock) (f : option event_file) (a : OverlayApp) :
  fst (_poll_file c f a) = Ret tt
  /\ (f = None -> _poll_file c f a = (Ret tt, a))
  /\ (forall st, f = Some st -> (st_mtime st <= _file_mtime a)%Q ->
                 _poll_file c f a = (Ret tt, a))
  /\ (forall st, f = Some st -> (_file_mtime a < st_mtime st)%Q ->
                 match json st with
                 | Some v => returns (from_json c v) = false
                 | None => True
                 end ->
                 _poll_file c f a
                 = (Ret tt,
                    mk_app (renderer a) (visible_until a) (fade_state a) (fade_t0 a)
                           (event a) (st_mtime st) (gl a)))
  /\ (forall st v ev, f = Some st -> (_file_mtime a < st_mtime st)%Q ->
                      json st = Some v -> from_json c v = Ret ev ->
                      event (snd (_poll_file c f a)) = Some ev
                      /\ fade_t0 (snd (_poll_file c f a)) = time_time c)
  /\ (forall st c' st' v ev,
         f = Some st -> (_file_mtime a < st_mtime st)%Q ->
         match json st with
         | Some v => returns (from_json c v) = false
         | None => True
         end ->
         (st_mtime st < st_mtime st')%Q ->
         json st' = Some v -> from_json c' v = Ret ev ->
         event (snd (_poll_file c' (Some st') (snd (_poll_file c f a)))) = Some ev).
Proof.
  assert (Hbad : forall st, (_file_mtime a < st_mtime st)%Q ->
                 match json st with
                 | Some v => returns (from_json c v) = false
                 | None => True
                 end ->
                 _poll_file c (Some st) a
                 = (Ret tt,
                    mk_app (renderer a) (visible_until a) (fade_state a) (fade_t0 a)
                           (event a) (st_mtime st) (gl a))).
  { intros st Hlt Hm. rewrite (_poll_file_newer c st a Hlt). cbv zeta.
    destruct (json st) as [v|]; [|reflexivity].
    destruct (from_json c v); [discriminate | reflexivity]. }
  assert (Hgood : forall c0 a0 st v ev, (_file_mtime a0 < st_mtime st)%Q ->
                  json st = Some v -> from_json c0 v = Ret ev ->
                  event (snd (_poll_file c0 (Some st) a0)) = Some ev
                  /\ fade_t0 (snd (_poll_file c0 (Some st) a0)) = time_time c0).
  { intros c0 a0 st v ev Hlt Hj Hp. rewrite (_poll_file_newer c0 st a0 Hlt). cbv zeta.
    rewrite Hj, Hp, _on_event_run. split; reflexivity. }
  split; [|split; [|split; [|split; [|split]]]].
  - destruct f as [st|]; [|reflexivity].
    destruct (Qlt_le_dec (_file_mtime a) (st_mtime st)) as [Hlt|Hle].
    + rewrite (_poll_file_newer c st a Hlt). cbv zeta.
      destruct (json st) as [v|]; [|reflexivity].
      destruct (from_json c v) as [ev|e]; [|reflexivity].
      rewrite _on_event_run. reflexivity.
    + rewrite (_poll_file_not_newer c st a Hle). reflexivity.
  - intros ->. apply _poll_file_missing.
  - intros st -> Hle. apply _poll_file_not_newer; exact Hle.
  - intros st -> Hlt Hm. apply Hbad; assumption.
  - intros st v ev -> Hlt Hj Hp. apply (Hgood c a st v ev); assumption.
  - intros st c' st' v ev -> Hlt Hm Hlt' Hj Hp.
    rewrite (Hbad st Hlt Hm). simpl.
    apply (Hgood c' _ st' v ev); [simpl; exact Hlt' | exact Hj | exact Hp].
Qed.

(** A fresh application polls: no file; then a file that is no JSON; then the
    same file again; then a newer file holding the payload of the header
    comment. *)
Lemma poll_file_gates_and_swallows_witness :
  let c := mk_clock 1755374400 (mk_utc 1755374400000000) in
  let bad := mk_file 10 None in
  let good := mk_file 11
                (Some (PDict [("channel_number", PInt 3);
                              ("channel_name", PStr "TV3 Stockholm");
                              ("title", PStr "Mamma Mia!");
                              ("end", PStr "2025-08-16T22:18:00")])) in
  let poll := _poll_file (B := RefBuiltins.builtins) c in
  poll None init_app = (Ret tt, init_app)
  /\ event (snd (poll (Some bad) init_app)) = None
  /\ poll (Some bad) (snd (poll (Some bad) init_app))
     = (Ret tt, snd (poll (Some bad) init_app))
  /\ event (snd (poll (Some good) (snd (poll (Some bad) init_app))))
     = Some (mk_event 3 "TV3 Stockholm" "Mamma Mia!" (mk_utc 1755374400000000)
                      (mk_utc 1755382680000000) (Finite 1755374400) None None).
Proof.
  intros c bad good poll.
  pose proof (poll_file_gates_and_swallows (B := RefBuiltins.builtins)
                                           c None init_app)
    as (_ & Hnone & _).
  pose proof (poll_file_gates_and_swallows (B := RefBuiltins.builtins)
                                           c (Some bad) init_app)
    as (_ & _ & _ & Hbad & _ & Hnext).
  pose proof (poll_file_gates_and_swallows
                (B := RefBuiltins.builtins) c (Some bad)
                (snd (poll (Some bad) init_app)))
    as (_ & _ & Hsame & _).
  split; [exact (Hnone eq_refl)|].
  split; [unfold poll; rewrite (Hbad bad eq_refl eq_refl I); reflexivity|].
  split; [apply (Hsame bad eq_refl); vm_compute; discriminate|].
  apply (Hnext bad c good _ _ eq_refl eq_refl I eq_refl eq_refl eq_refl).
Defined.

(** ** C8: the producer writes the file, then tries the datagram *)

Lemma path_eqb_refl (p : path) : path_eqb p p = true.
Proof. unfold path_eqb. destruct (list_eq_dec string_dec p p); congruence. Qed.

(** After [makedirs] the directory is there. *)
Lemma makedirs_creates (p : path) (w : world) :
  fst (makedirs p w) = Ret tt /\ dir_exists (snd (makedirs p w)) p = true.
Proof.
  split; [reflexivity|].
  destruct p as [|x p']; [reflexivity|].
  unfold makedirs, modify. cbn [snd ancestors List.length filter].
  destruct (dir_exists w (x :: p')) eqn:E; cbn [negb];
    unfold dir_exists; cbn [dirs].
  - rewrite existsb_app. apply orb_true_iff. right. exact E.
  - cbn [app existsb]. rewrite path_eqb_refl. reflexivity.
Qed.

(** [makedirs] leaves the files, the socket and the datagrams alone. *)
Lemma makedirs_frame (p : path) (w : world) :
  files (snd (makedirs p w)) = files w
  /\ udp_up (snd (makedirs p w)) = udp_up w
  /\ sent (snd (makedirs p w)) = sent w.
Proof. repeat split. Qed.

(** What a call leaves, whatever the socket does. *)
Lemma send_infobar_event_run
      {B : Builtins} (c : clock) (channel_number : Z)
      (channel_name title : string) (start end_ : option datetime)
      (next_title : pyval) (next_start : option datetime) (w : world) :
  let payload := PDict (build_payload c channel_number channel_name title
                                      start end_ next_title next_start) in
  send_infobar_event c channel_number channel_name title start end_
                     next_title next_start w
  = (Ret tt,
     mk_world (dirs (snd (makedirs (dirname EVENT_FILE) w)))
              ((EVENT_FILE, payload) :: files w) (udp_up w)
              (if udp_up w then sent w ++ [payload] else sent w)).
Proof.
  intros payload.
  destruct (makedirs_creates (dirname EVENT_FILE) w) as [_ Hd].
  unfold send_infobar_event. fold payload.
  set (w1 := snd (makedirs (dirname EVENT_FILE) w)) in *.
  unfold bind at 1. unfold bind at 1.
  change (makedirs (dirname EVENT_FILE) w) with (Ret tt, w1).
  unfold write_json, bind, get. rewrite Hd.
  unfold put, try_excepts, sendto, bind, get, put, raise.
  change (udp_up w1) with (udp_up w). change (files w1) with (files w).
  change (sent w1) with (sent w).
  destruct (udp_up w); reflexivity.
Qed.

(** C8.  For every call and every state of the file system and the socket,
    [send_infobar_event] returns without raising; afterwards the parent
    directory of the event file exists and the file holds the whole payload;
    with the socket working the same payload was sent as one datagram, after
    the file was written; with the socket failing nothing was sent, the error
    did not reach the caller, and the file is written all the same.  Without
    the directory the write alone would fail. *)
Theorem send_infobar_event_writes_then_sends
        {B : Builtins} (c : clock) (channel_number : Z)
        (channel_name title : string) (start end_ : option datetime)
        (next_title : pyval) (next_start : option datetime) (w : world) :
  let payload := PDict (build_payload c channel_number channel_name title
                                      start end_ next_title next_start) in
  let r := send_infobar_event c channel_number channel_name title start end_
                              next_title next_start w in
  fst r = Ret tt
  /\ dir_exists (snd r) (dirname EVENT_FILE) = true
  /\ read_file EVENT_FILE (files (snd r)) = Some payload
  /\ sent (snd r) = (if udp_up w then sent w ++ [payload] else sent w)
  /\ fst (write_json EVENT_FILE payload w)
     = (if dir_exists w (dirname EVENT_FILE) then Ret tt else Raise FileNotFoundError).
Proof.
  intros payload r.
  destruct (makedirs_creates (dirname EVENT_FILE) w) as [_ Hd].
  unfold r. rewrite send_infobar_event_run. fold payload.
  cbn [fst snd files sent].
  split; [reflexivity|]. split; [exact Hd|]. split; [|split].
  - cbn [read_file]. rewrite path_eqb_refl. reflexivity.
  - reflexivity.
  - unfold write_json, bind, get, put, raise.
    destruct (dir_exists w (dirname EVENT_FILE)); reflexivity.
Qed.

(** What the CLI sends ([--num 3 --name "TV3" --title "Movie" --mins 118]) on
    an empty installation with a socket that fails: the file is written, the
    call returns, and the overlay's poll accepts the payload. *)
Lemma send_infobar_event_end_to_end :
  let c := mk_clock 1755374400 (mk_utc 1755374400000000) in
  let now := utcnow c in
  let w := mk_world [] [] false [] in
  let r := send_infobar_event (B := RefBuiltins.builtins) c 3 "TV3" "Movie"
             (Some now) (Some (mk_datetime (wall_us now + 118 * 60 * 1000000) None))
             PNone None w in
  fst r = Ret tt
  /\ dirs (snd r) = [["runtime"]]
  /\ sent (snd r) = []
  /\ read_file EVENT_FILE (files (snd r))
     = Some (PDict [("ts", PFloat (Finite 1755374400)); ("channel_number", PInt 3);
                    ("channel_name", PStr "TV3"); ("title", PStr "Movie");
                    ("start", PStr "2025-08-16T20:00:00");
                    ("end", PStr "2025-08-16T21:58:00")])
  /\ option_map (fun ev => _draw_infobar_image c ev)
       (event (snd (_poll_file (B := RefBuiltins.builtins) c
                      (Some (mk_file 1 (read_file EVENT_FILE (files (snd r)))))
                      init_app)))
     = Some (mk_image "3" "TV3" "Movie" "Remaining time 01:58 Hours" None).
Proof.
  intros c now w r. repeat split.
Qed.

(** ** C9: the adapter around the host's status call *)

Section Adapter.
Context {B : Builtins}.

(** The wrapper's [try] never lets an exception out. *)
Lemma notify_run (c : clock) (payload : pydict) (w : world) :
  notify c payload w = (Ret tt, after_notify c payload w).
Proof.
  unfold notify, after_notify, try_excepts, bind, lift.
  destruct (_extract payload) as [x|e]; simpl.
  - destruct (negb (x_ch_name x =? "")%string && negb (x_now_title x =? "")%string).
    + rewrite send_infobar_event_run. reflexivity.
    + reflexivity.
  - destruct e; reflexivity.
Qed.

(** A payload with none of the keys the extraction looks for. *)
Lemma _extract_defaults (payload : pydict) :
  (forall k, In k ["channel_number"; "channelNum"; "channel"; "channel_name";
                   "now"; "current"; "programme"; "next"; "up_next"] ->
             lookup k payload = None) ->
  _extract payload = Ret (mk_extracted 0 "" "" None None PNone None).
Proof.
  intro H. unfold _extract, py_get, dict_get.
  rewrite !H by (simpl; tauto). reflexivity.
Qed.

End Adapter.

(** C9.  Whatever the arguments and whatever the host's own function does,
    the wrapper ends as the original ended: it returns the original's value
    when the original returns, and adds no exception of its own.  The
    notification is made exactly when a dict is found among the arguments
    (the first positional one, else the first keyword one), it is not empty,
    [_extract] succeeds on it, and the channel name and the current title it
    extracts are not empty; in every other case, failures of the extraction
    included, the state is the one the original left.  A payload with none of
    the keys extracts to zero, empty strings and [None]. *)
Theorem update_status_socket_transparent
        {B : Builtins}
        (_orig : list pyval -> list (string * pyval) -> M world pyval)
        (c : clock) (args : list pyval) (kwargs : list (string * pyval))
        (w : world) :
  fst (update_status_socket _orig c args kwargs w) = fst (_orig args kwargs w)
  /\ (forall rv w1,
        _orig args kwargs w = (Ret rv, w1) ->
        update_status_socket _orig c args kwargs w
        = (Ret rv,
           match find_payload args kwargs with
           | Some (PDict (kv :: rest)) =>
               match _extract (kv :: rest) with
               | Ret x =>
                   if negb (x_ch_name x =? "")%string
                      && negb (x_now_title x =? "")%string
                   then snd (send_infobar_event
                               c (x_ch_num x) (x_ch_name x) (x_now_title x)
                               (x_now_start x) (x_now_end x)
                               (x_next_title x) (x_next_start x) w1)
                   else w1
               | Raise _ => w1
               end
           | _ => w1
           end))
  /\ (forall e w1,
        _orig args kwargs w = (Raise e, w1) ->
        update_status_socket _orig c args kwargs w = (Raise e, w1))
  /\ _extract [("status", PStr "playing")]
     = Ret (mk_extracted 0 "" "" None None PNone None).
Proof.
  assert (Hret : forall rv w1,
             _orig args kwargs w = (Ret rv, w1) ->
             update_status_socket _orig c args kwargs w
             = (Ret rv,
                match find_payload args kwargs with
                | Some (PDict (kv :: rest)) => after_notify c (kv :: rest) w1
                | _ => w1
                end)).
  { intros rv w1 H. unfold update_status_socket, bind. rewrite H.
    destruct (find_payload args kwargs) as [[| | | | | |p|]|]; try reflexivity.
    destruct p as [|kv rest]; [reflexivity|].
    cbn [truthy]. rewrite notify_run. reflexivity. }
  assert (Hraise : forall e w1,
             _orig args kwargs w = (Raise e, w1) ->
             update_status_socket _orig c args kwargs w = (Raise e, w1)).
  { intros e w1 H. unfold update_status_socket, bind. rewrite H. reflexivity. }
  split; [|split; [|split]].
  - destruct (_orig args kwargs w) as [[rv|e] w1] eqn:E.
    + rewrite (Hret rv w1 eq_refl). reflexivity.
    + rewrite (Hraise e w1 eq_refl). reflexivity.
  - intros rv w1 H. rewrite (Hret rv w1 H). reflexivity.
  - exact Hraise.
  - apply _extract_defaults. intros k Hk. simpl in Hk.
    repeat (destruct Hk as [<-|Hk]; [reflexivity|]). contradiction.
Qed.

(** A host function that returns 7 and a status dict in three spellings
    (flat keys; a nested [channel] with [now] and [next]; [channelNum] with
    [current] and [up_next]): each call returns 7 and writes the event file.
    A dict without a title, a channel that is no dict, and a call without any
    dict return 7 and write nothing. *)
Lemma update_status_socket_transparent_witness :
  let c := mk_clock 1755374400 (mk_utc 1755374400000000) in
  let host : list pyval -> list (string * pyval) -> M world pyval :=
    fun _ _ => ret (PInt 7) in
  let w := mk_world [] [] true [] in
  let call args kwargs :=
    update_status_socket (B := RefBuiltins.builtins) host c args kwargs w in
  let written r := match read_file EVENT_FILE (files (snd r)) with
                   | Some _ => true
                   | None => false
                   end in
  let flat := PDict [("channel_number", PInt 3); ("channel_name", PStr "TV3");
                     ("now", PDict [("title", PStr "Movie")])] in
  let nested := PDict [("channel", PDict [("number", PInt 3); ("name", PStr "TV3")]);
                       ("now", PDict [("name", PStr "Movie");
                                      ("start_time", PInt 1755374400)]);
                       ("next", PDict [("title", PStr "News")])] in
  let camel := PDict [("channelNum", PStr "3"); ("channel_name", PStr "TV3");
                      ("current", PDict [("title", PStr "Movie")]);
                      ("up_next", PDict [("name", PStr "News")])] in
  fst (call [flat] []) = Ret (PInt 7) /\ written (call [flat] []) = true
  /\ fst (call [PStr "x"; nested] []) = Ret (PInt 7)
  /\ written (call [PStr "x"; nested] []) = true
  /\ fst (call [] [("status", camel)]) = Ret (PInt 7)
  /\ written (call [] [("status", camel)]) = true
  /\ call [PDict [("channel_name", PStr "TV3")]] [] = (Ret (PInt 7), w)
  /\ call [PDict [("channel", PStr "TV3"); ("now", PDict [("title", PStr "Movie")])]] []
     = (Ret (PInt 7), w)
  /\ call [PInt 1; PStr "x"] [] = (Ret (PInt 7), w).
Proof.
  intros c host w call written flat nested camel.
  assert (Hfst : forall args kwargs, fst (call args kwargs) = Ret (PInt 7)).
  { intros args kwargs. unfold call.
    rewrite (proj1 (update_status_socket_transparent
                      (B := RefBuiltins.builtins) host c args kwargs w)).
    reflexivity. }
  repeat split; try apply Hfst.
Defined.

(** ** C10: the episode index *)

Lemma string_leb_iff (a b : string) :
  String.leb a b = true <-> a = b \/ OrderedTypeEx.String_as_OT.lt a b.
Proof.
  unfold String.leb.
  destruct (String.compare a b) eqn:E.
  - apply OrderedTypeEx.String_as_OT.cmp_eq in E. tauto.
  - apply OrderedTypeEx.String_as_OT.cmp_lt in E. tauto.
  - split; [discriminate|]. intros [H|H].
    + apply OrderedTypeEx.String_as_OT.cmp_eq in H. unfold OrderedTypeEx.String_as_OT.cmp in H. congruence.
    + apply OrderedTypeEx.String_as_OT.cmp_lt in H. unfold OrderedTypeEx.String_as_OT.cmp in H. congruence.
Qed.

Lemma string_leb_trans (a b c : string) :
  String.leb a b = true -> String.leb b c = true -> String.leb a c = true.
Proof.
  rewrite !string_leb_iff. intros [->|H1] [->|H2]; auto.
  right. exact (OrderedTypeEx.String_as_OT.lt_trans _ _ _ H1 H2).
Qed.

(** A list has one sorted arrangement: whatever algorithm [sorted] runs, it
    returns the list [_sorted_paths] stands for. *)
Lemma sorted_unique (l1 l2 : list string) :
  StronglySorted string_le l1 -> StronglySorted string_le l2 ->
  Permutation l1 l2 -> l1 = l2.
Proof.
  revert l2. induction l1 as [|a l1 IH]; intros l2 S1 S2 P.
  - apply Permutation_nil in P. congruence.
  - destruct l2 as [|b l2].
    { apply Permutation_sym, Permutation_nil in P. discriminate. }
    inversion S1 as [|? ? S1' F1]; subst. inversion S2 as [|? ? S2' F2]; subst.
    assert (Hab : a = b).
    { assert (Ha : In a (b :: l2)) by (eapply Permutation_in; [exact P | left; reflexivity]).
      assert (Hb : In b (a :: l1))
        by (eapply Permutation_in; [apply Permutation_sym; exact P | left; reflexivity]).
      destruct Ha as [Ha|Ha]; [congruence|].
      destruct Hb as [Hb|Hb]; [congruence|].
      rewrite Forall_forall in F1, F2.
      apply String.leb_antisym; [apply F1; exact Hb | apply F2; exact Ha]. }
    subst b. f_equal. apply IH; try assumption.
    eapply Permutation_cons_inv; exact P.
Qed.

Lemma _sorted_paths_sorted (paths : list string) :
  StronglySorted string_le (_sorted_paths paths)
  /\ Permutation paths (_sorted_paths paths).
Proof.
  split; [|apply StringSort.Permuted_sort].
  apply Sorted_StronglySorted.
  - intros a b c. apply string_leb_trans.
  - apply StringSort.Sorted_sort.
Qed.

(** One call with the index in range. *)
Lemma get_next_in_range (s : SeriesIndex) (i : nat) :
  _index s = Z.of_nat i -> (i < List.length (episodes s))%nat ->
  get_next s
  = (Ret (nth_error (episodes s) i),
     mk_series (series_name s) (episodes s)
               (Z.of_nat (S i mod List.length (episodes s))))
  /\ nth_error (episodes s) i <> None.
Proof.
  intros Hi Hlt.
  assert (Hn : nth_error (episodes s) i <> None) by (apply nth_error_Some; exact Hlt).
  split; [|exact Hn].
  unfold get_next, bind, get, lift, modify, ret, py_getitem, get_series_length.
  destruct (episodes s) as [|e es] eqn:Ee; [simpl in Hlt; lia|].
  rewrite Hi.
  assert (H1 : (Z.of_nat i <? 0) = false) by (apply Z.ltb_ge; lia).
  rewrite H1.
  assert (H2 : (0 <=? Z.of_nat i) && (Z.of_nat i <? Z.of_nat (List.length (e :: es))) = true).
  { apply andb_true_iff. split; [apply Z.leb_le; lia | apply Z.ltb_lt; lia]. }
  rewrite H2, Nat2Z.id.
  destruct (nth_error (e :: es) i) as [x|] eqn:En; [|congruence].
  cbn [fst snd series_name episodes _index]. rewrite Ee.
  f_equal. f_equal.
  rewrite Nat2Z.inj_mod. f_equal. lia.
Qed.

(** Calls in a row walk the list round and round. *)
Lemma get_next_times_cycle (n : nat) :
  forall (s : SeriesIndex) (i : nat),
    _index s = Z.of_nat i -> (i < List.length (episodes s))%nat ->
    get_next_times n s
    = (Ret (map (fun k => nth_error (episodes s) ((i + k) mod List.length (episodes s)))
                (seq 0 n)),
       mk_series (series_name s) (episodes s)
                 (Z.of_nat ((i + n) mod List.length (episodes s)))).
Proof.
  induction n as [|n IH]; intros s i Hi Hlt.
  - cbn [get_next_times seq map]. unfold ret.
    rewrite Nat.add_0_r, Nat.mod_small by exact Hlt. rewrite <- Hi.
    destruct s; reflexivity.
  - cbn [get_next_times]. unfold bind at 1.
    destruct (get_next_in_range s i Hi Hlt) as [Hg _]. rewrite Hg.
    set (s' := mk_series (series_name s) (episodes s)
                         (Z.of_nat (S i mod List.length (episodes s)))).
    assert (Hlt' : (S i mod List.length (episodes s') < List.length (episodes s'))%nat).
    { apply Nat.mod_upper_bound. simpl. lia. }
    unfold bind. rewrite (IH s' (S i mod List.length (episodes s))%nat eq_refl Hlt').
    unfold ret. cbn [episodes series_name s'].
    f_equal.
    + f_equal. cbn [seq map]. f_equal.
      * rewrite Nat.add_0_r, Nat.mod_small by exact Hlt. reflexivity.
      * rewrite <- seq_shift, map_map. apply map_ext. intro k.
        rewrite Nat.Div0.add_mod_idemp_l. f_equal. f_equal. lia.
    + f_equal. rewrite Nat.Div0.add_mod_idemp_l. f_equal. f_equal. lia.
Qed.

(** C10.  [get_next] returns [None] exactly when there is no episode.  After
    [populate] the episodes are the sorted arrangement of the files given
    (sorted by [<=] on strings, the same elements), and for a non-empty list
    successive calls return them in that order, round and round: call number
    [k] (from 0) returns the episode at position [k mod get_series_length()],
    so the call after [get_series_length()] calls returns the first episode
    again; and the index stays within [0, get_series_length()). *)
Theorem get_next_cycles_in_sorted_order
        (s0 : SeriesIndex) (file_list : list string) (n : nat) :
  let s := snd (populate file_list s0) in
  let len := List.length (episodes s) in
  (forall s', fst (get_next s') = Ret None <-> episodes s' = [])
  /\ StronglySorted string_le (episodes s)
  /\ Permutation file_list (episodes s)
  /\ (forall l, StronglySorted string_le l -> Permutation file_list l ->
                episodes s = l)
  /\ _index s = 0
  /\ (file_list <> [] ->
      exists s',
        get_next_times n s
        = (Ret (map (fun k => nth_error (episodes s) (k mod len)) (seq 0 n)), s')
        /\ episodes s' = episodes s
        /\ 0 <= _index s' < get_series_length s'
        /\ _index s' = Z.of_nat (n mod len)
        /\ (n = len -> fst (get_next s') = fst (get_next s))
        /\ (forall k, nth_error (episodes s) (k mod len) <> None)).
Proof.
  intros s len.
  assert (Hs : s = mk_series (series_name s0) (_sorted_paths file_list) 0) by reflexivity.
  destruct (_sorted_paths_sorted file_list) as [Hsorted Hperm].
  split; [|split; [|split; [|split; [|split]]]].
  - intro s'. unfold get_next, bind, get, lift, modify, ret.
    destruct (episodes s') as [|e es] eqn:Ee.
    + split; reflexivity.
    + split; [|discriminate].
      destruct (py_getitem (e :: es) (_index s')); simpl; discriminate.
  - exact Hsorted.
  - exact Hperm.
  - intros l Hl Pl. apply sorted_unique; try assumption.
    eapply Permutation_trans; [apply Permutation_sym; exact Hperm | exact Pl].
  - reflexivity.
  - intro Hne.
    assert (Hlen : (0 < len)%nat).
    { unfold len. change (episodes s) with (_sorted_paths file_list).
      rewrite <- (Permutation_length Hperm).
      destruct file_list; [congruence | simpl; lia]. }
    pose proof (get_next_times_cycle n s 0%nat eq_refl Hlen) as Hrun.
    cbn [Nat.add] in Hrun. fold len in Hrun.
    eexists. split; [exact Hrun|].
    cbn [episodes _index series_name get_series_length].
    assert (Hm : (n mod len < len)%nat) by (apply Nat.mod_upper_bound; lia).
    split; [reflexivity|]. split; [unfold get_series_length; cbn [episodes]; fold len; lia|].
    split; [reflexivity|]. split.
    + intros ->. rewrite Nat.Div0.mod_same. reflexivity.
    + intro k. apply nth_error_Some. apply Nat.mod_upper_bound. lia.
Qed.

(** Three files given out of order, five calls: the sorted list, then its
    first two entries again. *)
Lemma get_next_cycles_in_sorted_order_witness :
  let s := snd (populate ["s01e03.mp4"; "s01e01.mp4"; "s01e02.mp4"]
                         (mk_series "show" [] 0)) in
  episodes s = ["s01e01.mp4"; "s01e02.mp4"; "s01e03.mp4"]
  /\ exists s',
      get_next_times 5 s
      = (Ret [Some "s01e01.mp4"; Some "s01e02.mp4"; Some "s01e03.mp4";
              Some "s01e01.mp4"; Some "s01e02.mp4"], s')
      /\ _index s' = 2.
Proof.
  intro s. split; [reflexivity|].
  destruct (get_next_cycles_in_sorted_order
              (mk_series "show" [] 0)
              ["s01e03.mp4"; "s01e01.mp4"; "s01e02.mp4"] 5)
    as (_ & _ & _ & _ & _ & H).
  destruct (H ltac:(discriminate)) as (s' & Hrun & _ & _ & Hidx & _).
  exists s'. split; [exact Hrun | exact Hidx].
Defined.

(** * Further properties *)

(** ** series.py *)

Lemma nth_error_seq_all {A : Type} (l : list A) :
  map (nth_error l) (seq 0 (List.length l)) = map Some l.
Proof.
  induction l as [|x l IH]; [reflexivity|].
  cbn [List.length seq map nth_error]. f_equal.
  rewrite <- seq_shift, map_map. exact IH.
Qed.

Lemma one_round_is_the_list {A : Type} (l : list A) :
  map (fun k => nth_error l (k mod List.length l)%nat) (seq 0 (List.length l))
  = map Some l.
Proof.
  rewrite <- nth_error_seq_all. apply map_ext_in.
  intros k Hk. apply in_seq in Hk. rewrite Nat.mod_small by lia. reflexivity.
Qed.

(** X1.  After [populate] the index answers as many calls as there are files with
    each file exactly once (a file given twice comes twice), and is then
    back in the state it started from. *)
Theorem full_cycle_returns_every_file_once
        (s0 : SeriesIndex) (file_list : list string) :
  file_list <> [] ->
  let s := snd (populate file_list s0) in
  exists out,
    get_next_times (List.length file_list) s = (Ret out, s)
    /\ Permutation (map Some file_list) out
    /\ get_series_length s = Z.of_nat (List.length file_list).
Proof.
  intros Hne s.
  destruct (_sorted_paths_sorted file_list) as [_ Hperm].
  assert (Hlen : List.length (episodes s) = List.length file_list)
    by (symmetry; apply (Permutation_length Hperm)).
  assert (Hpos : (0 < List.length (episodes s))%nat).
  { rewrite Hlen. destruct file_list; [congruence | simpl; lia]. }
  pose proof (get_next_times_cycle (List.length (episodes s)) s 0%nat eq_refl Hpos)
    as Hrun.
  cbn [Nat.add] in Hrun.
  rewrite one_round_is_the_list, Nat.Div0.mod_same in Hrun.
  exists (map Some (episodes s)). split; [|split].
  - rewrite <- Hlen, Hrun. reflexivity.
  - apply Permutation_map. exact Hperm.
  - unfold get_series_length. rewrite Hlen. reflexivity.
Qed.

(** Four files, one of them twice: five calls return the five entries and
    the index is at the start again. *)
Lemma full_cycle_returns_every_file_once_witness :
  let fl := ["e2.mkv"; "e1.mkv"; "e3.mkv"; "e1.mkv"; "e0.mkv"] in
  let s := snd (populate fl (mk_series "show" ["old.mkv"] 0)) in
  exists out,
    get_next_times 5 s = (Ret out, s)
    /\ Permutation (map Some fl) out.
Proof.
  intros fl s.
  destruct (full_cycle_returns_every_file_once (mk_series "show" ["old.mkv"] 0) fl
              ltac:(discriminate))
    as (out & Hrun & Hperm & _).
  exists out. split; [exact Hrun | exact Hperm].
Defined.

(** X2.  [populate] gives the same traversal for the same files in any order, as
    its docstring promises; populating with its own result changes nothing;
    and it always starts over at the first episode. *)
Theorem populate_is_order_independent
        (s1 s2 : SeriesIndex) (l1 l2 : list string) :
  Permutation l1 l2 ->
  episodes (snd (populate l1 s1)) = episodes (snd (populate l2 s2))
  /\ episodes (snd (populate (episodes (snd (populate l1 s1))) s2))
     = episodes (snd (populate l1 s1))
  /\ _index (snd (populate l1 s1)) = 0
  /\ series_name (snd (populate l1 s1)) = series_name s1.
Proof.
  intro P.
  destruct (_sorted_paths_sorted l1) as [S1 P1].
  destruct (_sorted_paths_sorted l2) as [S2 P2].
  destruct (_sorted_paths_sorted (_sorted_paths l1)) as [S3 P3].
  cbn [populate]. unfold populate, bind, modify. cbn [snd episodes _index series_name].
  split; [|split; [|split]]; try reflexivity.
  - apply sorted_unique; try assumption.
    eapply Permutation_trans; [apply Permutation_sym; exact P1|].
    eapply Permutation_trans; [exact P | exact P2].
  - apply sorted_unique; try assumption. apply Permutation_sym. exact P3.
Qed.

(** The same three files in two orders, on indexes with different pasts. *)
Lemma populate_is_order_independent_witness :
  episodes (snd (populate ["b"; "c"; "a"] (mk_series "x" ["old"] 0)))
  = episodes (snd (populate ["c"; "a"; "b"] (mk_series "y" [] 0))).
Proof.
  apply (populate_is_order_independent (mk_series "x" ["old"] 0) (mk_series "y" [] 0)
                                       ["b"; "c"; "a"] ["c"; "a"; "b"]).
  apply perm_trans with ["c"; "b"; "a"].
  - apply (Permutation_cons_app ["c"] ["a"] "b"). reflexivity.
  - apply perm_skip. apply perm_swap.
Defined.

(** X3.  [get_next] with whatever index the object was built with: from [-n] up
    to [n - 1] (a negative index counts from the end, as list indexing does)
    it returns that episode and leaves an index within [0, n); outside it
    raises [IndexError] and changes nothing. *)
Theorem get_next_with_any_index (s : SeriesIndex) :
  let n := get_series_length s in
  episodes s <> [] ->
  (- n <= _index s < n ->
   exists x,
     nth_error (episodes s) (Z.to_nat (_index s mod n)) = Some x
     /\ get_next s
        = (Ret (Some x),
           mk_series (series_name s) (episodes s) ((_index s + 1) mod n))
     /\ 0 <= (_index s + 1) mod n < n)
  /\ (_index s < - n \/ n <= _index s -> get_next s = (Raise IndexError, s)).
Proof.
  intros n Hne.
  assert (Hndef : n = Z.of_nat (List.length (episodes s))) by reflexivity.
  clearbody n.
  assert (Hn : 0 < n).
  { rewrite Hndef. destruct (episodes s); [congruence | simpl; lia]. }
  assert (Hpick : (if _index s <? 0 then _index s + n else _index s) = _index s mod n
                  \/ ~ (- n <= _index s < n)).
  { destruct (Z.ltb_spec (_index s) 0).
    - destruct (Z_le_gt_dec (- n) (_index s)); [left | right; lia].
      apply (Z.mod_unique _ _ (-1)); lia.
    - destruct (Z_lt_ge_dec (_index s) n); [left | right; lia].
      symmetry. apply Z.mod_small. lia. }
  split.
  - intros Hi.
    destruct Hpick as [Hpick|]; [|contradiction].
    assert (Hj : 0 <= _index s mod n < n) by (apply Z.mod_pos_bound; exact Hn).
    assert (Hlt : (Z.to_nat (_index s mod n) < List.length (episodes s))%nat) by lia.
    destruct (nth_error (episodes s) (Z.to_nat (_index s mod n))) as [x|] eqn:En;
      [|apply nth_error_None in En; lia].
    exists x. split; [reflexivity|]. split; [|apply Z.mod_pos_bound; exact Hn].
    unfold get_next, bind, get, lift, modify, ret, py_getitem, get_series_length.
    destruct (episodes s) as [|e es] eqn:Ee; [congruence|].
    rewrite <- Hndef, Hpick.
    assert (Hb : (0 <=? _index s mod n) && (_index s mod n <? n) = true).
    { apply andb_true_iff. split; [apply Z.leb_le | apply Z.ltb_lt]; lia. }
    rewrite Hb, En. cbn [fst snd series_name episodes _index].
    rewrite Ee, <- Hndef. reflexivity.
  - intros Hi.
    unfold get_next, bind, get, lift, modify, ret, py_getitem.
    destruct (episodes s) as [|e es] eqn:Ee; [congruence|].
    rewrite <- Hndef.
    assert (Hb : (0 <=? (if _index s <? 0 then _index s + n else _index s))
                 && ((if _index s <? 0 then _index s + n else _index s) <? n) = false).
    { apply andb_false_iff.
      destruct (Z.ltb_spec (_index s) 0).
      - left. apply Z.leb_gt. lia.
      - right. apply Z.ltb_ge. lia. }
    rewrite Hb. reflexivity.
Qed.

(** An index built at -1 returns the last episode and is then 0; one built
    at 3 on three episodes raises. *)
Lemma get_next_with_any_index_witness :
  get_next (mk_series "show" ["a"; "b"; "c"] (-1))
  = (Ret (Some "c"), mk_series "show" ["a"; "b"; "c"] 0)
  /\ get_next (mk_series "show" ["a"; "b"; "c"] 3)
     = (Raise IndexError, mk_series "show" ["a"; "b"; "c"] 3).
Proof.
  pose proof (get_next_with_any_index (mk_series "show" ["a"; "b"; "c"] (-1))
                                      ltac:(discriminate)) as [H1 _].
  pose proof (get_next_with_any_index (mk_series "show" ["a"; "b"; "c"] 3)
                                      ltac:(discriminate)) as [_ H2].
  split.
  - destruct (H1 ltac:(unfold get_series_length; simpl; lia)) as (x & Hx & Hg & _).
    simpl in Hx. inversion Hx; subst x. exact Hg.
  - apply H2. right. unfold get_series_length. simpl. lia.
Defined.

Lemma make_key_no_hyphen_prefix (a a' b b' : string) :
  contains_char "-" a = false -> contains_char "-" a' = false ->
  (a ++ "-" ++ b)%string = (a' ++ "-" ++ b')%string -> a = a' /\ b = b'.
Proof.
  revert a'. induction a as [|x a IH]; intros a' Ha Ha' E.
  - destruct a' as [|y a']; simpl in E.
    + inversion E. split; reflexivity.
    + inversion E; subst y. simpl in Ha'. discriminate.
  - destruct a' as [|y a']; simpl in E.
    + inversion E; subst x. simpl in Ha. discriminate.
    + inversion E; subst y. simpl in Ha, Ha'.
      apply orb_false_iff in Ha, Ha'.
      destruct (IH a' (proj2 Ha) (proj2 Ha') H1) as [-> ->].
      split; reflexivity.
Qed.

(** X4.  [make_key] joins the two names with a hyphen and quotes nothing: a
    hyphen in the series name can be traded for one in the sequence name, so
    two different pairs can share a key; among series names without a hyphen
    the key determines both names. *)
Theorem make_key_injective_without_hyphen :
  (forall a b c : string,
      make_key (a ++ "-" ++ b) c = make_key a (b ++ "-" ++ c))
  /\ (forall a a' b b' : string,
         contains_char "-" a = false -> contains_char "-" a' = false ->
         make_key a b = make_key a' b' -> a = a' /\ b = b').
Proof.
  split.
  - intros a b c. unfold make_key.
    induction a as [|x a IH]; simpl.
    + induction b as [|y b IHb]; simpl; [reflexivity | f_equal; exact IHb].
    + f_equal. exact IH.
  - intros a a' b b'. unfold make_key. apply make_key_no_hyphen_prefix.
Qed.

(** The docstring's key, and a clash. *)
Lemma make_key_injective_without_hyphen_witness :
  make_key "show" "intro" = "show-intro"
  /\ make_key "late-night" "news" = make_key "late" "night-news".
Proof.
  split; [reflexivity|].
  exact (proj1 make_key_injective_without_hyphen "late" "night" "news").
Defined.

(** ** infobar_sv.py: the datagram handler *)

(** X5.  One pass of the listener's loop never raises.  A datagram whose payload
    parses puts its event in the slot and restarts the timer at the clock's
    reading, leaving the watcher's [_file_mtime] alone; a datagram that is no
    JSON, whose JSON is not an object (a list, a number, a string), or whose
    object [from_json] refuses is dropped with nothing changed. *)
Theorem udp_datagram_accepts_or_drops
        {B : Builtins} (c : clock) (data : option pyval) (a : OverlayApp) :
  fst (_udp_datagram c data a) = Ret tt
  /\ (forall v ev,
        data = Some v -> from_json c v = Ret ev ->
        let a' := snd (_udp_datagram c data a) in
        event a' = Some ev
        /\ fade_t0 a' = time_time c
        /\ fade_state a' = "in"
        /\ visible_until a' = (time_time c + FADE_IN + VIS_SECONDS + FADE_OUT)%Q
        /\ _file_mtime a' = _file_mtime a)
  /\ (data = None -> _udp_datagram c data a = (Ret tt, a))
  /\ (forall v, data = Some v -> isinstance_dict v = false ->
                _udp_datagram c data a = (Ret tt, a))
  /\ (forall v, data = Some v -> returns (from_json c v) = false ->
                _udp_datagram c data a = (Ret tt, a)).
Proof.
  split; [|split; [|split; [|split]]].
  - destruct data as [v|]; [|reflexivity].
    destruct (from_json c v) as [ev|e] eqn:E.
    + rewrite (_udp_datagram_accepts c v ev a E), _on_event_run. reflexivity.
    + rewrite (_udp_datagram_drops c (Some v) a); [reflexivity|]. rewrite E. reflexivity.
  - intros v ev -> E a'. unfold a'.
    rewrite (_udp_datagram_accepts c v ev a E), _on_event_run.
    repeat split.
  - intros ->. reflexivity.
  - intros v -> Hd. apply _udp_datagram_drops.
    rewrite (from_json_not_dict c v Hd). reflexivity.
  - intros v -> Hr. apply _udp_datagram_drops. exact Hr.
Qed.

(** A list, an object with a bad channel number, and a well-formed object,
    sent to a fresh application. *)
Lemma udp_datagram_accepts_or_drops_witness :
  let c := mk_clock 1755374400 (mk_utc 1755374400000000) in
  let recv := _udp_datagram (B := RefBuiltins.builtins) c in
  recv (Some (PList [PInt 1; PInt 2])) init_app = (Ret tt, init_app)
  /\ recv (Some (PDict [("channel_number", PStr "three")])) init_app
     = (Ret tt, init_app)
  /\ event (snd (recv (Some (PDict [("channel_number", PStr "3");
                                    ("end", PStr "2025-08-16T22:18:00")]))
                      init_app))
     = Some (mk_event 3 "" "" (mk_utc 1755374400000000) (mk_utc 1755382680000000)
                      (Finite 1755374400) None None).
Proof.
  intros c recv.
  split; [|split].
  - apply (udp_datagram_accepts_or_drops (B := RefBuiltins.builtins) c
             (Some (PList [PInt 1; PInt 2])) init_app) with (v := PList [PInt 1; PInt 2]);
      reflexivity.
  - apply (proj2 (proj2 (proj2 (proj2 (udp_datagram_accepts_or_drops
             (B := RefBuiltins.builtins) c
             (Some (PDict [("channel_number", PStr "three")])) init_app))))
             (PDict [("channel_number", PStr "three")])); reflexivity.
  - apply (proj1 (proj2 (udp_datagram_accepts_or_drops
             (B := RefBuiltins.builtins) c
             (Some (PDict [("channel_number", PStr "3");
                           ("end", PStr "2025-08-16T22:18:00")])) init_app))
             _ _ eq_refl eq_refl).
Defined.

(** ** infobar_sv.py: the opacity whatever the clock does *)

Lemma fade_phase_at_most_one (t : Q) : (snd (fade_phase t) <= 1)%Q.
Proof.
  unfold fade_phase, py_max. split_Qltb; simpl; unfold_timing; lra.
Qed.

Lemma fade_phase_negative_iff (t : Q) : (snd (fade_phase t) < 0)%Q <-> (t < 0)%Q.
Proof.
  unfold fade_phase, py_max. split_Qltb; simpl; unfold_timing; split; intro; lra.
Qed.

(** X6.  A frame never computes an opacity above 1.  It computes a negative one,
    and draws with it, exactly when the bar is visible and the frame's clock
    reading lies before the anchor the acceptance stored (the clock was set
    back, or the event was accepted after the frame read the time). *)
Theorem opacity_never_above_one (now : Q) (a : OverlayApp) :
  exists alpha a',
    draw_frame now a = (Ret alpha, a')
    /\ (alpha <= 1)%Q
    /\ ((alpha < 0)%Q <->
        event a <> None /\ (now < visible_until a)%Q /\ (now < fade_t0 a)%Q)
    /\ ((alpha < 0)%Q -> gl a' = gl a ++ [GlClear; GlDraw alpha; GlSwap]).
Proof.
  destruct (event a) as [ev|] eqn:Hev.
  - destruct (Qlt_le_dec now (visible_until a)) as [Hlt|Hle].
    + eexists. eexists. split; [apply (draw_frame_visible now a ev Hev Hlt)|].
      split; [apply fade_phase_at_most_one|]. split.
      * rewrite fade_phase_negative_iff. split.
        -- intro H. split; [discriminate|]. split; [exact Hlt | lra].
        -- intros (_ & _ & H). lra.
      * intros _. cbn [gl]. rewrite <- !app_assoc. reflexivity.
    + eexists. eexists. split; [apply (draw_frame_hidden now a); right; exact Hle|].
      split; [lra|]. split.
      * split; [intro H; lra|]. intros (_ & H & _). lra.
      * intro H. lra.
  - eexists. eexists. split; [apply (draw_frame_hidden now a); left; exact Hev|].
    split; [lra|]. split.
    + split; [intro H; lra|]. intros (H & _). congruence.
    + intro H. lra.
Qed.

(** ** infobar_sv.py: the text the texture holds *)

(** X7.  The image is drawn when the key changes and kept while it does not, so
    its remaining-time text is the one of the first render: a second event
    with the same key (the same event again, or one differing in [start] or
    within the second of [end]) takes the slot and restarts the timer, but
    the texture still shows the first event's image as drawn at the first
    clock reading. *)
Theorem texture_keeps_first_render
        (c1 c2 : clock) (ev1 ev2 : InfobarEvent) (a0 : OverlayApp) :
  key_of ev2 = key_of ev1 ->
  current_img_key (renderer a0) <> Some (key_of ev1) ->
  let a1 := snd (_on_event c1 ev1 a0) in
  let a2 := snd (_on_event c2 ev2 a1) in
  event a2 = Some ev2
  /\ fade_t0 a2 = time_time c2
  /\ tex (renderer a2) = Some (_draw_infobar_image c1 ev1)
  /\ option_map img_remaining (tex (renderer a2))
     = Some (fmt_remaining (now_utc c1) (end_ ev1)).
Proof.
  intros Hk Hmiss a1 a2.
  destruct (_on_event_same_key c1 c2 ev1 ev2 a0 Hk) as [Hr _].
  fold a1 a2 in Hr.
  assert (Ht : tex (renderer a1) = Some (_draw_infobar_image c1 ev1)).
  { unfold a1. rewrite _on_event_run. cbn [snd renderer].
    rewrite (ensure_texture_miss c1 ev1 _ Hmiss). reflexivity. }
  split; [unfold a2; rewrite _on_event_run; reflexivity|].
  split; [unfold a2; rewrite _on_event_run; reflexivity|].
  rewrite Hr, Ht. split; reflexivity.
Qed.

(** An event with 2 h 18 min left, accepted on a fresh application and
    accepted again an hour later: the texture still reads 02:18, where a
    render at the second clock reading would read 01:18. *)
Lemma texture_keeps_first_render_witness :
  let c1 := mk_clock 1755374400 (mk_utc 1755374400000000) in
  let c2 := mk_clock 1755378000 (mk_utc 1755378000000000) in
  let ev := mk_event 3 "TV3" "Movie" (mk_utc 1755374400000000)
                     (mk_utc 1755382680000000) (Finite 1) None None in
  let a2 := snd (_on_event c2 ev (snd (_on_event c1 ev init_app))) in
  option_map img_remaining (tex (renderer a2)) = Some "Remaining time 02:18 Hours"
  /\ img_remaining (_draw_infobar_image c2 ev) = "Remaining time 01:18 Hours".
Proof.
  intros c1 c2 ev a2. split; [|reflexivity].
  destruct (texture_keeps_first_render c1 c2 ev ev init_app eq_refl
                                       ltac:(discriminate))
    as (_ & _ & _ & H).
  exact H.
Defined.

(** ** infobar_sv.py: what every run of the loop keeps *)

Lemma draws_follow_upload_app (seen : bool) (l l' : list gl_call) :
  draws_follow_upload seen (l ++ l')
  = draws_follow_upload seen l
    && draws_follow_upload (seen || existsb is_upload l) l'.
Proof.
  revert seen. induction l as [|g l IH]; intro seen.
  - simpl. rewrite orb_false_r. reflexivity.
  - destruct g; cbn [app draws_follow_upload existsb is_upload]; rewrite IH.
    + rewrite orb_true_r. reflexivity.
    + rewrite orb_false_l. reflexivity.
    + rewrite orb_false_l, andb_assoc. reflexivity.
    + rewrite orb_false_l. reflexivity.
Qed.

Lemma draws_follow_upload_seen (l : list gl_call) :
  draws_follow_upload false l = true -> draws_follow_upload true l = true.
Proof.
  induction l as [|g l IH]; [reflexivity|].
  destruct g; cbn [draws_follow_upload]; auto.
  rewrite andb_true_iff. intros [H _]. discriminate.
Qed.

Lemma loop_inv_on_event (c : clock) (ev : InfobarEvent) (a : OverlayApp) :
  loop_inv a -> loop_inv (snd (_on_event c ev a)).
Proof.
  intros [Hinv Hgl]. rewrite _on_event_run. cbn [snd].
  unfold loop_inv, app_inv. cbn [event renderer gl visible_until fade_t0].
  rewrite ensure_texture_stores_key.
  unfold app_inv in Hinv.
  destruct (key_differs (key_of ev) (current_img_key (renderer a))) eqn:Ed.
  - assert (Het : ensure_texture c ev (renderer a)
                  = (mk_renderer (Some (_draw_infobar_image c ev)) (Some (key_of ev)),
                     [GlUpload (_draw_infobar_image c ev)])).
    { unfold ensure_texture. rewrite Ed. reflexivity. }
    rewrite Het. cbn [fst snd tex].
    split; [repeat split|].
    + discriminate.
    + rewrite existsb_app. apply orb_true_iff. right. reflexivity.
    + rewrite draws_follow_upload_app, Hgl. reflexivity.
  - assert (Het : ensure_texture c ev (renderer a) = (renderer a, [])).
    { unfold ensure_texture. rewrite Ed. reflexivity. }
    rewrite Het. cbn [fst snd]. rewrite app_nil_r.
    destruct (event a) as [ev0|].
    + destruct Hinv as (_ & Ht & Hu & _). split; [repeat split; assumption | exact Hgl].
    + destruct Hinv as [Hr _]. rewrite Hr in Ed. discriminate.
Qed.

Lemma loop_inv_poll {B : Builtins} (c : clock) (f : option event_file)
      (a : OverlayApp) :
  loop_inv a ->
  fst (_poll_file c f a) = Ret tt /\ loop_inv (snd (_poll_file c f a)).
Proof.
  intro Hinv.
  destruct f as [st|]; [|split; [reflexivity | exact Hinv]].
  destruct (Qlt_le_dec (_file_mtime a) (st_mtime st)) as [Hlt|Hle].
  - rewrite (_poll_file_newer c st a Hlt). cbv zeta.
    set (a' := mk_app (renderer a) (visible_until a) (fade_state a) (fade_t0 a)
                      (event a) (st_mtime st) (gl a)).
    assert (Hinv' : loop_inv a') by exact Hinv.
    destruct (json st) as [v|]; [|split; [reflexivity | exact Hinv']].
    destruct (from_json c v) as [ev|e]; [|split; [reflexivity | exact Hinv']].
    split; [rewrite _on_event_run; reflexivity|].
    apply loop_inv_on_event. exact Hinv'.
  - rewrite (_poll_file_not_newer c st a Hle). split; [reflexivity | exact Hinv].
Qed.

Lemma loop_inv_draw_frame (now : Q) (a : OverlayApp) :
  loop_inv a ->
  exists alpha, fst (draw_frame now a) = Ret alpha
                /\ (alpha <= 1)%Q
                /\ loop_inv (snd (draw_frame now a)).
Proof.
  intros [Hinv Hgl].
  assert (Hhidden : event a = None \/ (visible_until a <= now)%Q ->
                    exists alpha, fst (draw_frame now a) = Ret alpha
                                  /\ (alpha <= 1)%Q
                                  /\ loop_inv (snd (draw_frame now a))).
  { intro H. rewrite (draw_frame_hidden now a H). exists 0%Q.
    split; [reflexivity|]. split; [lra|]. cbn [snd].
    unfold loop_inv, app_inv in *. cbn [event renderer gl visible_until fade_t0].
    split.
    - destruct (event a).
      + destruct Hinv as (Hk & Ht & Hu & Hv). repeat split; try assumption.
        rewrite !existsb_app, Hu. reflexivity.
      + destruct Hinv as (Hr & Hu). split; [exact Hr|].
        rewrite !existsb_app, Hu. reflexivity.
    - rewrite !draws_follow_upload_app, Hgl. reflexivity. }
  destruct (event a) as [ev|] eqn:Hev; [|apply Hhidden; left; reflexivity].
  destruct (Qlt_le_dec now (visible_until a)) as [Hlt|Hle];
    [|apply Hhidden; right; exact Hle].
  rewrite (draw_frame_visible now a ev Hev Hlt).
  exists (snd (fade_phase (now - fade_t0 a))).
  split; [reflexivity|]. split; [apply fade_phase_at_most_one|]. cbn [snd].
  unfold loop_inv, app_inv in *. cbn [event renderer gl visible_until fade_t0].
  rewrite Hev in *. destruct Hinv as (Hk & Ht & Hu & Hv).
  split.
  - repeat split; try assumption. rewrite !existsb_app, Hu. reflexivity.
  - rewrite !draws_follow_upload_app, Hgl, !existsb_app, Hu. reflexivity.
Qed.

(** X8.  Whatever the files found and the clock readings, a run of the loop
    never raises and computes one opacity per iteration, none above 1; no
    draw is issued before a texture was uploaded; and whenever an event is in
    the slot afterwards, the renderer holds a texture and that event's key and
    the expiry is the anchor plus the three durations. *)
Theorem loop_never_draws_before_upload
        {B : Builtins} (frames : list (clock * option event_file * Q))
        (a : OverlayApp) :
  app_inv a -> draws_follow_upload false (gl a) = true ->
  exists alphas a',
    run frames a = (Ret alphas, a')
    /\ List.length alphas = List.length frames
    /\ Forall (fun alpha => (alpha <= 1)%Q) alphas
    /\ app_inv a'
    /\ draws_follow_upload false (gl a') = true.
Proof.
  intros H1 H2. assert (Hinv : loop_inv a) by (split; assumption). clear H1 H2.
  revert a Hinv. induction frames as [|[[c f] now] rest IH]; intros a Hinv.
  - exists [], a. destruct Hinv as [H1 H2]. repeat split; try assumption. constructor.
  - destruct (loop_inv_poll c f a Hinv) as [Hp Hinv1].
    destruct (loop_inv_draw_frame now (snd (_poll_file c f a)) Hinv1)
      as (alpha & Hd & Hle & Hinv2).
    destruct (IH _ Hinv2) as (alphas & a' & Hrun & Hlen & Hall & Hi & Hg).
    exists (alpha :: alphas), a'.
    split.
    + cbn [run]. unfold bind at 1. unfold run_iteration, bind at 1.
      destruct (_poll_file c f a) as [o a1]. cbn [fst snd] in *. subst o.
      destruct (draw_frame now a1) as [o2 a2]. cbn [fst snd] in *. subst o2.
      unfold bind. rewrite Hrun. reflexivity.
    + repeat split; try assumption.
      * simpl. rewrite Hlen. reflexivity.
      * constructor; assumption.
Qed.

(** A fresh application; a frame before any file; a file that is accepted;
    a frame while visible; one with the clock set back; one after expiry. *)
Lemma loop_never_draws_before_upload_witness :
  let c := mk_clock 1755374400 (mk_utc 1755374400000000) in
  let f := Some (mk_file 5 (Some (PDict [("channel_number", PInt 3);
                                         ("title", PStr "Movie")]))) in
  let frames := [(c, None, 1755374399); (c, f, 1755374400);
                 (c, f, 1755374403); (c, f, 1755374399);
                 (c, None, 1755374500)]%Q in
  exists alphas a',
    run (B := RefBuiltins.builtins) frames init_app = (Ret alphas, a')
    /\ List.length alphas = 5%nat
    /\ draws_follow_upload false (gl a') = true.
Proof.
  intros c f frames.
  assert (H1 : app_inv init_app) by (split; reflexivity).
  destruct (loop_never_draws_before_upload (B := RefBuiltins.builtins)
                                           frames init_app H1 eq_refl)
    as (alphas & a' & Hrun & Hlen & _ & _ & Hg).
  exists alphas, a'. split; [exact Hrun|]. split; [exact Hlen | exact Hg].
Defined.

(** ** infobar_sv.py: the watcher remembers the time before it parses *)

Lemma _poll_file_newer_mtime {B : Builtins} (c : clock) (st : event_file)
      (a : OverlayApp) :
  (_file_mtime a < st_mtime st)%Q ->
  _file_mtime (snd (_poll_file c (Some st) a)) = st_mtime st.
Proof.
  intro Hlt. rewrite (_poll_file_newer c st a Hlt). cbv zeta.
  destruct (json st) as [v|]; [|reflexivity].
  destruct (from_json c v) as [ev|e]; [|reflexivity].
  rewrite _on_event_run. reflexivity.
Qed.

(** X9.  The modification time of a newer file is stored before the file is
    read, whether or not it then parses.  So once a file was seen, malformed
    or not, a file with the same or an older modification time is never read,
    whatever it holds: a corrected rewrite within the same timestamp is
    missed, and [_file_mtime] never goes down. *)
Theorem same_mtime_rewrite_is_missed
        {B : Builtins} (c c' : clock) (st st' : event_file) (a : OverlayApp) :
  (_file_mtime a < st_mtime st)%Q ->
  (st_mtime st' <= st_mtime st)%Q ->
  let a1 := snd (_poll_file c (Some st) a) in
  _file_mtime a1 = st_mtime st
  /\ _poll_file c' (Some st') a1 = (Ret tt, a1)
  /\ (forall c'' f, (_file_mtime a1 <= _file_mtime (snd (_poll_file c'' f a1)))%Q).
Proof.
  intros Hlt Hle a1.
  assert (Hm : _file_mtime a1 = st_mtime st) by (apply _poll_file_newer_mtime; exact Hlt).
  split; [exact Hm|]. split.
  - apply _poll_file_not_newer. rewrite Hm. exact Hle.
  - intros c'' f. destruct f as [st2|]; [|simpl; lra].
    destruct (Qlt_le_dec (_file_mtime a1) (st_mtime st2)) as [H|H].
    + rewrite (_poll_file_newer_mtime c'' st2 a1 H). lra.
    + rewrite (_poll_file_not_newer c'' st2 a1 H). simpl. lra.
Qed.

(** A file that is no JSON at modification time 10, then a well-formed file
    with the same time: the second poll changes nothing and the slot stays
    empty. *)
Lemma same_mtime_rewrite_is_missed_witness :
  let c := mk_clock 1755374400 (mk_utc 1755374400000000) in
  let bad := mk_file 10 None in
  let good := mk_file 10 (Some (PDict [("channel_number", PInt 3);
                                      ("title", PStr "Movie")])) in
  let a1 := snd (_poll_file (B := RefBuiltins.builtins) c (Some bad) init_app) in
  _poll_file (B := RefBuiltins.builtins) c (Some good) a1 = (Ret tt, a1)
  /\ event a1 = None.
Proof.
  intros c bad good a1. split; [|reflexivity].
  apply (same_mtime_rewrite_is_missed (B := RefBuiltins.builtins) c c bad good init_app).
  - vm_compute. reflexivity.
  - vm_compute. discriminate.
Defined.

(** ** infobar_sv.py: what a payload's parse depends on *)

Section PayloadKeys.
Context {B : Builtins}.

(** X10.  [from_json] looks at eight keys and at nothing else: two objects that
    agree on them parse alike (to the same event or the same exception),
    whatever other keys they carry and in whatever order the keys come. *)
Theorem from_json_reads_eight_keys (c : clock) (d1 d2 : pydict) :
  (forall k, In k PAYLOAD_KEYS -> lookup k d1 = lookup k d2) ->
  from_json c (PDict d1) = from_json c (PDict d2).
Proof.
  intro H. rewrite !from_json_dict. unfold dict_get.
  rewrite !(H "channel_number"), !(H "channel_name"), !(H "title"), !(H "start"),
    !(H "end"), !(H "ts"), !(H "next_title"), !(H "next_start")
    by (unfold PAYLOAD_KEYS; simpl; tauto).
  reflexivity.
Qed.

End PayloadKeys.

(** The same fields in another order and with two keys the overlay does not
    know. *)
Lemma from_json_reads_eight_keys_witness :
  let c := mk_clock 1755374400 (mk_utc 1755374400000000) in
  from_json (B := RefBuiltins.builtins) c
    (PDict [("title", PStr "Movie"); ("channel_number", PInt 3);
            ("end", PStr "2025-08-16T22:18:00")])
  = from_json (B := RefBuiltins.builtins) c
      (PDict [("version", PInt 2); ("end", PStr "2025-08-16T22:18:00");
              ("channel_number", PInt 3); ("genre", PStr "musical");
              ("title", PStr "Movie")]).
Proof.
  intro c. apply from_json_reads_eight_keys.
  intros k Hk. unfold PAYLOAD_KEYS in Hk. simpl in Hk.
  repeat (destruct Hk as [<-|Hk]; [reflexivity|]). contradiction.
Defined.

(** ** infobar_sv.py: times are read as instants *)

(** X11.  [parse_iso] stores the instant, not the spelling: a naive time is taken
    as UTC and an aware one is moved to UTC, so two texts for the same instant
    give the same datetime (and with it the same cache key).  An aware time
    whose instant lies outside the years 1 to 9999 raises [OverflowError]. *)
Theorem parse_iso_stores_the_instant
        {B : Builtins} (s1 s2 : string) (d1 d2 : datetime) :
  fromisoformat s1 = Some d1 -> fromisoformat s2 = Some d2 ->
  s1 <> "" -> s2 <> "" ->
  instant_us d1 = instant_us d2 ->
  (DATETIME_MIN_US <= instant_us d1 <= DATETIME_MAX_US ->
   parse_iso (PStr s1) = Ret (Some (mk_utc (instant_us d1)))
   /\ parse_iso (PStr s2) = parse_iso (PStr s1))
  /\ (utcoffset_us d1 <> None ->
      ~ (DATETIME_MIN_US <= instant_us d1 <= DATETIME_MAX_US) ->
      parse_iso (PStr s1) = Raise OverflowError).
Proof.
  intros F1 F2 N1 N2 Hi.
  assert (Hp : forall s d, fromisoformat s = Some d -> s <> "" ->
               parse_iso (PStr s)
               = match utcoffset_us d with
                 | None => Ret (Some (mk_utc (instant_us d)))
                 | Some off =>
                     if (DATETIME_MIN_US <=? instant_us d)
                        && (instant_us d <=? DATETIME_MAX_US)
                     then Ret (Some (mk_utc (instant_us d)))
                     else Raise OverflowError
                 end).
  { intros s d F N. unfold parse_iso, datetime_fromisoformat.
    assert (Ht : truthy (PStr s) = true).
    { simpl. apply negb_true_iff. apply String.eqb_neq. exact N. }
    rewrite Ht, F. cbn [negb obind]. unfold instant_us, astimezone_utc, replace_tzinfo_utc.
    destruct (utcoffset_us d) as [off|].
    - destruct ((DATETIME_MIN_US <=? wall_us d - off)
                && (wall_us d - off <=? DATETIME_MAX_US)); reflexivity.
    - rewrite Z.sub_0_r. reflexivity. }
  assert (Hin : forall d, DATETIME_MIN_US <= instant_us d <= DATETIME_MAX_US ->
                (DATETIME_MIN_US <=? instant_us d) && (instant_us d <=? DATETIME_MAX_US)
                = true).
  { intros d [Ha Hb]. apply andb_true_iff. split; apply Z.leb_le; assumption. }
  split.
  - intro Hr.
    assert (E1 : parse_iso (PStr s1) = Ret (Some (mk_utc (instant_us d1)))).
    { rewrite (Hp s1 d1 F1 N1). destruct (utcoffset_us d1); [|reflexivity].
      rewrite (Hin d1 Hr). reflexivity. }
    split; [exact E1|]. rewrite E1, (Hp s2 d2 F2 N2), <- Hi.
    destruct (utcoffset_us d2); [|reflexivity]. rewrite (Hin d1 Hr). reflexivity.
  - intros Ho Hr. rewrite (Hp s1 d1 F1 N1).
    destruct (utcoffset_us d1) as [off|]; [|congruence].
    destruct ((DATETIME_MIN_US <=? instant_us d1) && (instant_us d1 <=? DATETIME_MAX_US))
             eqn:E; [|reflexivity].
    apply andb_true_iff in E. destruct E as [Ea Eb].
    apply Z.leb_le in Ea, Eb. exfalso. apply Hr. split; assumption.
Qed.

(** 22:18 without a zone and 00:18 the next day at +02:00 are one instant;
    the first instant of year 1 at +05:00 is out of range. *)
Lemma parse_iso_stores_the_instant_witness :
  parse_iso (B := RefBuiltins.builtins) (PStr "2025-08-17T00:18:00+02:00")
  = parse_iso (B := RefBuiltins.builtins) (PStr "2025-08-16T22:18:00")
  /\ parse_iso (B := RefBuiltins.builtins) (PStr "0001-01-01T00:00:00+05:00")
     = Raise OverflowError.
Proof.
  split.
  - apply (parse_iso_stores_the_instant
             (B := RefBuiltins.builtins)
             "2025-08-16T22:18:00" "2025-08-17T00:18:00+02:00"
             (mk_datetime 1755382680000000 None)
             (mk_datetime 1755389880000000 (Some 7200000000)));
      try reflexivity; try discriminate.
    vm_compute. split; discriminate.
  - apply (parse_iso_stores_the_instant
             (B := RefBuiltins.builtins)
             "0001-01-01T00:00:00+05:00" "0001-01-01T00:00:00+05:00"
             (mk_datetime DATETIME_MIN_US (Some 18000000000))
             (mk_datetime DATETIME_MIN_US (Some 18000000000)));
      try reflexivity; try discriminate.
    vm_compute. intros [H _]. apply H. reflexivity.
Defined.

(** ** infobar_sv.py: where the bar is drawn *)

Lemma Qtrunc_scaled (a p : Z) (q : positive) :
  0 <= a * p -> Qtrunc (inject_Z a * (p # q)) = (a * p) / Zpos q.
Proof.
  intro H. unfold Qtrunc. simpl Qnum. simpl Qden.
  apply Z.quot_div_nonneg; lia.
Qed.

Lemma Qtrunc_band (k sW : Z) :
  0 <= k -> 0 <= sW -> Qtrunc (inject_Z k * (inject_Z sW / 720)) = (k * sW) / 720.
Proof.
  intros Hk Hs. unfold Qtrunc, Qdiv. simpl Qnum. simpl Qden.
  rewrite Z.mul_1_r. apply Z.quot_div_nonneg; nia.
Qed.

(** X12.  On any screen the quad [draw] emits is as wide as the safe area, with the
    same margin left and right (the whole pixels of 5 % of the width), and
    its lower edge lies on the lower edge of the safe area.  Its height is
    the two bands, at most 190/720 of the safe width, and no font is below
    its floor.  When the safe area is at least 19/72 as high as it is wide
    (as on 4:3 and 16:9 screens), the quad lies within it. *)
Theorem quad_spans_safe_area (W H : Z) :
  0 <= W -> 0 <= H ->
  let m := renderer_metrics W H in
  let q := draw_quad m in
  safe_x m = W / 20 /\ safe_y m = H / 20
  /\ quad_x q = safe_x m
  /\ quad_x q + quad_w q = W - safe_x m
  /\ quad_y q + quad_h q = H - safe_y m
  /\ 9 * W <= 10 * quad_w q
  /\ 0 <= quad_h q
  /\ 72 * quad_h q <= 19 * safe_W m
  /\ 22 <= font_title m /\ 14 <= font_header m /\ 12 <= font_sub m
  /\ 11 <= font_menu m /\ 11 <= font_next_label m /\ 14 <= font_next m
  /\ (19 * safe_W m <= 72 * safe_H m -> safe_y m <= quad_y q).
Proof.
  intros HW HH m q.
  assert (Hx : safe_x m = W / 20).
  { unfold m, renderer_metrics, SAFE_MARGIN. cbn [safe_x].
    rewrite Qtrunc_scaled by lia.
    change (Zpos 100) with (20 * 5). rewrite Z.div_mul_cancel_r by lia. reflexivity. }
  assert (Hy : safe_y m = H / 20).
  { unfold m, renderer_metrics, SAFE_MARGIN. cbn [safe_y].
    rewrite Qtrunc_scaled by lia.
    change (Zpos 100) with (20 * 5). rewrite Z.div_mul_cancel_r by lia. reflexivity. }
  assert (HsW : safe_W m = W - safe_x m * 2) by reflexivity.
  assert (HsH : safe_H m = H - safe_y m * 2) by reflexivity.
  assert (Hx20 : 0 <= W / 20 /\ 20 * (W / 20) <= W).
  { split; [apply Z.div_pos; lia | apply Z.mul_div_le; lia]. }
  assert (HsW0 : 0 <= safe_W m) by lia.
  assert (Hhh : header_h m = (42 * safe_W m) / 720).
  { unfold m, renderer_metrics. cbn [header_h safe_W].
    change 42%Q with (inject_Z 42). apply Qtrunc_band; [lia|].
    fold (safe_x m). fold m in HsW. cbn [safe_W safe_x] in HsW0. exact HsW0. }
  assert (Hbh : body_h m = (148 * safe_W m) / 720).
  { unfold m, renderer_metrics. cbn [body_h safe_W].
    change 148%Q with (inject_Z 148). apply Qtrunc_band; [lia|].
    cbn [safe_W safe_x] in HsW0. exact HsW0. }
  assert (Hth : total_h m = header_h m + body_h m) by reflexivity.
  assert (Hh1 : 0 <= header_h m /\ 720 * header_h m <= 42 * safe_W m).
  { rewrite Hhh. split; [apply Z.div_pos; lia | apply Z.mul_div_le; lia]. }
  assert (Hb1 : 0 <= body_h m /\ 720 * body_h m <= 148 * safe_W m).
  { rewrite Hbh. split; [apply Z.div_pos; lia | apply Z.mul_div_le; lia]. }
  unfold q, draw_quad. cbn [quad_x quad_y quad_w quad_h].
  assert (HsHm : screen_H m = H) by reflexivity.
  repeat split; try lia.
  all: try (unfold m, renderer_metrics;
            cbn [font_title font_header font_sub font_menu font_next_label font_next];
            lia).
Qed.

(** PAL 720x576: margins of 36 and 28 pixels, a safe width of 648, bands of
    37 and 133 pixels, and the quad from (36, 378) to (684, 548). *)
Lemma quad_spans_safe_area_witness :
  let m := renderer_metrics 720 576 in
  safe_x m = 36 /\ safe_y m = 28
  /\ quad_vertices (draw_quad m) = [(36, 378); (684, 378); (684, 548); (36, 548)]
  /\ safe_y m <= quad_y (draw_quad m).
Proof.
  intro m.
  pose proof (quad_spans_safe_area 720 576 ltac:(lia) ltac:(lia)) as H.
  cbv zeta in H. fold m in H.
  destruct H as (Hx & Hy & _ & _ & _ & _ & _ & _ & _ & _ & _ & _ & _ & _ & Hfit).
  split; [rewrite Hx; reflexivity|]. split; [rewrite Hy; reflexivity|].
  split; [reflexivity|].
  apply Hfit. vm_compute. discriminate.
Defined.

(** ** bridge.py and infobar_sv.py: what the overlay reads back *)

Section RoundTrip.
Context {B : Builtins}.

(** The text of a naive datetime that [fromisoformat] reads back parses to
    that datetime taken as UTC. *)
Lemma parse_iso_of_isoformat (d : datetime) :
  fromisoformat "" = None ->
  fromisoformat (isoformat d) = Some d ->
  utcoffset_us d = None ->
  parse_iso (PStr (isoformat d)) = Ret (Some (mk_utc (wall_us d))).
Proof.
  intros He Hr Hn. unfold parse_iso, datetime_fromisoformat.
  assert (Ht : truthy (PStr (isoformat d)) = true).
  { simpl. apply negb_true_iff. apply String.eqb_neq. intro E.
    rewrite E in Hr. congruence. }
  rewrite Ht, Hr. cbn [negb obind]. rewrite Hn. reflexivity.
Qed.

Lemma iso_arg_naive (c : clock) (x : option datetime) :
  naive x -> utcoffset_us (iso_arg c x) = None.
Proof. destruct x; simpl; auto. Qed.

(** The payload [send_infobar_event] builds, parsed by [from_json]. *)
Lemma from_json_build_payload
      (c c' : clock) (n : Z) (name title : string)
      (start end_ : option datetime) (nt : option string)
      (ns : option datetime) :
  fromisoformat "" = None ->
  Forall (fun d => fromisoformat (isoformat d) = Some d)
         [iso_arg c start; iso_arg c end_; iso_arg c ns] ->
  naive start -> naive end_ -> naive ns ->
  from_json c' (PDict (build_payload c n name title start end_ (opt_str nt) ns))
  = Ret (mk_event n name title
                  (mk_utc (wall_us (iso_arg c start)))
                  (mk_utc (wall_us (iso_arg c end_)))
                  (Finite (time_time c))
                  (if opt_truthy nt then nt else None)
                  (match ns with
                   | Some _ => Some (mk_utc (wall_us (iso_arg c ns)))
                   | None => None
                   end)).
Proof.
  intros He Hrt Ns Ne Nn.
  inversion Hrt as [|? ? Rs Hrt1]; subst. inversion Hrt1 as [|? ? Re Hrt2]; subst.
  inversion Hrt2 as [|? ? Rn _]; subst.
  pose proof (parse_iso_of_isoformat _ He Rs (iso_arg_naive c start Ns)) as Ps.
  pose proof (parse_iso_of_isoformat _ He Re (iso_arg_naive c end_ Ne)) as Pe.
  pose proof (parse_iso_of_isoformat _ He Rn (iso_arg_naive c ns Nn)) as Pn.
  rewrite from_json_dict. unfold build_payload, dict_get.
  change (_iso c start) with (isoformat (iso_arg c start)).
  change (_iso c end_) with (isoformat (iso_arg c end_)).
  change (_iso c ns) with (isoformat (iso_arg c ns)).
  cbn [lookup app String.eqb Ascii.eqb Bool.eqb andb py_int py_float py_str obind].
  rewrite Ps, Pe. cbn [obind or_now].
  assert (Htn : (isoformat (iso_arg c ns) =? "")%string = false).
  { apply String.eqb_neq. intro E. rewrite E in Rn. congruence. }
  destruct nt as [s|]; [destruct (s =? "")%string eqn:Es|];
    destruct ns as [d|];
    repeat first
           [ rewrite Htn | rewrite Pn | rewrite Es
           | progress cbn [opt_str truthy opt_truthy negb lookup app String.eqb
                           Ascii.eqb Bool.eqb andb py_str obind] ];
    reflexivity.
Qed.

End RoundTrip.

(** X13.  What [send_infobar_event] writes is what the overlay reads: for naive
    datetimes whose text [fromisoformat] reads back, the file (and the
    datagram, when the socket works) parses to an event with the channel
    number, the names and the titles as passed, [start], [end] and
    [next_start] cut to whole seconds and taken as UTC, and the producer's
    [time.time()] as [ts]; an empty [next_title] is left out. *)
Theorem producer_payload_parses_back
        {B : Builtins} (c c' : clock) (n : Z) (name title : string)
        (start end_ : option datetime) (nt : option string)
        (ns : option datetime) (w : world) :
  fromisoformat "" = None ->
  Forall (fun d => fromisoformat (isoformat d) = Some d)
         [iso_arg c start; iso_arg c end_; iso_arg c ns] ->
  naive start -> naive end_ -> naive ns ->
  let w' := snd (send_infobar_event c n name title start end_ (opt_str nt) ns w) in
  let ev := mk_event n name title
                     (mk_utc (wall_us (iso_arg c start)))
                     (mk_utc (wall_us (iso_arg c end_)))
                     (Finite (time_time c))
                     (if opt_truthy nt then nt else None)
                     (match ns with
                      | Some _ => Some (mk_utc (wall_us (iso_arg c ns)))
                      | None => None
                      end) in
  (exists payload,
      read_file EVENT_FILE (files w') = Some payload
      /\ from_json c' payload = Ret ev
      /\ (udp_up w = true -> sent w' = sent w ++ [payload]))
  /\ wall_us (iso_arg c start) mod 1000000 = 0
  /\ wall_us (iso_arg c end_) mod 1000000 = 0.
Proof.
  intros He Hrt Ns Ne Nn w' ev.
  assert (Hmod : forall x, wall_us (iso_arg c x) mod 1000000 = 0).
  { intro x. unfold iso_arg, replace_microsecond_0. cbn [wall_us].
    set (u := wall_us match x with Some d => d | None => utcnow c end).
    rewrite Zminus_mod, Z.mod_mod, Z.sub_diag by lia. reflexivity. }
  split; [|split; apply Hmod].
  exists (PDict (build_payload c n name title start end_ (opt_str nt) ns)).
  unfold w'. rewrite send_infobar_event_run. cbn [snd files sent read_file].
  rewrite path_eqb_refl. split; [reflexivity|]. split.
  - apply from_json_build_payload; assumption.
  - intros ->. reflexivity.
Qed.

(** A programme from 20:00:00.25 to 21:58:00.75 with a next title and no
    next start, sent on an empty installation and parsed later. *)
Lemma producer_payload_parses_back_witness :
  let c := mk_clock 1755374400 (mk_utc 1755374400000000) in
  let c' := mk_clock 1755374460 (mk_utc 1755374460000000) in
  let w := mk_world [] [] true [] in
  let w' := snd (send_infobar_event (B := RefBuiltins.builtins) c 3 "TV3" "Movie"
                                    (Some (mk_datetime 1755374400250000 None))
                                    (Some (mk_datetime 1755381480750000 None))
                                    (PStr "News") None w) in
  exists payload,
    read_file EVENT_FILE (files w') = Some payload
    /\ from_json (B := RefBuiltins.builtins) c' payload
       = Ret (mk_event 3 "TV3" "Movie" (mk_utc 1755374400000000)
                       (mk_utc 1755381480000000) (Finite 1755374400)
                       (Some "News") None).
Proof.
  intros c c' w w'.
  destruct (producer_payload_parses_back
              (B := RefBuiltins.builtins) c c' 3 "TV3" "Movie"
              (Some (mk_datetime 1755374400250000 None))
              (Some (mk_datetime 1755381480750000 None))
              (Some "News") None w)
    as [(payload & Hf & Hp & _) _];
    try reflexivity.
  - repeat constructor.
  - exists payload. split; [exact Hf | exact Hp].
Defined.

(** ** Rounding to binary64 and whole seconds *)

Lemma pow2_diff (x y : Z) :
  0 <= x -> 0 <= y ->
  (2 ^ (x - y) == (2 ^ x)%Z # Z.to_pos (2 ^ y)%Z)%Q.
Proof.
  intros Hx Hy.
  rewrite Qpower.Qpower_minus by discriminate.
  change 2%Q with (inject_Z 2).
  rewrite <- !Qpower.Zpower_Qpower by assumption.
  assert (Hp : 0 < 2 ^ y) by (apply Z.pow_pos_nonneg; lia).
  rewrite <- (Z2Pos.id (2 ^ y) Hp) at 1.
  symmetry. apply Qmake_Qdiv.
Qed.

(** [ilog2] is the exponent of the binade. *)
Lemma ilog2_spec (a : Q) :
  (0 < a)%Q -> (2 ^ ilog2 a <= a)%Q /\ (a < 2 ^ (ilog2 a + 1))%Q.
Proof.
  destruct a as [n d]. intro Ha.
  assert (Hn : 0 < n) by (unfold Qlt in Ha; simpl in Ha; lia).
  unfold ilog2. cbn [Qnum Qden].
  set (ln := Z.log2 n). set (ld := Z.log2 (Zpos d)).
  assert (Hln : 0 <= ln) by apply Z.log2_nonneg.
  assert (Hld : 0 <= ld) by apply Z.log2_nonneg.
  destruct (Z.log2_spec n Hn) as [Hn1 Hn2]. fold ln in Hn1, Hn2.
  destruct (Z.log2_spec (Zpos d) ltac:(lia)) as [Hd1 Hd2]. fold ld in Hd1, Hd2.
  assert (Hpn : 0 < 2 ^ ln) by (apply Z.pow_pos_nonneg; lia).
  assert (Hpd : 0 < 2 ^ ld) by (apply Z.pow_pos_nonneg; lia).
  rewrite Z.pow_succ_r in Hn2, Hd2 by assumption.
  assert (Hlow : (2 ^ (ln - ld - 1) <= n # d)%Q).
  { replace (ln - ld - 1) with (ln - (ld + 1)) by lia.
    rewrite pow2_diff by lia.
    unfold Qle. cbn [Qnum Qden].
    rewrite Z2Pos.id by (apply Z.pow_pos_nonneg; lia).
    rewrite Z.pow_add_r by lia. change (2 ^ 1) with 2. nia. }
  assert (Hhigh : (n # d < 2 ^ (ln - ld + 1))%Q).
  { replace (ln - ld + 1) with ((ln + 1) - ld) by lia.
    rewrite pow2_diff by lia.
    unfold Qlt. cbn [Qnum Qden].
    rewrite Z2Pos.id by assumption.
    rewrite Z.pow_add_r by lia. change (2 ^ 1) with 2. nia. }
  destruct (Qltb (n # d) (2 ^ (ln - ld))) eqn:E.
  - apply Qltb_true_iff in E. split; [exact Hlow|].
    replace (ln - ld - 1 + 1) with (ln - ld) by lia. exact E.
  - apply Qltb_false_iff in E. split; [exact E | exact Hhigh].
Qed.

(** Rounding half to even stays within a half above, and never goes below
    an integer that the argument reaches. *)
Lemma round_half_even_bounds (x : Q) :
  (inject_Z (round_half_even x) <= x + (1 # 2))%Q
  /\ (forall K : Z, (inject_Z K <= x)%Q -> K <= round_half_even x).
Proof.
  pose proof (Qfloor_le x) as Hf.
  assert (Hge : Qfloor x <= round_half_even x).
  { unfold round_half_even.
    destruct (Qcompare (x - inject_Z (Qfloor x)) (1 # 2)); [|lia|lia].
    destruct (Z.even (Qfloor x)); lia. }
  split.
  - unfold round_half_even.
    destruct (Qcompare (x - inject_Z (Qfloor x)) (1 # 2)) eqn:E.
    + apply Qeq_alt in E.
      destruct (Z.even (Qfloor x)); [lra|].
      rewrite inject_Z_plus. change (inject_Z 1) with 1%Q. lra.
    + lra.
    + apply Qgt_alt in E. rewrite inject_Z_plus. change (inject_Z 1) with 1%Q. lra.
  - intros K HK.
    assert (K <= Qfloor x); [|lia].
    rewrite <- (Qfloor_Z K). apply Qfloor_resp_le. exact HK.
Qed.

(** Seconds as the interpreter has them: below 2^34 seconds the quotient of
    microseconds by 1000000, rounded to binary64, truncates to the same
    whole second as the exact quotient. *)
Lemma binary64_keeps_whole_seconds (u : Z) :
  0 <= u < SECONDS_EXACT_US ->
  Qtrunc (binary64 (u # 1000000)) = Qtrunc (u # 1000000).
Proof.
  unfold SECONDS_EXACT_US. intros [Hu0 Hu1].
  destruct (Z.eq_dec u 0) as [->|Hne]; [reflexivity|].
  set (k := u / 1000000).
  assert (Hk : 1000000 * k <= u <= 1000000 * k + 999999).
  { unfold k. pose proof (Z.div_mod u 1000000 ltac:(lia)).
    pose proof (Z.mod_pos_bound u 1000000 ltac:(lia)). lia. }
  assert (Hk0 : 0 <= k) by (unfold k; apply Z.div_pos; lia).
  assert (Hrhs : Qtrunc (u # 1000000) = k).
  { unfold Qtrunc. cbn [Qnum Qden]. apply Z.quot_div_nonneg; lia. }
  rewrite Hrhs.
  set (a := u # 1000000).
  assert (Hapos : (0 < a)%Q) by (unfold a, Qlt; simpl; lia).
  assert (Habs : Qabs.Qabs a = a).
  { unfold a. simpl. rewrite Z.abs_eq by lia. reflexivity. }
  assert (Hz : Qeq_bool a 0 = false).
  { destruct (Qeq_bool a 0) eqn:E; [|reflexivity].
    apply Qeq_bool_iff in E. lra. }
  assert (Hs : Qltb a 0 = false) by (apply Qltb_false_iff; lra).
  unfold binary64. fold a. rewrite Hz, Hs, Habs. cbv zeta.
  set (e := Z.max (ilog2 a) (-1022)).
  assert (He : e <= 33).
  { destruct (ilog2_spec a Hapos) as [Hlo _].
    assert (Hlt : (2 ^ ilog2 a < 2 ^ 34)%Q).
    { eapply Qle_lt_trans; [exact Hlo|].
      unfold a, Qlt. simpl. lia. }
    apply Qpower.Qpower_lt_compat_l_inv in Hlt; [|lra].
    unfold e. lia. }
  assert (He' : -1022 <= e) by (unfold e; lia).
  set (s := 52 - e).
  set (P := inject_Z (2 ^ s)).
  assert (HP : (0 < P)%Q).
  { unfold P. change 0%Q with (inject_Z 0). rewrite <- Zlt_Qlt.
    apply Z.pow_pos_nonneg; lia. }
  set (ulp := (2 ^ (e - 52))%Q).
  assert (Hulp : (ulp == / P)%Q).
  { unfold ulp, P. replace (e - 52) with (- s) by (unfold s; lia).
    rewrite Qpower.Qpower_opp. change 2%Q with (inject_Z 2).
    rewrite <- Qpower.Zpower_Qpower by (unfold s; lia). reflexivity. }
  assert (Hulp0 : (0 < ulp)%Q) by (unfold ulp; apply Qpower.Qpower_0_lt; lra).
  assert (Hulp1 : (ulp * P == 1)%Q).
  { rewrite Hulp. rewrite Qmult_comm. apply Qmult_inv_r. lra. }
  assert (Hsmall : (ulp <= 1 # 524288)%Q).
  { unfold ulp. assert (H19 : (2 ^ (-19) == 1 # 524288)%Q) by reflexivity.
    rewrite <- H19. apply Qpower.Qpower_le_compat_l; [lia | lra]. }
  assert (Hdiv : (a / ulp == a * P)%Q).
  { unfold Qdiv. rewrite Hulp, Qinv_involutive. reflexivity. }
  destruct (round_half_even_bounds (a / ulp)) as [Hup Hlow].
  set (N := round_half_even (a / ulp)) in *.
  assert (HkN : k * 2 ^ s <= N).
  { apply Hlow. rewrite Hdiv, inject_Z_mult. fold P.
    apply Qmult_le_compat_r; [|lra].
    unfold a, Qle. simpl. lia. }
  rewrite Hdiv in Hup.
  assert (Ha1 : (a <= inject_Z k + 1 - (1 # 1000000))%Q).
  { unfold a, Qle, Qminus, Qplus, Qopp, inject_Z. simpl. lia. }
  assert (HNQ : (inject_Z k * P <= inject_Z N)%Q).
  { unfold P. rewrite <- inject_Z_mult. rewrite <- Zle_Qle. exact HkN. }
  set (r := (inject_Z N * ulp)%Q).
  assert (Hr1 : (inject_Z k <= r)%Q).
  { unfold r.
    assert (H1 : (inject_Z k * P * ulp <= inject_Z N * ulp)%Q)
      by (apply Qmult_le_compat_r; [exact HNQ | lra]).
    assert (H2 : (inject_Z k * P * ulp == inject_Z k)%Q).
    { rewrite <- Qmult_assoc, (Qmult_comm P ulp), Hulp1. ring. }
    rewrite H2 in H1. exact H1. }
  assert (Hr2 : (r < inject_Z (k + 1))%Q).
  { unfold r.
    assert (H1 : (inject_Z N * ulp <= (a * P + (1 # 2)) * ulp)%Q)
      by (apply Qmult_le_compat_r; [exact Hup | lra]).
    assert (H2 : ((a * P + (1 # 2)) * ulp == a + (1 # 2) * ulp)%Q).
    { rewrite Qmult_plus_distr_l, <- Qmult_assoc, (Qmult_comm P ulp), Hulp1. ring. }
    rewrite H2 in H1. rewrite inject_Z_plus. change (inject_Z 1) with 1%Q. lra. }
  clearbody r.
  assert (Hr0 : 0 <= Qnum r).
  { assert (H0 : (0 <= r)%Q).
    { eapply Qle_trans; [|exact Hr1]. change 0%Q with (inject_Z 0).
      rewrite <- Zle_Qle. exact Hk0. }
    unfold Qle in H0. cbn [Qnum Qden] in H0. lia. }
  assert (Hfl : Qfloor r = k).
  { assert (k <= Qfloor r).
    { rewrite <- (Qfloor_Z k). apply Qfloor_resp_le. exact Hr1. }
    assert (Qfloor r < k + 1).
    { rewrite Zlt_Qlt. eapply Qle_lt_trans; [apply Qfloor_le | exact Hr2]. }
    lia. }
  rewrite <- Hfl. unfold Qtrunc, Qfloor. destruct r as [rn rd]. cbn [Qnum Qden] in *.
  apply Z.quot_div_nonneg; lia.
Qed.

(** A negative quotient rounds to a value that is not positive. *)
Lemma binary64_negative (q : Q) :
  (q < 0)%Q -> Qtrunc (binary64 q) <= 0.
Proof.
  intro Hq. unfold binary64.
  assert (Hz : Qeq_bool q 0 = false).
  { destruct (Qeq_bool q 0) eqn:E; [|reflexivity].
    apply Qeq_bool_iff in E. lra. }
  assert (Hs : Qltb q 0 = true) by (apply Qltb_true_iff; exact Hq).
  rewrite Hz, Hs. cbv zeta.
  set (ulp := (2 ^ (Z.max (ilog2 (Qabs.Qabs q)) (-1022) - 52))%Q).
  assert (Hulp0 : (0 < ulp)%Q) by (unfold ulp; apply Qpower.Qpower_0_lt; lra).
  destruct (round_half_even_bounds (Qabs.Qabs q / ulp)) as [_ Hlow].
  assert (HN : 0 <= round_half_even (Qabs.Qabs q / ulp)).
  { apply Hlow. change (inject_Z 0) with 0%Q.
    apply Qle_shift_div_l; [exact Hulp0|].
    rewrite Qmult_0_l. apply Qabs.Qabs_nonneg. }
  set (N := round_half_even (Qabs.Qabs q / ulp)) in *.
  assert (Hr : (0 <= inject_Z N * ulp)%Q).
  { apply Qmult_le_0_compat; [|lra].
    change 0%Q with (inject_Z 0). rewrite <- Zle_Qle. exact HN. }
  destruct (inject_Z N * ulp)%Q as [rn rd].
  unfold Qle in Hr. cbn [Qnum Qden] in Hr.
  unfold Qtrunc, Qopp. cbn [Qnum Qden].
  rewrite Z.quot_opp_l by lia.
  pose proof (Z.quot_pos rn (Zpos rd) ltac:(lia) ltac:(lia)). lia.
Qed.

(** With [end] less than 2^34 seconds ahead (or behind), the text is the
    same whether [total_seconds()] is exact or rounded. *)
Lemma fmt_remaining_binary64_in_range (now_ end_utc : utc_datetime) :
  epoch_us end_utc - epoch_us now_ < SECONDS_EXACT_US ->
  fmt_remaining_binary64 now_ end_utc = fmt_remaining now_ end_utc.
Proof.
  intro H. unfold fmt_remaining_binary64, fmt_remaining, total_seconds_between.
  set (u := epoch_us end_utc - epoch_us now_) in *.
  destruct (Z.le_gt_cases 0 u) as [Hu | Hu].
  - rewrite (binary64_keeps_whole_seconds u) by lia. reflexivity.
  - assert (H1 : Qtrunc (binary64 (u # 1000000)) <= 0).
    { apply binary64_negative. unfold Qlt. simpl. lia. }
    assert (H2 : Qtrunc (u # 1000000) <= 0).
    { unfold Qtrunc. cbn [Qnum Qden].
      replace u with (- (- u)) by lia. rewrite Z.quot_opp_l by lia.
      pose proof (Z.quot_pos (- u) 1000000 ltac:(lia) ltac:(lia)). lia. }
    set (x := Qtrunc (binary64 (u # 1000000))) in *.
    set (y := Qtrunc (u # 1000000)) in *.
    assert (Hx : (if x <? 0 then 0 else x) = 0) by (destruct (Z.ltb_spec x 0); lia).
    assert (Hy : (if y <? 0 then 0 else y) = 0) by (destruct (Z.ltb_spec y 0); lia).
    cbv zeta. rewrite Hx, Hy. reflexivity.
Qed.

(** With [end] and [next_start] between the epoch and 2^34 seconds after it
    (2514-05-30), the key is the same whether [timestamp()] is exact or
    rounded. *)
Lemma key_of_binary64_in_range (ev : InfobarEvent) :
  0 <= epoch_us (end_ ev) < SECONDS_EXACT_US ->
  (forall ns, next_start ev = Some ns -> 0 <= epoch_us ns < SECONDS_EXACT_US) ->
  key_of_binary64 ev = key_of ev.
Proof.
  intros He Hn. unfold key_of_binary64, key_of, end_seconds, next_start_seconds, timestamp.
  rewrite (binary64_keeps_whole_seconds _ He).
  destruct (next_start ev) as [ns|]; [|reflexivity].
  rewrite (binary64_keeps_whole_seconds _ (Hn ns eq_refl)). reflexivity.
Qed.

(** The rounding at work: one tenth; a tie going to the even significand;
    7500.999999 seconds staying below 7501; and, from 2^34 seconds on, a
    quotient one microsecond short of a whole second reaching it. *)
Lemma binary64_samples :
  Qred (binary64 (1 # 10)) = (3602879701896397 # 36028797018963968)%Q
  /\ Qred (binary64 (inject_Z (2 ^ 53 + 1))) = inject_Z (2 ^ 53)
  /\ Qred (binary64 (inject_Z (2 ^ 53 + 3))) = inject_Z (2 ^ 53 + 4)
  /\ Qtrunc (binary64 (7500999999 # 1000000)) = 7500
  /\ Qtrunc (binary64 (17179869183999999 # 1000000)) = 17179869183
  /\ Qtrunc (binary64 (17179869184999999 # 1000000)) = 17179869185
  /\ Qtrunc (binary64 (- (17179869184999999 # 1000000))) = -17179869185.
Proof. repeat split; vm_compute; reflexivity. Qed.

(** ** send_infobar.py: the minutes the test bar shows *)

Lemma minutes_of_seconds (s m : Z) :
  0 <= m -> 60 * m <= s <= 60 * m + 59 ->
  s / 3600 = m / 60 /\ (s mod 3600) / 60 = m mod 60.
Proof.
  intros Hm Hs.
  pose proof (Z.div_mod m 60 ltac:(lia)) as Hdm.
  pose proof (Z.mod_pos_bound m 60 ltac:(lia)) as Hmb.
  assert (Hr : s mod 3600 = 60 * (m mod 60) + (s - 60 * m)).
  { symmetry. apply (Z.mod_unique s 3600 (m / 60)); lia. }
  split.
  - symmetry. apply (Z.div_unique s 3600 (m / 60) (60 * (m mod 60) + (s - 60 * m))); lia.
  - rewrite Hr. symmetry.
    apply (Z.div_unique _ 60 (m mod 60) (s - 60 * m)); lia.
Qed.

(** X14.  [cli()] with [--mins m] sets [end] to [m] minutes after the producer's
    clock, and [_iso] then cuts it to the whole second.  An overlay that
    renders the file when its own clock is past that whole second, and by no
    more than a minute, shows the hours and minutes of [m - 1]: one minute
    less than asked for.  It shows [m] only when it renders at that very
    whole second.  This is for [m] minutes below 2^34 seconds (some 544
    years), where [total_seconds()] rounded to binary64 truncates as the
    exact quotient does: the text is the same with either. *)
Theorem cli_bar_shows_one_minute_less
        {B : Builtins} (c c' : clock) (num : Z) (name title : string)
        (mins : Z) (w : world) :
  let p := epoch_us (now_utc c) in
  let whole := p - p mod 1000000 in
  let r := epoch_us (now_utc c') in
  1 <= mins -> 60 * mins < 2 ^ 34 ->
  DATETIME_MIN_US <= p -> p + mins * 60 * 1000000 <= DATETIME_MAX_US ->
  fromisoformat "" = None ->
  Forall (fun d => fromisoformat (isoformat d) = Some d)
         [mk_datetime whole None; mk_datetime (whole + mins * 60 * 1000000) None] ->
  whole <= r <= whole + 60 * 1000000 ->
  exists w' payload ev,
    cli c num name title (Some mins) w = (Ret tt, w')
    /\ read_file EVENT_FILE (files w') = Some payload
    /\ from_json c' payload = Ret ev
    /\ end_ ev = mk_utc (whole + mins * 60 * 1000000)
    /\ fmt_remaining_binary64 (now_utc c') (end_ ev)
       = fmt_remaining (now_utc c') (end_ ev)
    /\ (whole < r ->
        fmt_remaining_binary64 (now_utc c') (end_ ev)
        = ("Remaining time " ++ fmt_02d ((mins - 1) / 60) ++ ":"
           ++ fmt_02d ((mins - 1) mod 60) ++ " Hours")%string)
    /\ (r = whole ->
        fmt_remaining_binary64 (now_utc c') (end_ ev)
        = ("Remaining time " ++ fmt_02d (mins / 60) ++ ":"
           ++ fmt_02d (mins mod 60) ++ " Hours")%string).
Proof.
  intros p whole r Hm Hbig Hlo Hhi He Hrt Hr.
  set (D := mins * 60 * 1000000) in *.
  assert (Hpm : 0 <= p mod 1000000 < 1000000) by (apply Z.mod_pos_bound; lia).
  assert (Htd : timedelta_minutes mins = Ret D).
  { unfold timedelta_minutes. fold D.
    assert (Hd : 0 <= D / (86400 * 1000000) <= 999999999).
    { split; [apply Z.div_pos; unfold D; lia|].
      apply Z.div_le_upper_bound; [lia|].
      unfold DATETIME_MAX_US, DATETIME_MIN_US in *. lia. }
    assert (Hb : (-999999999 <=? D / (86400 * 1000000))
                 && (D / (86400 * 1000000) <=? 999999999) = true).
    { apply andb_true_iff. split; apply Z.leb_le; lia. }
    rewrite Hb. reflexivity. }
  assert (Hadd : datetime_add (utcnow c) D = Ret (mk_datetime (p + D) None)).
  { unfold datetime_add, utcnow. cbn [wall_us utcoffset_us]. fold p.
    assert (Hb : (DATETIME_MIN_US <=? p + D) && (p + D <=? DATETIME_MAX_US) = true).
    { apply andb_true_iff. split; apply Z.leb_le; unfold D in *; lia. }
    rewrite Hb. reflexivity. }
  assert (Hstart : iso_arg c (Some (utcnow c)) = mk_datetime whole None) by reflexivity.
  assert (Hend : iso_arg c (Some (mk_datetime (p + D) None))
                 = mk_datetime (whole + D) None).
  { unfold iso_arg, replace_microsecond_0. cbn [wall_us utcoffset_us]. f_equal.
    assert (HD : (p + D) mod 1000000 = p mod 1000000).
    { unfold D. replace (p + mins * 60 * 1000000) with (p + (mins * 60) * 1000000) by lia.
      apply Z.mod_add. lia. }
    rewrite HD. unfold whole. lia. }
  inversion Hrt as [|? ? R1 Hrt1]; subst. inversion Hrt1 as [|? ? R2 _]; subst.
  assert (Hparse :
            from_json c' (PDict (build_payload c num name title (Some (utcnow c))
                                               (Some (mk_datetime (p + D) None))
                                               (opt_str None) None))
            = Ret (mk_event num name title (mk_utc whole) (mk_utc (whole + D))
                            (Finite (time_time c)) None None)).
  { rewrite (from_json_build_payload c c' num name title (Some (utcnow c))
                                     (Some (mk_datetime (p + D) None)) None None He).
    - rewrite Hstart, Hend. reflexivity.
    - rewrite Hstart, Hend.
      repeat constructor; assumption.
    - reflexivity.
    - reflexivity.
    - exact I. }
  eexists. eexists. eexists.
  split.
  { unfold cli, bind, lift. rewrite Htd, Hadd.
    rewrite send_infobar_event_run. reflexivity. }
  split; [cbn [files read_file]; rewrite path_eqb_refl; reflexivity|].
  split; [exact Hparse|].
  split; [reflexivity|].
  cbn [end_].
  assert (Hsame : fmt_remaining_binary64 (now_utc c') (mk_utc (whole + D))
                  = fmt_remaining (now_utc c') (mk_utc (whole + D))).
  { apply fmt_remaining_binary64_in_range. cbn [epoch_us]. fold r.
    unfold SECONDS_EXACT_US, D. lia. }
  split; [exact Hsame|]. rewrite Hsame.
  split; intro Hcase.
  - pose proof (fmt_remaining_unfold (now_utc c') (mk_utc (whole + D))) as Hu.
    cbv zeta in Hu. cbn [epoch_us] in Hu. fold r in Hu.
    set (s := Z.max 0 ((whole + D - r) / 1000000)) in *.
    assert (Hs : 60 * (mins - 1) <= s <= 60 * (mins - 1) + 59).
    { assert (Hq : 60 * (mins - 1) <= (whole + D - r) / 1000000 <= 60 * (mins - 1) + 59).
      { split; [apply Z.div_le_lower_bound; unfold D; lia|].
        assert ((whole + D - r) / 1000000 < 60 * mins)
          by (apply Z.div_lt_upper_bound; unfold D; lia).
        lia. }
      unfold s. lia. }
    destruct (minutes_of_seconds s (mins - 1) ltac:(lia) Hs) as [H1 H2].
    rewrite Hu, H1, H2. reflexivity.
  - pose proof (fmt_remaining_unfold (now_utc c') (mk_utc (whole + D))) as Hu.
    cbv zeta in Hu. cbn [epoch_us] in Hu. fold r in Hu.
    set (s := Z.max 0 ((whole + D - r) / 1000000)) in *.
    assert (Hs : s = 60 * mins).
    { unfold s. rewrite Hcase.
      replace (whole + D - whole) with ((60 * mins) * 1000000) by (unfold D; lia).
      rewrite Z.div_mul by lia. lia. }
    destruct (minutes_of_seconds s mins ltac:(lia) ltac:(lia)) as [H1 H2].
    rewrite Hu, H1, H2. reflexivity.
Qed.

(** [--mins 60] at 20:00:00.5, rendered a tenth of a second later: the bar
    reads 00:59. *)
Lemma cli_bar_shows_one_minute_less_witness :
  let c := mk_clock (17553744005 # 10) (mk_utc 1755374400500000) in
  let c' := mk_clock (17553744006 # 10) (mk_utc 1755374400600000) in
  exists w' payload ev,
    cli (B := RefBuiltins.builtins) c 3 "TV3" "Movie" (Some 60)
        (mk_world [] [] true [])
    = (Ret tt, w')
    /\ read_file EVENT_FILE (files w') = Some payload
    /\ from_json (B := RefBuiltins.builtins) c' payload = Ret ev
    /\ fmt_remaining_binary64 (now_utc c') (end_ ev) = "Remaining time 00:59 Hours".
Proof.
  intros c c'.
  destruct (cli_bar_shows_one_minute_less
              (B := RefBuiltins.builtins) c c' 3 "TV3" "Movie" 60
              (mk_world [] [] true []))
    as (w' & payload & ev & Hc & Hf & Hp & _ & _ & Hless & _).
  - lia.
  - lia.
  - vm_compute. discriminate.
  - vm_compute. discriminate.
  - reflexivity.
  - repeat constructor.
  - vm_compute. split; discriminate.
  - exists w', payload, ev.
    split; [exact Hc|]. split; [exact Hf|]. split; [exact Hp|].
    rewrite Hless; [reflexivity|]. vm_compute. reflexivity.
Defined.

(** Past 2^34 seconds the rounding shows: [--mins 300000000], rendered one
    microsecond after the producer's whole second, has 17999999999.999999
    seconds left, which binary64 rounds to 18000000000, and the bar reads
    the minutes asked for, not one less. *)
Lemma cli_bar_rounds_up_past_2_34 :
  let now_ := mk_utc 1755374400000001 in
  let end_utc := mk_utc (1755374400000000 + 300000000 * 60 * 1000000) in
  fmt_remaining now_ end_utc = "Remaining time 4999999:59 Hours"
  /\ fmt_remaining_binary64 now_ end_utc = "Remaining time 5000000:00 Hours".
Proof. split; vm_compute; reflexivity. Qed.

(** ** bridge.py: one call after another *)

(** X15.  A second call replaces what the first wrote: the file then holds the
    second payload only, the directory the first call made is found and
    nothing is added to the directories, and with a working socket the two
    payloads were sent in the order of the calls. *)
Theorem second_send_replaces_the_file
        {B : Builtins} (c1 c2 : clock) (n1 n2 : Z) (name1 title1 name2 title2 : string)
        (s1 e1 s2 e2 : option datetime) (nt1 nt2 : pyval)
        (ns1 ns2 : option datetime) (w : world) :
  let p1 := PDict (build_payload c1 n1 name1 title1 s1 e1 nt1 ns1) in
  let p2 := PDict (build_payload c2 n2 name2 title2 s2 e2 nt2 ns2) in
  let w1 := snd (send_infobar_event c1 n1 name1 title1 s1 e1 nt1 ns1 w) in
  let r2 := send_infobar_event c2 n2 name2 title2 s2 e2 nt2 ns2 w1 in
  fst r2 = Ret tt
  /\ read_file EVENT_FILE (files (snd r2)) = Some p2
  /\ dirs (snd r2) = dirs w1
  /\ sent (snd r2) = (if udp_up w then sent w ++ [p1; p2] else sent w).
Proof.
  intros p1 p2 w1 r2.
  destruct (makedirs_creates (dirname EVENT_FILE) w) as [_ Hd].
  assert (Hw1 : w1 = mk_world (dirs (snd (makedirs (dirname EVENT_FILE) w)))
                              ((EVENT_FILE, p1) :: files w) (udp_up w)
                              (if udp_up w then sent w ++ [p1] else sent w)).
  { unfold w1. rewrite send_infobar_event_run. reflexivity. }
  assert (Hd1 : dir_exists w1 (dirname EVENT_FILE) = true) by (rewrite Hw1; exact Hd).
  unfold r2. rewrite send_infobar_event_run. fold p2. cbn [fst snd files dirs sent].
  split; [reflexivity|]. split; [cbn [read_file]; rewrite path_eqb_refl; reflexivity|].
  split.
  - unfold makedirs, modify. cbn [snd dirs]. cbn [dirname EVENT_FILE removelast
                                                   List.length ancestors filter].
    cbn [dirname EVENT_FILE removelast] in Hd1. rewrite Hd1. reflexivity.
  - rewrite Hw1. cbn [udp_up sent]. destruct (udp_up w); [|reflexivity].
    rewrite <- app_assoc. reflexivity.
Qed.

(** ** monkey_infobar_hook.py: what the extraction depends on *)

Section Extraction.
Context {B : Builtins}.

Lemma or_else_get (p : pydict) (k : string) (rest : outcome pyval) :
  or_else (py_get (PDict p) k PNone) rest
  = match truthy_lookup k p with
    | Some v => Ret v
    | None => rest
    end.
Proof.
  unfold or_else, py_get, dict_get, truthy_lookup.
  destruct (lookup k p) as [v|]; [|reflexivity].
  destruct (truthy v); reflexivity.
Qed.

(** X16.  [_extract] reads nine top-level keys, each through [or]: a value that is
    there but falsy (a channel number 0, an empty name, an empty [now]) counts
    as missing and the next spelling is tried, and other keys are not looked
    at.  Two payloads that agree on the truthy values under the nine keys
    extract alike. *)
Theorem _extract_reads_truthy_values (p1 p2 : pydict) :
  (forall k, In k HOOK_KEYS -> truthy_lookup k p1 = truthy_lookup k p2) ->
  _extract p1 = _extract p2.
Proof.
  intro H. unfold _extract. rewrite !or_else_get.
  rewrite !(H "channel_number"), !(H "channelNum"), !(H "channel"),
    !(H "channel_name"), !(H "now"), !(H "current"), !(H "programme"),
    !(H "next"), !(H "up_next")
    by (unfold HOOK_KEYS; simpl; tauto).
  reflexivity.
Qed.

End Extraction.

(** A channel number 0 with [channelNum] 7, an empty [now] with a
    [current], and a key of the host's own: the same as the plain payload. *)
Lemma _extract_reads_truthy_values_witness :
  _extract (B := RefBuiltins.builtins)
           [("channel_number", PInt 0); ("channelNum", PInt 7);
            ("channel_name", PStr "TV7"); ("now", PDict []);
            ("current", PDict [("title", PStr "Movie")]); ("uptime", PInt 99)]
  = _extract (B := RefBuiltins.builtins)
             [("channelNum", PInt 7); ("channel_name", PStr "TV7");
              ("current", PDict [("title", PStr "Movie")])]
  /\ _extract (B := RefBuiltins.builtins)
              [("channelNum", PInt 7); ("channel_name", PStr "TV7");
               ("current", PDict [("title", PStr "Movie")])]
     = Ret (mk_extracted 7 "TV7" "Movie" None None PNone None).
Proof.
  split; [|reflexivity].
  apply _extract_reads_truthy_values.
  intros k Hk. unfold HOOK_KEYS in Hk. simpl in Hk.
  repeat (destruct Hk as [<-|Hk]; [reflexivity|]). contradiction.
Defined.

(** ** infobar_sv.py: the two transports share one slot *)

(** X17.  Both transports end in [_on_event], and the slot holds one event: of a
    datagram and a newer file, each of which parses, the one handled last is
    the event shown, with the timer anchored at its clock reading; the other
    is gone. *)
Theorem last_delivery_wins
        {B : Builtins} (c1 c2 : clock) (v1 v2 : pyval) (ev1 ev2 : InfobarEvent)
        (st : event_file) (a : OverlayApp) :
  from_json c1 v1 = Ret ev1 ->
  json st = Some v2 -> from_json c2 v2 = Ret ev2 ->
  (_file_mtime a < st_mtime st)%Q ->
  let file_last := snd (_poll_file c2 (Some st) (snd (_udp_datagram c1 (Some v1) a))) in
  let udp_last := snd (_udp_datagram c1 (Some v1) (snd (_poll_file c2 (Some st) a))) in
  event file_last = Some ev2 /\ fade_t0 file_last = time_time c2
  /\ current_img_key (renderer file_last) = Some (key_of ev2)
  /\ event udp_last = Some ev1 /\ fade_t0 udp_last = time_time c1
  /\ current_img_key (renderer udp_last) = Some (key_of ev1).
Proof.
  intros H1 Hj H2 Hlt file_last udp_last.
  unfold file_last, udp_last.
  rewrite !(_udp_datagram_accepts c1 v1 ev1 _ H1).
  assert (Hlt' : (_file_mtime (snd (_on_event c1 ev1 a)) < st_mtime st)%Q)
    by (rewrite _on_event_run; exact Hlt).
  rewrite (_poll_file_newer c2 st _ Hlt'), (_poll_file_newer c2 st a Hlt).
  cbv zeta. rewrite Hj, H2. rewrite !_on_event_run. cbn [snd event fade_t0 renderer].
  rewrite !ensure_texture_stores_key. repeat split.
Qed.

(** A datagram for channel 3 and a file for channel 5, in both orders. *)
Lemma last_delivery_wins_witness :
  let c1 := mk_clock 1755374400 (mk_utc 1755374400000000) in
  let c2 := mk_clock 1755374401 (mk_utc 1755374401000000) in
  let v1 := PDict [("channel_number", PInt 3); ("title", PStr "Movie")] in
  let st := mk_file 7 (Some (PDict [("channel_number", PInt 5);
                                    ("title", PStr "News")])) in
  let poll := _poll_file (B := RefBuiltins.builtins) c2 (Some st) in
  let recv := _udp_datagram (B := RefBuiltins.builtins) c1 (Some v1) in
  option_map channel_number (event (snd (poll (snd (recv init_app))))) = Some 5
  /\ option_map channel_number (event (snd (recv (snd (poll init_app))))) = Some 3.
Proof.
  intros c1 c2 v1 st poll recv.
  assert (H1 : exists ev1, from_json (B := RefBuiltins.builtins) c1 v1 = Ret ev1)
    by (eexists; reflexivity).
  assert (H2 : exists ev2, from_json (B := RefBuiltins.builtins) c2
                             (PDict [("channel_number", PInt 5);
                                     ("title", PStr "News")]) = Ret ev2)
    by (eexists; reflexivity).
  destruct H1 as [ev1 H1]. destruct H2 as [ev2 H2].
  destruct (last_delivery_wins (B := RefBuiltins.builtins)
                               c1 c2 v1 _ ev1 ev2 st init_app H1 eq_refl H2 eq_refl)
    as (Ha & _ & _ & Hb & _).
  unfold poll, recv. rewrite Ha, Hb.
  vm_compute in H1. vm_compute in H2. inversion H1; inversion H2; subst.
  split; reflexivity.
Defined.

(** ** infobar_sv.py: what the cache key stands for *)

Lemma strftime_HM_of_seconds (ns : utc_datetime) :
  1000000 <= epoch_us ns ->
  strftime_HM ns
  = (fmt_02d ((Qtrunc (timestamp ns) mod 86400) / 3600) ++ ":"
     ++ fmt_02d ((Qtrunc (timestamp ns) mod 86400) / 60 mod 60))%string.
Proof.
  intro H. unfold strftime_HM, Qtrunc, timestamp. simpl Qnum. simpl Qden.
  rewrite Z.quot_div_nonneg by lia. reflexivity.
Qed.

(** X18.  Two events with the same key (line 229, with [timestamp()] rounded
    as the interpreter rounds it), rendered at the same clock reading, give
    images that agree on the channel number and name, the title and the NEXT
    row, provided a [next_start], when given, is at least a second after the
    epoch and less than 2^34 seconds after it (2514-05-30): the
    remaining-time text is the only part the key does not fix.  Without the
    first proviso the key is too coarse: no [next_start] and a [next_start]
    at the epoch share a key, and only the second shows a time. *)
Theorem cache_key_fixes_all_but_remaining
        (c : clock) (ev1 ev2 : InfobarEvent) :
  key_of_binary64 ev1 = key_of_binary64 ev2 ->
  (forall ns, next_start ev1 = Some ns -> 1000000 <= epoch_us ns < SECONDS_EXACT_US) ->
  (forall ns, next_start ev2 = Some ns -> 1000000 <= epoch_us ns < SECONDS_EXACT_US) ->
  img_number (_draw_infobar_image c ev1) = img_number (_draw_infobar_image c ev2)
  /\ img_channel (_draw_infobar_image c ev1) = img_channel (_draw_infobar_image c ev2)
  /\ img_title (_draw_infobar_image c ev1) = img_title (_draw_infobar_image c ev2)
  /\ img_next (_draw_infobar_image c ev1) = img_next (_draw_infobar_image c ev2)
  /\ key_of_binary64 (mk_event (channel_number ev1) (channel_name ev1) (title ev1)
                               (start ev1) (end_ ev1) (ts ev1) (next_title ev1) None)
     = key_of_binary64 (mk_event (channel_number ev1) (channel_name ev1) (title ev1)
                                 (start ev1) (end_ ev1) (ts ev1) (next_title ev1)
                                 (Some (mk_utc 0))).
Proof.
  intros Hk B1 B2. unfold key_of_binary64 in Hk.
  inversion Hk as [[Hn Hc Ht He Hnt Hns]]. clear He Hk.
  unfold _draw_infobar_image. cbn [img_number img_channel img_title img_next].
  rewrite Hn, Hc, Ht, Hnt.
  split; [reflexivity|]. split; [reflexivity|]. split; [reflexivity|]. split; [|reflexivity].
  destruct (opt_truthy (next_title ev2)); [|reflexivity].
  destruct (next_start ev1) as [n1|] eqn:E1, (next_start ev2) as [n2|] eqn:E2.
  - specialize (B1 n1 eq_refl). specialize (B2 n2 eq_refl).
    unfold timestamp in Hns.
    rewrite !binary64_keeps_whole_seconds in Hns by lia.
    fold (timestamp n1) in Hns. fold (timestamp n2) in Hns.
    rewrite (strftime_HM_of_seconds n1), (strftime_HM_of_seconds n2), Hns by lia.
    reflexivity.
  - exfalso. specialize (B1 n1 eq_refl).
    unfold timestamp in Hns.
    rewrite binary64_keeps_whole_seconds in Hns by lia.
    unfold Qtrunc in Hns. cbn [Qnum Qden] in Hns.
    rewrite Z.quot_div_nonneg in Hns by lia.
    assert (1 <= epoch_us n1 / 1000000) by (apply Z.div_le_lower_bound; lia). lia.
  - exfalso. specialize (B2 n2 eq_refl).
    unfold timestamp in Hns.
    rewrite binary64_keeps_whole_seconds in Hns by lia.
    unfold Qtrunc in Hns. cbn [Qnum Qden] in Hns.
    rewrite Z.quot_div_nonneg in Hns by lia.
    assert (1 <= epoch_us n2 / 1000000) by (apply Z.div_le_lower_bound; lia). lia.
  - reflexivity.
Qed.

(** Two events that differ in [start], in [ts] and within the second of
    [end] and [next_start]: the same NEXT row; and the clash at the epoch. *)
Lemma cache_key_fixes_all_but_remaining_witness :
  let c := mk_clock 1755374400 (mk_utc 1755374400000000) in
  let ev1 := mk_event 3 "TV3" "Movie" (mk_utc 0) (mk_utc 1755381480100000)
                      (Finite 1) (Some "News") (Some (mk_utc 1755381480100000)) in
  let ev2 := mk_event 3 "TV3" "Movie" (mk_utc 5) (mk_utc 1755381480900000)
                      (Finite 2) (Some "News") (Some (mk_utc 1755381480900000)) in
  img_next (_draw_infobar_image c ev1) = img_next (_draw_infobar_image c ev2)
  /\ img_next (_draw_infobar_image c ev1) = Some "News  21:58"
  /\ img_next (_draw_infobar_image c
                 (mk_event 3 "TV3" "Movie" (mk_utc 0) (mk_utc 0) (Finite 1)
                           (Some "News") (Some (mk_utc 0))))
     = Some "News  00:00"
  /\ img_next (_draw_infobar_image c
                 (mk_event 3 "TV3" "Movie" (mk_utc 0) (mk_utc 0) (Finite 1)
                           (Some "News") None))
     = Some "News".
Proof.
  intros c ev1 ev2.
  split; [|repeat split].
  apply (cache_key_fixes_all_but_remaining c ev1 ev2).
  - vm_compute. reflexivity.
  - intros ns H. inversion H; subst. unfold SECONDS_EXACT_US. simpl. lia.
  - intros ns H. inversion H; subst. unfold SECONDS_EXACT_US. simpl. lia.
Defined.

(** Past 2^34 seconds the rounding shows: a [next_start] of
    2600-01-01T00:00:59.999999Z has the timestamp 19880899259.999999, which
    binary64 rounds to 19880899260, the timestamp of 00:01:00.  The two
    events share the interpreter's key and show different minutes. *)
Lemma cache_key_after_2514_is_coarser :
  let c := mk_clock 1755374400 (mk_utc 1755374400000000) in
  let ev1 := mk_event 3 "TV3" "Movie" (mk_utc 0) (mk_utc 1755381480000000)
                      (Finite 1) (Some "News") (Some (mk_utc 19880899259999999)) in
  let ev2 := mk_event 3 "TV3" "Movie" (mk_utc 0) (mk_utc 1755381480000000)
                      (Finite 1) (Some "News") (Some (mk_utc 19880899260000000)) in
  key_of_binary64 ev1 = key_of_binary64 ev2
  /\ key_of ev1 <> key_of ev2
  /\ img_next (_draw_infobar_image c ev1) = Some "News  00:00"
  /\ img_next (_draw_infobar_image c ev2) = Some "News  00:01".
Proof.
  intros c ev1 ev2.
  split; [vm_compute; reflexivity|]. split; [discriminate|].
  split; vm_compute; reflexivity.
Qed.

(** ** monkey_infobar_hook.py to infobar_sv.py: a status reaches the bar *)

(** X19.  When the host's call returns and carries a dict from which [_extract]
    draws a channel name and a title, the wrapper returns the host's value
    and leaves the event file holding a payload that the overlay parses to an
    event with the extracted channel number, channel name and title, and the
    extracted times cut to whole seconds (the producer's clock where a time
    is missing) and read as UTC.  This holds for times without a zone whose
    text [fromisoformat] reads back, and a next title that is text or
    absent. *)
Theorem host_status_reaches_overlay
        {B : Builtins}
        (_orig : list pyval -> list (string * pyval) -> M world pyval)
        (c c' : clock) (args : list pyval) (kwargs : list (string * pyval))
        (w w1 : world) (rv : pyval) (kv : string * pyval) (rest : pydict)
        (x : extracted) (nt : option string) :
  _orig args kwargs w = (Ret rv, w1) ->
  find_payload args kwargs = Some (PDict (kv :: rest)) ->
  _extract (kv :: rest) = Ret x ->
  x_ch_name x <> "" -> x_now_title x <> "" ->
  x_next_title x = opt_str nt ->
  fromisoformat "" = None ->
  Forall (fun d => fromisoformat (isoformat d) = Some d)
         [iso_arg c (x_now_start x); iso_arg c (x_now_end x);
          iso_arg c (x_next_start x)] ->
  naive (x_now_start x) -> naive (x_now_end x) -> naive (x_next_start x) ->
  exists w2 payload,
    update_status_socket _orig c args kwargs w = (Ret rv, w2)
    /\ read_file EVENT_FILE (files w2) = Some payload
    /\ from_json c' payload
       = Ret (mk_event (x_ch_num x) (x_ch_name x) (x_now_title x)
                       (mk_utc (wall_us (iso_arg c (x_now_start x))))
                       (mk_utc (wall_us (iso_arg c (x_now_end x))))
                       (Finite (time_time c))
                       (if opt_truthy nt then nt else None)
                       (match x_next_start x with
                        | Some _ => Some (mk_utc (wall_us (iso_arg c (x_next_start x))))
                        | None => None
                        end)).
Proof.
  intros Ho Hf Hx Hname Htitle Hnt He Hrt N1 N2 N3.
  apply String.eqb_neq in Hname, Htitle.
  eexists. eexists. split; [|split].
  - unfold update_status_socket, bind. rewrite Ho, Hf. cbn [truthy].
    rewrite notify_run. unfold after_notify. rewrite Hx, Hname, Htitle. cbn [negb andb].
    rewrite send_infobar_event_run. reflexivity.
  - cbn [snd files read_file]. rewrite path_eqb_refl. reflexivity.
  - rewrite Hnt. apply from_json_build_payload; assumption.
Qed.

(** A host that returns [None] and passes its status as a keyword argument,
    with the start as a Unix time and the end as text. *)
Lemma host_status_reaches_overlay_witness :
  let c := mk_clock 1755374400 (mk_utc 1755374400000000) in
  let host : list pyval -> list (string * pyval) -> M world pyval :=
    fun _ _ => ret PNone in
  let status := PDict [("channel", PDict [("number", PInt 3); ("name", PStr "TV3")]);
                       ("now", PDict [("title", PStr "Movie");
                                      ("start", PInt 1755374400);
                                      ("end_time", PStr "2025-08-16T21:58:00")]);
                       ("next", PDict [("title", PStr "News")])] in
  exists w2 payload,
    update_status_socket (B := RefBuiltins.builtins) host c [PStr "tv"]
                         [("status", status)] (mk_world [] [] false [])
    = (Ret PNone, w2)
    /\ read_file EVENT_FILE (files w2) = Some payload
    /\ from_json (B := RefBuiltins.builtins) c payload
       = Ret (mk_event 3 "TV3" "Movie" (mk_utc 1755374400000000)
                       (mk_utc 1755381480000000) (Finite 1755374400)
                       (Some "News") None).
Proof.
  intros c host status.
  destruct (host_status_reaches_overlay
              (B := RefBuiltins.builtins) host c c [PStr "tv"] [("status", status)]
              (mk_world [] [] false []) (mk_world [] [] false []) PNone
              ("channel", PDict [("number", PInt 3); ("name", PStr "TV3")])
              [("now", PDict [("title", PStr "Movie");
                              ("start", PInt 1755374400);
                              ("end_time", PStr "2025-08-16T21:58:00")]);
               ("next", PDict [("title", PStr "News")])]
              (mk_extracted 3 "TV3" "Movie"
                            (Some (mk_datetime 1755374400000000 None))
                            (Some (mk_datetime 1755381480000000 None))
                            (PStr "News") None)
              (Some "News"))
    as (w2 & payload & Hu & Hf & Hp); try reflexivity; try discriminate.
  - repeat constructor.
  - exists w2, payload. split; [exact Hu|]. split; [exact Hf | exact Hp].
Defined.
